(** * Bulk training and pre-trained inference pipeline

    A shallow embedding of the core of the stock prediction service:
    - [services/stock_data_fetcher.py]: [calculate_technical_indicators];
    - [services/model_trainer.py]: class [ModelTrainer];
    - [services/lstm_prediction.py]: class [LSTMPredictor] and the two
      prediction entry points.

    Numbers.  A NumPy [float64] is modelled by [float64] below: an exact
    rational, or one of the three special values.  The special values
    follow IEEE 754 (what NumPy and pandas do for array arithmetic);
    finite arithmetic is exact, so rounding is abstracted away.  There is
    one zero: a division by zero is a division by [+0].

    Libraries.  pandas, NumPy and scikit-learn are not part of the
    repository; the few operations the code calls are written out here
    with the library's documented behaviour.  Keras and the market data
    provider are parameters of the development (section [Pipeline]). *)

From Stdlib Require Import ZArith QArith Qround String Ascii List Lia.
From stdpp Require Import gmap strings list pretty.

Open Scope string_scope.
Open Scope list_scope.

(** ** Floating point values *)

Inductive float64 : Type :=
| Fin (q : Q)
| PInf
| NInf
| NaN.

Module Np.

Definition isnan (x : float64) : bool :=
  match x with NaN => true | _ => false end.

Definition isinf (x : float64) : bool :=
  match x with PInf | NInf => true | _ => false end.

Definition isfinite (x : float64) : bool :=
  match x with Fin _ => true | _ => false end.

Definition is_zero (x : float64) : bool :=
  match x with Fin q => Qeq_bool q 0 | _ => false end.

Definition Qpos (q : Q) : bool := negb (Qle_bool q 0).
Definition Qneg (q : Q) : bool := negb (Qle_bool 0 q).

Definition neg (x : float64) : float64 :=
  match x with
  | Fin q => Fin (Qred (- q))
  | PInf => NInf
  | NInf => PInf
  | NaN => NaN
  end.

Definition add (x y : float64) : float64 :=
  match x, y with
  | NaN, _ | _, NaN => NaN
  | Fin a, Fin b => Fin (Qred (a + b))
  | PInf, NInf | NInf, PInf => NaN
  | PInf, _ | _, PInf => PInf
  | NInf, _ | _, NInf => NInf
  end.

Definition sub (x y : float64) : float64 := add x (neg y).

(** The infinity with the sign of [q] times the sign of the infinity
    [pos]; [0 * inf] is NaN. *)
Definition signed_inf (q : Q) (pos : bool) : float64 :=
  if Qeq_bool q 0 then NaN
  else if Bool.eqb (Qpos q) pos then PInf else NInf.

Definition mul (x y : float64) : float64 :=
  match x, y with
  | NaN, _ | _, NaN => NaN
  | Fin a, Fin b => Fin (Qred (a * b))
  | Fin a, PInf | PInf, Fin a => signed_inf a true
  | Fin a, NInf | NInf, Fin a => signed_inf a false
  | PInf, PInf | NInf, NInf => PInf
  | PInf, NInf | NInf, PInf => NInf
  end.

Definition div (x y : float64) : float64 :=
  match x, y with
  | NaN, _ | _, NaN => NaN
  | Fin a, Fin b =>
      if Qeq_bool b 0 then signed_inf a true else Fin (Qred (a / b))
  | Fin _, (PInf | NInf) => Fin 0
  | PInf, Fin b => if Qneg b then NInf else PInf
  | NInf, Fin b => if Qneg b then PInf else NInf
  | (PInf | NInf), (PInf | NInf) => NaN
  end.

(** [x > y]; every comparison with NaN is false. *)
Definition gt (x y : float64) : bool :=
  match x, y with
  | NaN, _ | _, NaN => false
  | Fin a, Fin b => negb (Qle_bool a b)
  | PInf, PInf => false
  | PInf, _ => true
  | Fin _, NInf => true
  | _, _ => false
  end.

Definition lt (x y : float64) : bool := gt y x.

Definition sum (l : list float64) : float64 := fold_left add l (Fin 0).

Definition of_nat (n : nat) : float64 := Fin (inject_Z (Z.of_nat n)).
Definition of_Z (n : Z) : float64 := Fin (inject_Z n).

(** [min]/[max] of two values as [np.minimum]/[np.maximum] compute them
    on values that are not NaN. *)
Definition minimum (x y : float64) : float64 := if lt y x then y else x.
Definition maximum (x y : float64) : float64 := if gt y x then y else x.

End Np.

(** ** Python values, exceptions and the error monad *)

(** The exceptions the modelled code can raise.  [LibraryError] stands for
    an exception raised inside Keras or another external call. *)
Inductive Exception : Type :=
| KeyError (key : string)
| IndexError (msg : string)
| ValueError (msg : string)
| TypeError (msg : string)
| AttributeError (msg : string)
| LibraryError (msg : string).

(** [str(e)] *)
Definition str_exc (e : Exception) : string :=
  match e with
  | KeyError k => "'" ++ k ++ "'"
  | IndexError m | ValueError m | TypeError m | AttributeError m | LibraryError m => m
  end.

(** A computation that returns a value or raises. *)
Definition Exc (A : Type) : Type := Exception + A.

Definition exc_bind {A B} (c : Exc A) (k : A -> Exc B) : Exc B :=
  match c with
  | inl e => inl e
  | inr a => k a
  end.

Notation "'let?' x ':=' c 'in' k" := (exc_bind c (fun x => k))
  (at level 10, x pattern, c at level 100, k at level 200).

(** JSON-like Python values: what the result dictionaries and the metadata
    files hold.  A [dict] keeps insertion order, so it is an association
    list.  A date string ['%Y-%m-%d'] is kept as its day number. *)
#[warnings="-register-all"]
Inductive PyVal : Type :=
| VNone
| VBool (b : bool)
| VInt (n : Z)
| VFloat (x : float64)
| VStr (s : string)
| VDate (day : Z)
| VList (l : list PyVal)
| VDict (d : list (string * PyVal)).

Abbreviation Dict := (list (string * PyVal)).

(** [d.get(k)] *)
Fixpoint dict_get {V} (k : string) (d : list (string * V)) : option V :=
  match d with
  | [] => None
  | (k', v) :: d' => if String.eqb k k' then Some v else dict_get k d'
  end.

(** [d[k]] *)
Definition dict_item {V} (k : string) (d : list (string * V)) : Exc V :=
  match dict_get k d with
  | Some v => inr v
  | None => inl (KeyError k)
  end.

(** [d[k] = v] *)
Fixpoint dict_set {V} (k : string) (v : V) (d : list (string * V)) : list (string * V) :=
  match d with
  | [] => [(k, v)]
  | (k', v') :: d' =>
      if String.eqb k k' then (k, v) :: d' else (k', v') :: dict_set k v d'
  end.

(** ** pandas: Series and DataFrame *)

Abbreviation Series := (list float64).

(** A frame is its date index and its columns, in order.  Every column of
    a frame that pandas can build is as long as the index. *)
Record DataFrame : Type := mkDataFrame {
  index : list Z;
  columns : list (string * Series)
}.

Module Pd.

(** [len(df)] *)
Definition len (df : DataFrame) : nat := length (index df).

(** [c in df.columns] *)
Definition has_column (df : DataFrame) (c : string) : bool :=
  match dict_get c (columns df) with Some _ => true | None => false end.

(** [df[c]] *)
Definition col (df : DataFrame) (c : string) : Exc Series := dict_item c (columns df).

(** [df[c] = s] *)
Definition set_col (df : DataFrame) (c : string) (s : Series) : DataFrame :=
  mkDataFrame (index df) (dict_set c s (columns df)).

(** Every column is as long as the index. *)
Definition well_formed (df : DataFrame) : bool :=
  forallb (fun cs => (length (snd cs) =? len df)%nat) (columns df).

(** [df.empty]: no row or no column. *)
Definition empty (df : DataFrame) : bool :=
  (len df =? 0)%nat || (length (columns df) =? 0)%nat.

(** The value of a series at position [i]. *)
Definition at_ (s : Series) (i : nat) : float64 := nth i s NaN.

(** The rows of the frame kept by a list of positions. *)
Definition take (df : DataFrame) (rows : list nat) : DataFrame :=
  mkDataFrame (map (fun i => nth i (index df) 0%Z) rows)
              (map (fun cs => (fst cs, map (at_ (snd cs)) rows)) (columns df)).

Definition row_has_nan (cols : list (string * Series)) (i : nat) : bool :=
  existsb (fun cs => Np.isnan (at_ (snd cs) i)) cols.

(** [df.dropna()] *)
Definition dropna (df : DataFrame) : DataFrame :=
  take df (List.filter (fun i => negb (row_has_nan (columns df) i)) (seq 0 (len df))).

(** [df.dropna(subset=cs)] for columns [cs] of the frame. *)
Definition dropna_subset (df : DataFrame) (cs : list string) : DataFrame :=
  take df (List.filter (fun i =>
             negb (row_has_nan (List.filter (fun c => existsb (String.eqb (fst c)) cs) (columns df)) i))
          (seq 0 (len df))).

(** [df.tail(n)] *)
Definition tail (df : DataFrame) (n : nat) : DataFrame :=
  take df (seq (len df - n) (len df - (len df - n))).

(** [df[cs].values]: one list per row, the columns [cs] in order. *)
Definition values (df : DataFrame) (cs : list string) : Exc (list (list float64)) :=
  match mapM (fun c => dict_get c (columns df)) cs with
  | Some ss => inr (map (fun i => map (fun s => at_ s i) ss) (seq 0 (len df)))
  | None =>
      match List.filter (fun c => negb (has_column df c)) cs with
      | c :: _ => inl (KeyError c)
      | [] => inl (KeyError "")
      end
  end.

(** [s.replace(0, np.nan)] *)
Definition replace_zero_nan (s : Series) : Series :=
  map (fun x => if Np.is_zero x then NaN else x) s.

(** [s.replace([np.inf, -np.inf], v)] *)
Definition replace_inf (v : float64) (s : Series) : Series :=
  map (fun x => if Np.isinf x then v else x) s.

(** [s.fillna(v)] *)
Definition fillna (v : float64) (s : Series) : Series :=
  map (fun x => if Np.isnan x then v else x) s.

(** [s.where(cond, other)] *)
Definition where_ (cond : float64 -> bool) (other : float64) (s : Series) : Series :=
  map (fun x => if cond x then x else other) s.

(** [s.clip(lo, hi)]; NaN stays NaN. *)
Definition clip (lo hi : float64) (s : Series) : Series :=
  map (fun x => if Np.isnan x then NaN else Np.minimum (Np.maximum x lo) hi) s.

(** [s.ffill()] *)
Fixpoint ffill_from (prev : float64) (s : Series) : Series :=
  match s with
  | [] => []
  | x :: s' => let v := if Np.isnan x then prev else x in v :: ffill_from v s'
  end.

Definition ffill (s : Series) : Series := ffill_from NaN s.

(** [s.bfill()] *)
Definition bfill (s : Series) : Series := rev (ffill (rev s)).

(** [s.shift(1)] *)
Definition shift1 (s : Series) : Series := firstn (length s) (NaN :: s).

(** [s.diff()] *)
Definition diff (s : Series) : Series := zip_with Np.sub s (shift1 s).

(** [s.pct_change()], with the padding of missing values that is the
    default of pandas 1.x and 2.x. *)
Definition pct_change (s : Series) : Series :=
  let p := ffill s in
  zip_with (fun x y => Np.sub (Np.div x y) (Fin 1)) p (shift1 p).

(** [s.rolling(window=w).mean()]: undefined until [w] values are there and
    whenever the window holds a NaN.  Each window is summed on its own. *)
Definition rolling_mean (w : nat) (s : Series) : Series :=
  map (fun i =>
         let win := firstn w (skipn (i + 1 - w) s) in
         if (i + 1 <? w)%nat then NaN
         else if existsb Np.isnan win then NaN
         else Np.div (Np.sum win) (Np.of_nat w))
      (seq 0 (length s)).

End Pd.

(** ** services/stock_data_fetcher.py *)

(** Lines 64-72 of [calculate_technical_indicators]: the RSI column as a
    function of the close column. *)
Definition RSI (close : Series) : Series :=
  let delta := Pd.diff close in
  let gain := Pd.rolling_mean 14 (Pd.where_ (fun d => Np.gt d (Fin 0)) (Fin 0) delta) in
  let loss := Pd.rolling_mean 14 (map Np.neg (Pd.where_ (fun d => Np.lt d (Fin 0)) (Fin 0) delta)) in
  let rs := zip_with Np.div gain (Pd.replace_zero_nan loss) in
  let rs := Pd.fillna (Fin 50) (Pd.replace_inf (Fin 100) rs) in
  let rsi := map (fun r => Np.sub (Fin 100) (Np.div (Fin 100) (Np.add (Fin 1) r))) rs in
  Pd.clip (Fin 0) (Fin 100) rsi.

Definition calculate_technical_indicators (data : DataFrame) : Exc DataFrame :=
  let df := data in
  if negb (Pd.has_column df "Close") then inr df else
  let? close := Pd.col df "Close" in
  let df := Pd.set_col df "Close" (Pd.replace_zero_nan close) in
  let df := Pd.dropna_subset df ["Close"] in
  if (Pd.len df =? 0)%nat then inr df else
  let? close := Pd.col df "Close" in
  let df := Pd.set_col df "MA5" (Pd.rolling_mean 5 close) in
  let df := Pd.set_col df "MA10" (Pd.rolling_mean 10 close) in
  let df := Pd.set_col df "MA20" (Pd.rolling_mean 20 close) in
  let df := Pd.set_col df "Price_Change" (Pd.replace_inf (Fin 0) (Pd.pct_change close)) in
  let? high := Pd.col df "High" in
  let? low := Pd.col df "Low" in
  let range := zip_with Np.div (zip_with Np.sub high low) (Pd.replace_zero_nan close) in
  let df := Pd.set_col df "Price_Range" (Pd.fillna (Fin 0) (Pd.replace_inf (Fin 0) range)) in
  let? df :=
    if Pd.has_column df "Volume" then
      let? volume := Pd.col df "Volume" in
      let df := Pd.set_col df "Volume" (Pd.replace_zero_nan volume) in
      let? volume := Pd.col df "Volume" in
      inr (Pd.set_col df "Volume_Change"
             (Pd.fillna (Fin 0) (Pd.replace_inf (Fin 0) (Pd.pct_change volume))))
    else inr df in
  let df := Pd.set_col df "RSI" (RSI close) in
  inr (mkDataFrame (index df)
         (map (fun cs => (fst cs, Pd.replace_inf NaN (snd cs))) (columns df))).

(** ** NumPy arrays as lists *)

(** A two-dimensional array is the list of its rows. *)
Abbreviation Matrix := (list (list float64)).

Module Arr.

(** [a[lo:hi]] for [0 <= lo]. *)
Definition slice {A} (lo hi : nat) (a : list A) : list A := firstn (hi - lo) (skipn lo a).

(** [a[-n:]]; [a[-0:]] is the whole of [a]. *)
Definition last_n {A} (n : nat) (a : list A) : list A :=
  if (n =? 0)%nat then a else skipn (length a - n) a.

(** [a[i, j]] *)
Definition item2 (a : Matrix) (i j : nat) : Exc float64 :=
  match a !! i with
  | Some r =>
      match r !! j with
      | Some x => inr x
      | None => inl (IndexError "index is out of bounds for axis 1")
      end
  | None => inl (IndexError "index is out of bounds for axis 0")
  end.

(** [a[-1]] *)
Definition item_last {A} (a : list A) : Exc A :=
  match last a with
  | Some x => inr x
  | None => inl (IndexError "index -1 is out of bounds for axis 0 with size 0")
  end.

(** [r[0] = v] on a one-dimensional array. *)
Definition set_item0 (r : list float64) (v : float64) : Exc (list float64) :=
  match r with
  | [] => inl (IndexError "index 0 is out of bounds for axis 0 with size 0")
  | _ :: r' => inr (v :: r')
  end.

(** Column [j] of a matrix. *)
Definition column (a : Matrix) (j : nat) : list float64 := map (fun r => nth j r NaN) a.

(** [a.reshape(-1, 1)] of a one-dimensional array. *)
Definition as_column (a : list float64) : Matrix := map (fun x => [x]) a.

(** [a.flatten()] *)
Definition flatten (a : Matrix) : list float64 := concat a.

(** [np.isfinite(a).all()] *)
Definition all_finite (a : Matrix) : bool := forallb (forallb Np.isfinite) a.

(** [a.reshape(1, n, k)] of an array of rows, which numpy accepts exactly
    when the array holds [n * k] values; the rows stay as they are. *)
Definition reshape_1 (n k : nat) (a : Matrix) : Exc Matrix :=
  if (length (concat a) =? n * k)%nat then inr a
  else inl (ValueError "cannot reshape array").

End Arr.

(** ** scikit-learn: MinMaxScaler(feature_range=(0, 1)) *)

(** A fitted scaler holds, per feature, the pair of [scale_] and [min_]. *)
Inductive MinMaxScaler : Type :=
| Unfitted
| Fitted (scale_min : list (float64 * float64)).

Module Sk.

Definition n_features (X : Matrix) : nat :=
  match X with [] => 0 | r :: _ => length r end.

(** [check_array]: at least one sample and one feature, and no infinity
    (NaN is let through). *)
Definition check_array (X : Matrix) : Exc Matrix :=
  match X with
  | [] => inl (ValueError "Found array with 0 sample(s) while a minimum of 1 is required")
  | _ =>
      if (n_features X =? 0)%nat
      then inl (ValueError "Found array with 0 feature(s) while a minimum of 1 is required")
      else if existsb (existsb Np.isinf) X then inl (ValueError "Input contains infinity")
      else inr X
  end.

Definition nanmin (s : list float64) : float64 :=
  match List.filter (fun x => negb (Np.isnan x)) s with
  | [] => NaN
  | x :: t => fold_left Np.minimum t x
  end.

Definition nanmax (s : list float64) : float64 :=
  match List.filter (fun x => negb (Np.isnan x)) s with
  | [] => NaN
  | x :: t => fold_left Np.maximum t x
  end.

(** Ten times the machine epsilon of a float64. *)
Definition ten_eps : Q := 10 # (2 ^ 52).

(** [_handle_zeros_in_scale] *)
Definition handle_zeros_in_scale (range : float64) : float64 :=
  if Np.lt range (Fin ten_eps) then Fin 1 else range.

(** [scaler.fit(X)] *)
Definition fit (X : Matrix) : Exc MinMaxScaler :=
  let? X := check_array X in
  let cols := map (Arr.column X) (seq 0 (n_features X)) in
  inr (Fitted
         (map (fun c =>
                 let data_min := nanmin c in
                 let data_max := nanmax c in
                 let data_range := Np.sub data_max data_min in
                 let scale := Np.div (Fin 1) (handle_zeros_in_scale data_range) in
                 (scale, Np.sub (Fin 0) (Np.mul data_min scale)))
              cols)).

(** [scaler.transform(X)]: [X * scale_ + min_] *)
Definition transform (sc : MinMaxScaler) (X : Matrix) : Exc Matrix :=
  match sc with
  | Unfitted => inl (LibraryError "This MinMaxScaler instance is not fitted yet")
  | Fitted params =>
      let? X := check_array X in
      if negb (n_features X =? length params)%nat
      then inl (ValueError "X has a different number of features than MinMaxScaler is expecting")
      else inr (map (fun r => zip_with (fun x sm => Np.add (Np.mul x (fst sm)) (snd sm)) r params) X)
  end.

(** [scaler.fit_transform(X)]: returns the fitted scaler too, which the
    Python object keeps in itself. *)
Definition fit_transform (X : Matrix) : Exc (MinMaxScaler * Matrix) :=
  let? sc := fit X in
  let? Y := transform sc X in
  inr (sc, Y).

(** [scaler.inverse_transform(X)]: [(X - min_) / scale_]; the in-place
    operations broadcast only when the widths agree. *)
Definition inverse_transform (sc : MinMaxScaler) (X : Matrix) : Exc Matrix :=
  match sc with
  | Unfitted => inl (LibraryError "This MinMaxScaler instance is not fitted yet")
  | Fitted params =>
      let? X := check_array X in
      if negb (n_features X =? length params)%nat
      then inl (ValueError "operands could not be broadcast together")
      else inr (map (fun r => zip_with (fun x sm => Np.div (Np.sub x (snd sm)) (fst sm)) r params) X)
  end.

End Sk.

(** The nine feature columns, in the order both modules list them. *)
Definition feature_names : list string :=
  ["Close"; "Volume"; "MA5"; "MA10"; "MA20";
   "Price_Change"; "Price_Range"; "Volume_Change"; "RSI"].

(** ** Sample data

    A synthetic price history and stand-ins for Keras and for the market
    data provider, on which the results below are run. *)

Module Sample.

(** Close of day [i]: a drifting price with a sawtooth. *)
Definition close_of (i : nat) : Z := (100 + Z.of_nat i + 3 * Z.of_nat (i mod 4))%Z.

(** [n] daily bars. *)
Definition bars (n : nat) : DataFrame :=
  let days := seq 0 n in
  let close := map (fun i => Np.of_Z (close_of i)) days in
  mkDataFrame (map Z.of_nat days)
    [("Open", close);
     ("High", map (fun i => Np.of_Z (close_of i + 2)) days);
     ("Low", map (fun i => Np.of_Z (close_of i - 1)) days);
     ("Close", close);
     ("Volume", map (fun i => Np.of_nat (1000 + 10 * (i mod 3))) days)].

(** [n] daily bars whose close rises by one a day. *)
Definition rising (n : nat) : DataFrame :=
  let days := seq 0 n in
  let close := map (fun i => Np.of_nat (10 + i)) days in
  mkDataFrame (map Z.of_nat days)
    [("Open", close);
     ("High", map (fun i => Np.of_nat (11 + i)) days);
     ("Low", close);
     ("Close", close);
     ("Volume", map (fun _ => Np.of_nat 1000) days)].

(** A model is its number of fits; it predicts the last close of the
    window again. *)
Definition keras_fit (start : option nat) (X : list Matrix) (y : list float64)
    (epochs batch_size : Z) : Exc (nat * list float64) :=
  inr (S (default 0 start), [Fin 1]).

Definition keras_evaluate (m : nat) (X : list Matrix) (y : list float64)
  : Exc (float64 * float64) := inr (Fin 0, Fin 0).

Definition keras_predict (m : nat) (w : Matrix) : Exc float64 :=
  match last w with
  | Some (c :: _) => inr c
  | _ => inr (Fin 0)
  end.

(** The provider knows one symbol. *)
Definition download (rows : nat) (symbol period : string) : option DataFrame :=
  if String.eqb symbol "TEST" then
    match calculate_technical_indicators (bars rows) with
    | inr df => Some (Pd.dropna df)
    | inl _ => None
    end
  else None.

(** The frame of [n] bars with its indicators, incomplete rows dropped,
    and its feature rows. *)
Definition frame (n : nat) : DataFrame :=
  match calculate_technical_indicators (bars n) with
  | inr df => Pd.dropna df
  | inl _ => bars n
  end.

Definition rows (df : DataFrame) : Matrix :=
  match Pd.values df feature_names with
  | inr fd => fd
  | inl _ => []
  end.

(** A window of two rows of nine features. *)
Definition window2 : Matrix :=
  [map (fun i => Np.of_nat i) (seq 1 9); map (fun i => Np.of_nat (10 * i)) (seq 1 9)].

Definition isoformat (n : nat) : string := "2024-01-01T00:00:00".
Definition np_std_axis0 (a : Matrix) : list float64 :=
  map (fun _ => Fin 0) (seq 0 (Sk.n_features a)).
Definition round2 (x : float64) : float64 := x.

End Sample.

(** ** The world the pipeline runs in *)

(** [range(n)] and [range(a, b)] *)
Definition range (a b : nat) : list nat := seq a (b - a).

(** [int(n * 0.8)] for a length [n]. *)
Definition int_mul_08 (n : nat) : nat :=
  Z.to_nat (Qfloor (inject_Z (Z.of_nat n) * (8 # 10))).

(** [pd.date_range(start=start, periods=n)], daily. *)
Definition date_range (start : Z) (periods : Z) : Exc (list Z) :=
  if (periods <? 0)%Z then inl (ValueError "Number of periods must be non-negative")
  else inr (map (fun i => (start + Z.of_nat i)%Z) (seq 0 (Z.to_nat periods))).

(** [v[k]] on a value read from a JSON file. *)
Definition py_item (v : PyVal) (k : string) : Exc PyVal :=
  match v with
  | VDict d => dict_item k d
  | _ => inl (TypeError "indices must be integers or slices")
  end.

(** [f"{v:.4f}"]: only numbers take a float format. *)
Definition format_f (v : PyVal) : Exc unit :=
  match v with
  | VFloat _ | VInt _ | VBool _ => inr tt
  | _ => inl (TypeError "unsupported format string")
  end.

Definition failure (msg : string) : Dict :=
  [("success", VBool false); ("error", VStr msg)].

Section Pipeline.

Set Default Proof Using "Type".

(** Keras.  [keras_fit start X y epochs batch] is [model.fit(X, y,
    epochs=epochs, batch_size=batch, verbose=0, validation_split=0.05)] on
    the model [start], or on a model fresh from [build_model] when [start]
    is [None]; it gives the fitted model and [history.history['loss']].
    [keras_evaluate] gives the pair (loss, mae) and [keras_predict m w] the
    entry [[0, 0]] of [m.predict(w, verbose=0)]. *)
Variable Model : Type.
Variable keras_fit :
  option Model -> list Matrix -> list float64 -> Z -> Z -> Exc (Model * list float64).
Variable keras_evaluate : Model -> list Matrix -> list float64 -> Exc (float64 * float64).
Variable keras_predict : Model -> Matrix -> Exc float64.
Variable KERAS_AVAILABLE : bool.

(** The market data provider: [download_stock_with_fallback symbol period]
    is a frame or [None]. *)
Variable download_stock_with_fallback : string -> string -> option DataFrame.

(** [datetime.now().isoformat()] as a function of the clock reading;
    [np.std(a, axis=0)] and [round(x, 2)], which the rational model
    cannot compute. *)
Variable isoformat : nat -> string.
Variable np_std_axis0 : Matrix -> list float64.
Variable round2 : float64 -> float64.

(** What a file of the model store holds. *)
Inductive File : Type :=
| FKeras (m : Model)
| FPickle (d : list (string * MinMaxScaler))
| FJson (v : PyVal).

(** The state that calls change: the files, the number of [model.fit]
    calls made so far, and the clock. *)
Record World : Type := mkWorld {
  fs : gmap string File;
  fit_calls : nat;
  clock : nat
}.

(** A computation that reads and writes the world and may raise. *)
Definition M (A : Type) : Type := World -> Exc A * World.

Definition ret {A} (a : A) : M A := fun w => (inr a, w).

Definition bind {A B} (c : M A) (k : A -> M B) : M B :=
  fun w => match c w with
           | (inl e, w') => (inl e, w')
           | (inr a, w') => k a w'
           end.

Definition lift {A} (c : Exc A) : M A := fun w => (c, w).

(** [try: c / except Exception as e: h e] *)
Definition try_except {A} (c : M A) (h : Exception -> M A) : M A :=
  fun w => match c w with
           | (inl e, w') => h e w'
           | (inr a, w') => (inr a, w')
           end.

Notation "'let!' x ':=' c 'in' k" := (bind c (fun x => k))
  (at level 10, x pattern, c at level 100, k at level 200).

(** [os.path.exists(p)] *)
Definition path_exists (p : string) : M bool :=
  fun w => (inr (match fs w !! p with Some _ => true | None => false end), w).

(** Writing a file: [model.save], [pickle.dump], [json.dump]. *)
Definition write_file (p : string) (f : File) : M unit :=
  fun w => (inr tt, mkWorld (<[p := f]> (fs w)) (fit_calls w) (clock w)).

Definition read_file (p : string) : M File :=
  fun w => match fs w !! p with
           | Some f => (inr f, w)
           | None => (inl (LibraryError ("No such file or directory: " ++ p)), w)
           end.

(** [load_model(p)] *)
Definition load_model (p : string) : M Model :=
  let! f := read_file p in
  match f with
  | FKeras m => ret m
  | _ => lift (inl (ValueError "File format not supported"))
  end.

(** [pickle.load] *)
Definition pickle_load (p : string) : M (list (string * MinMaxScaler)) :=
  let! f := read_file p in
  match f with
  | FPickle d => ret d
  | _ => lift (inl (LibraryError "could not unpickle"))
  end.

(** [json.load] *)
Definition json_load (p : string) : M PyVal :=
  let! f := read_file p in
  match f with
  | FJson v => ret v
  | _ => lift (inl (ValueError "Expecting value"))
  end.

(** [datetime.now().isoformat()] *)
Definition datetime_now : M string :=
  fun w => (inr (isoformat (clock w)), mkWorld (fs w) (fit_calls w) (S (clock w))).

(** [model.fit(...)], counted. *)
Definition model_fit (start : option Model) (X : list Matrix) (y : list float64)
    (epochs batch_size : Z) : M (Model * list float64) :=
  fun w => (keras_fit start X y epochs batch_size,
            mkWorld (fs w) (S (fit_calls w)) (clock w)).

(** ** services/model_trainer.py *)

Record ModelTrainer : Type := mkModelTrainer {
  model_dir : string;
  lookback : nat;
  features : list string
}.

(** [ModelTrainer.__init__]; the directories it creates are not modelled:
    a file can be written under any path. *)
Definition ModelTrainer_init (model_dir : string) : ModelTrainer :=
  mkModelTrainer model_dir 30 feature_names.

(** The loop of lines 106-109 (and of lines 105-108 of lstm_prediction.py):
    [for i in idx: X.append(sf[i-lookback:i]); y.append(sp[i, 0])]. *)
Fixpoint create_sequences (lookback : nat) (scaled_features scaled_prices : Matrix)
    (idx : list nat) (X : list Matrix) (y : list float64) : Exc (list Matrix * list float64) :=
  match idx with
  | [] => inr (X, y)
  | i :: idx' =>
      let X := X ++ [Arr.slice (i - lookback) i scaled_features] in
      let? p := Arr.item2 scaled_prices i 0 in
      create_sequences lookback scaled_features scaled_prices idx' X (y ++ [p])
  end.

(** Lines 82-94: the cleaning of non-finite feature values. *)
Definition clean_feature_data (n_cols : nat) (feature_data : Matrix) : option Matrix :=
  if Arr.all_finite feature_data then Some feature_data
  else
    let feature_data := map (map (fun x => if Np.isfinite x then x else NaN)) feature_data in
    let cols := map (Arr.column feature_data) (seq 0 n_cols) in
    let cols := map (fun c => Pd.fillna (Fin 0) (Pd.bfill (Pd.ffill c))) cols in
    let feature_data :=
      map (fun i => map (fun c => Pd.at_ c i) cols) (seq 0 (length feature_data)) in
    if Arr.all_finite feature_data then Some feature_data else None.

(** Lines 69-72: the frame with its indicators, computed when the column
    [MA5] is not there yet. *)
Definition indicator_frame (df : DataFrame) : Exc DataFrame :=
  if negb (Pd.has_column df "MA5") then
    let? df := calculate_technical_indicators df in
    inr (Pd.dropna df)
  else inr df.

Definition prepare_stock_data_body (self : ModelTrainer) (df : DataFrame)
  : Exc (option (list Matrix * list float64 * MinMaxScaler * MinMaxScaler)) :=
  if negb (Pd.has_column df "Close") then inr None else
  let? df := indicator_frame df in
  if (Pd.len df <? lookback self + 50)%nat then inr None else
  let? feature_data := Pd.values df (features self) in
  match clean_feature_data (length (features self)) feature_data with
  | None => inr None
  | Some feature_data =>
      let? (feature_scaler, scaled_features) := Sk.fit_transform feature_data in
      let? close := Pd.col df "Close" in
      let prices := Arr.as_column close in
      let? (target_scaler, scaled_prices) := Sk.fit_transform prices in
      let? (X, y) :=
        create_sequences (lookback self) scaled_features scaled_prices
          (range (lookback self) (length scaled_features)) [] [] in
      inr (Some (X, y, feature_scaler, target_scaler))
  end.

(** [ModelTrainer.prepare_stock_data]: any exception becomes [None]. *)
Definition prepare_stock_data (self : ModelTrainer) (df : DataFrame)
  : option (list Matrix * list float64 * MinMaxScaler * MinMaxScaler) :=
  match prepare_stock_data_body self df with
  | inr r => r
  | inl _ => None
  end.

(** [symbol.replace('.', '_').replace('&', 'AND')] *)
Fixpoint replace_char (c : ascii) (by_ : string) (s : string) : string :=
  match s with
  | EmptyString => EmptyString
  | String a s' =>
      if Ascii.eqb a c then by_ ++ replace_char c by_ s'
      else String a (replace_char c by_ s')
  end.

Definition safe_symbol (symbol : string) : string :=
  replace_char "&" "AND" (replace_char "." "_" symbol).

Definition model_path (self : ModelTrainer) (symbol : string) : string :=
  model_dir self ++ "/" ++ safe_symbol symbol ++ ".keras".
Definition scaler_path (self : ModelTrainer) (symbol : string) : string :=
  model_dir self ++ "/scalers/" ++ safe_symbol symbol ++ ".pkl".
Definition metadata_path (self : ModelTrainer) (symbol : string) : string :=
  model_dir self ++ "/metadata/" ++ safe_symbol symbol ++ ".json".

(** The metadata record of lines 193-204. *)
Definition metadata_record (self : ModelTrainer) (symbol trained_date : string)
    (n_train n_test : nat) (test_loss test_mae final_train_loss : float64) (epochs : Z)
  : Dict :=
  [("symbol", VStr symbol);
   ("trained_date", VStr trained_date);
   ("training_samples", VInt (Z.of_nat n_train));
   ("test_samples", VInt (Z.of_nat n_test));
   ("test_loss", VFloat test_loss);
   ("test_mae", VFloat test_mae);
   ("final_train_loss", VFloat final_train_loss);
   ("epochs", VInt epochs);
   ("lookback", VInt (Z.of_nat (lookback self)));
   ("features", VList (map VStr (features self)))].

(** Whether a call of [train_single_stock] gave a metadata record. *)
Definition trained (r : Exc (option Dict)) : bool :=
  match r with
  | inr (Some _) => true
  | _ => false
  end.

Definition train_single_stock (self : ModelTrainer) (symbol : string) (df : DataFrame)
    (epochs batch_size : Z) : M (option Dict) :=
  try_except
    (match prepare_stock_data self df with
     | None => ret None
     | Some (X, y, feature_scaler, target_scaler) =>
         let split_idx := int_mul_08 (length X) in
         let X_train := firstn split_idx X in
         let X_test := skipn split_idx X in
         let y_train := firstn split_idx y in
         let y_test := skipn split_idx y in
         let actual_batch_size :=
           Z.min batch_size (Z.max 8 (Z.of_nat (length X_train / 10))) in
         let! (model, history_loss) :=
           model_fit None X_train y_train epochs actual_batch_size in
         let! (test_loss, test_mae) := lift (keras_evaluate model X_test y_test) in
         let! _ := write_file (model_path self symbol) (FKeras model) in
         let! _ := write_file (scaler_path self symbol)
                     (FPickle [("feature_scaler", feature_scaler);
                               ("target_scaler", target_scaler)]) in
         let! trained_date := datetime_now in
         let! final_train_loss := lift (Arr.item_last history_loss) in
         let metadata :=
           metadata_record self symbol trained_date (length X_train) (length X_test)
             test_loss test_mae final_train_loss epochs in
         let! _ := write_file (metadata_path self symbol) (FJson (VDict metadata)) in
         ret (Some metadata)
     end)
    (fun _ => ret None).

(** [market_name.lower()] *)
Definition lower (s : string) : string :=
  string_of_list_ascii
    (map (fun a =>
            let n := nat_of_ascii a in
            if ((65 <=? n) && (n <=? 90))%nat then ascii_of_nat (n + 32) else a)
         (list_ascii_of_string s)).

(** The loop of lines 235-241. *)
Fixpoint train_loop (self : ModelTrainer) (items : list (string * DataFrame))
    (epochs batch_size : Z) (successful : list Dict) (failed : list string)
  : M (list Dict * list string) :=
  match items with
  | [] => ret (successful, failed)
  | (symbol, df) :: items' =>
      let! result := train_single_stock self symbol df epochs batch_size in
      match result with
      | Some r => train_loop self items' epochs batch_size (successful ++ [r]) failed
      | None => train_loop self items' epochs batch_size successful (failed ++ [symbol])
      end
  end.

(** [ModelTrainer.train_all_stocks]; [stock_data] is the dictionary as the
    list of its items, in iteration order. *)
Definition train_all_stocks (self : ModelTrainer) (stock_data : list (string * DataFrame))
    (market_name : string) (epochs batch_size : Z) : M Dict :=
  let! (successful, failed) := train_loop self stock_data epochs batch_size [] [] in
  let! training_date := datetime_now in
  let summary :=
    [("market", VStr market_name);
     ("total_stocks", VInt (Z.of_nat (length stock_data)));
     ("successful", VInt (Z.of_nat (length successful)));
     ("failed", VInt (Z.of_nat (length failed)));
     ("failed_symbols", VList (map VStr failed));
     ("training_date", VStr training_date);
     ("models", VList (map VDict successful))] in
  let summary_path :=
    (model_dir self ++ "/training_summary_" ++ lower market_name ++ ".json")%string in
  let! _ := write_file summary_path (FJson (VDict summary)) in
  ret summary.

Definition load_pretrained_model (self : ModelTrainer) (symbol : string)
  : M (option (Model * MinMaxScaler * MinMaxScaler * PyVal)) :=
  try_except
    (let! e1 := path_exists (model_path self symbol) in
     let! e2 := path_exists (scaler_path self symbol) in
     let! e3 := path_exists (metadata_path self symbol) in
     if negb (e1 && e2 && e3) then ret None else
     let! model := load_model (model_path self symbol) in
     let! scalers := pickle_load (scaler_path self symbol) in
     let! metadata := json_load (metadata_path self symbol) in
     let! feature_scaler := lift (dict_item "feature_scaler" scalers) in
     let! target_scaler := lift (dict_item "target_scaler" scalers) in
     ret (Some (model, feature_scaler, target_scaler, metadata)))
    (fun _ => ret None).

(** ** services/lstm_prediction.py *)

Record LSTMPredictor : Type := mkLSTMPredictor {
  p_lookback : nat;
  p_scaler : MinMaxScaler;
  p_target_scaler : MinMaxScaler;
  p_model : option Model
}.

(** [LSTMPredictor.__init__] *)
Definition LSTMPredictor_init (lookback : nat) : LSTMPredictor :=
  mkLSTMPredictor lookback Unfitted Unfitted None.

(** The feature columns as [prepare_data] (lines 67-83) and
    [predict_future] (lines 196-207) derive them: no guard against a zero
    divisor here. *)
Definition add_features (df : DataFrame) : Exc DataFrame :=
  let? close := Pd.col df "Close" in
  let df := Pd.set_col df "MA5" (Pd.rolling_mean 5 close) in
  let df := Pd.set_col df "MA10" (Pd.rolling_mean 10 close) in
  let df := Pd.set_col df "MA20" (Pd.rolling_mean 20 close) in
  let df := Pd.set_col df "Price_Change" (Pd.pct_change close) in
  let? high := Pd.col df "High" in
  let? low := Pd.col df "Low" in
  let df := Pd.set_col df "Price_Range" (zip_with Np.div (zip_with Np.sub high low) close) in
  let? volume := Pd.col df "Volume" in
  let df := Pd.set_col df "Volume_Change" (Pd.pct_change volume) in
  let delta := Pd.diff close in
  let gain := Pd.rolling_mean 14 (Pd.where_ (fun d => Np.gt d (Fin 0)) (Fin 0) delta) in
  let loss := Pd.rolling_mean 14 (map Np.neg (Pd.where_ (fun d => Np.lt d (Fin 0)) (Fin 0) delta)) in
  let rs := zip_with Np.div gain loss in
  inr (Pd.set_col df "RSI"
         (map (fun r => Np.sub (Fin 100) (Np.div (Fin 100) (Np.add (Fin 1) r))) rs)).

(** ['%d' % n] *)
Definition str_nat (n : nat) : string := pretty n.

(** The message of the [ValueError] that line 90 raises. *)
Definition insufficient_data_message (need got : nat) : string :=
  "Insufficient data after feature calculation. Need at least "
  ++ str_nat need ++ " rows, got " ++ str_nat got ++ ". Try a longer period.".

(** [LSTMPredictor.prepare_data]; the fitted scalers stay in the object,
    which is returned with the arrays. *)
Definition prepare_data (self : LSTMPredictor) (data : DataFrame)
  : Exc (LSTMPredictor * (list Matrix * list float64 * list Matrix * list float64 * Matrix)) :=
  let df := data in
  let? close := Pd.col df "Close" in
  let? high := Pd.col df "High" in
  let? low := Pd.col df "Low" in
  let? volume := Pd.col df "Volume" in
  let? df := add_features df in
  let df := Pd.dropna df in
  if (Pd.len df <? p_lookback self + 50)%nat then
    inl (ValueError (insufficient_data_message (p_lookback self + 50) (Pd.len df)))
  else
  let? feature_data := Pd.values df feature_names in
  let? (scaler, scaled_features) := Sk.fit_transform feature_data in
  let? close := Pd.col df "Close" in
  let prices := Arr.as_column close in
  let? (target_scaler, scaled_prices) := Sk.fit_transform prices in
  let? (X, y) :=
    create_sequences (p_lookback self) scaled_features scaled_prices
      (range (p_lookback self) (length scaled_features)) [] [] in
  let split_idx := int_mul_08 (length X) in
  inr (mkLSTMPredictor (p_lookback self) scaler target_scaler (p_model self),
       (firstn split_idx X, firstn split_idx y, skipn split_idx X, skipn split_idx y,
        scaled_features)).

(** [LSTMPredictor.train] *)
Definition train (self : LSTMPredictor) (X_train : list Matrix) (y_train : list float64)
    (epochs batch_size : Z) : M LSTMPredictor :=
  let actual_batch_size :=
    Z.min batch_size (Z.max 8 (Z.of_nat (length X_train / 10))) in
  let! (model, _) := model_fit (p_model self) X_train y_train epochs actual_batch_size in
  ret (mkLSTMPredictor (p_lookback self) (p_scaler self) (p_target_scaler self) (Some model)).

(** [model.predict(w, verbose=0)[0, 0]] on a model attribute that may
    still be [None]. *)
Definition model_predict (model : option Model) (w : Matrix) : Exc float64 :=
  match model with
  | Some m => keras_predict m w
  | None => inl (AttributeError "'NoneType' object has no attribute 'predict'")
  end.

(** One round of the forecast loop (lines 223-237 and 303-311): predict
    from the window, record the prediction, copy the last row with its
    entry 0 replaced, drop the oldest row and append the copy. *)
Definition forecast_step (model : option Model) (lookback n_features : nat)
    (st : Matrix * list float64) : Exc (Matrix * list float64) :=
  let (current_sequence, predictions) := st in
  let? input_seq := Arr.reshape_1 lookback n_features current_sequence in
  let? next_pred := model_predict model input_seq in
  let predictions := predictions ++ [next_pred] in
  let? last_row := Arr.item_last current_sequence in
  let? last_features := Arr.set_item0 last_row next_pred in
  inr (skipn 1 current_sequence ++ [last_features], predictions).

(** [for _ in range(days): ...] *)
Fixpoint forecast_loop (model : option Model) (lookback n_features : nat) (days : nat)
    (st : Matrix * list float64) : Exc (Matrix * list float64) :=
  match days with
  | O => inr st
  | S days' =>
      let? st' := forecast_step model lookback n_features st in
      forecast_loop model lookback n_features days' st'
  end.

(** [LSTMPredictor.predict_future] *)
Definition predict_future (self : LSTMPredictor) (df : DataFrame) (days : Z)
  : Exc (list float64) :=
  let recent_df := Pd.tail df (p_lookback self + 50) in
  let? recent_df := add_features recent_df in
  let recent_df := Pd.dropna recent_df in
  let? vals := Pd.values recent_df feature_names in
  let last_sequence := Arr.last_n (p_lookback self) vals in
  let? last_sequence_scaled := Sk.transform (p_scaler self) last_sequence in
  let? (_, predictions) :=
    forecast_loop (p_model self) (p_lookback self) (length feature_names) (Z.to_nat days)
      (last_sequence_scaled, []) in
  let predictions_array := Arr.as_column predictions in
  let? predictions_unscaled := Sk.inverse_transform (p_target_scaler self) predictions_array in
  inr (Arr.flatten predictions_unscaled).

(** [np.mean(a, axis=0)] of a list of equally long lists. *)
Definition mean_axis0 (a : Matrix) : list float64 :=
  map (fun j => Np.div (Np.sum (Arr.column a j)) (Np.of_nat (length a)))
      (seq 0 (Sk.n_features a)).

(** [float(a)] of an array: only an array of one value converts. *)
Definition float_of_array (a : list float64) : Exc float64 :=
  match a with
  | [x] => inr x
  | _ => inl (TypeError "only length-1 arrays can be converted to Python scalars")
  end.

(** The loop of lines 385-409: each simulation fits a fresh predictor; a
    simulation that raises is skipped. *)
Fixpoint simulations (df : DataFrame) (future_days : Z) (n : nat)
    (all_predictions : Matrix) : M Matrix :=
  match n with
  | O => ret all_predictions
  | S n' =>
      let! all_predictions :=
        try_except
          (let predictor := LSTMPredictor_init 30 in
           let! (predictor, (X_train, y_train, X_test, y_test, scaled_features)) :=
             lift (prepare_data predictor df) in
           let! predictor := train predictor X_train y_train 10 32 in
           let! future_predictions := lift (predict_future predictor df future_days) in
           ret (all_predictions ++ [future_predictions]))
          (fun _ => ret all_predictions) in
      simulations df future_days n' all_predictions
  end.

Definition run_lstm_prediction (symbol period : string) (num_simulations future_days : Z)
  : M Dict :=
  if negb KERAS_AVAILABLE then
    ret (failure "TensorFlow/Keras not installed. Please install: pip install tensorflow keras")
  else
  try_except
    (match download_stock_with_fallback symbol period with
     | None => ret (failure ("No data found for symbol " ++ symbol))
     | Some df =>
         if Pd.empty df then ret (failure ("No data found for symbol " ++ symbol)) else
         let! historical_prices := lift (Pd.col df "Close") in
         let historical_dates := index df in
         let! all_predictions := simulations df future_days (Z.to_nat num_simulations) [] in
         match all_predictions with
         | [] => ret (failure "All simulations failed. Please try different parameters.")
         | _ =>
             let avg_prediction := mean_axis0 all_predictions in
             let std_prediction := np_std_axis0 all_predictions in
             let! last_date := lift (Arr.item_last (index df)) in
             let future_dates :=
               map (fun i => (last_date + (Z.of_nat i + 1))%Z)
                   (range 0 (Z.to_nat future_days)) in
             let! current_price := lift (Arr.item_last historical_prices) in
             let! predicted_price := lift (Arr.item_last avg_prediction) in
             let price_change := Np.sub predicted_price current_price in
             let price_change_pct := Np.mul (Np.div price_change current_price) (Fin 100) in
             ret [("success", VBool true);
                  ("symbol", VStr symbol);
                  ("historical",
                   VDict [("dates", VList (map VDate historical_dates));
                          ("prices", VList (map VFloat historical_prices))]);
                  ("predictions",
                   VDict [("dates", VList (map VDate future_dates));
                          ("average", VList (map VFloat avg_prediction));
                          ("std", VList (map VFloat std_prediction));
                          ("simulations",
                           VList (map (fun l => VList (map VFloat l)) all_predictions))]);
                  ("metrics",
                   VDict [("current_price", VFloat (round2 current_price));
                          ("predicted_price", VFloat (round2 predicted_price));
                          ("price_change", VFloat (round2 price_change));
                          ("price_change_pct", VFloat (round2 price_change_pct));
                          ("num_simulations", VInt (Z.of_nat (length all_predictions)));
                          ("future_days", VInt future_days)])]
         end
     end)
    (fun e => ret (failure ("Prediction failed: " ++ str_exc e))).

(** The branch of [run_lstm_prediction_pretrained] taken when an artifact
    was loaded (lines 273-333); it does not touch the files. *)
Definition fast_predict (symbol : string) (future_days : Z)
    (model : Model) (feature_scaler target_scaler : MinMaxScaler) (metadata : PyVal)
  : Exc Dict :=
  let? _ := py_item metadata "trained_date" in
  let? test_mae := py_item metadata "test_mae" in
  let? _ := format_f test_mae in
  let? test_loss := py_item metadata "test_loss" in
  let? _ := format_f test_loss in
  match download_stock_with_fallback symbol "6mo" with
  | None => inr (failure ("No data found for " ++ symbol))
  | Some df =>
      if Pd.empty df then inr (failure ("No data found for " ++ symbol)) else
      let? df := calculate_technical_indicators df in
      let df := Pd.dropna df in
      if (Pd.len df <? 30)%nat then
        inr (failure ("Insufficient recent data: need 30 rows, got "
                      ++ str_nat (Pd.len df) ++ ". Try longer period."))
      else
      let features := feature_names in
      let? vals := Pd.values df features in
      let last_sequence := Arr.last_n 30 vals in
      let? last_sequence_scaled := Sk.transform feature_scaler last_sequence in
      let? (_, predictions) :=
        forecast_loop (Some model) 30 (length features) (Z.to_nat future_days)
          (last_sequence_scaled, []) in
      let predictions_array := Arr.as_column predictions in
      let? predictions_unscaled := Sk.inverse_transform target_scaler predictions_array in
      let? last_date := Arr.item_last (index df) in
      let? future_dates := date_range (last_date + 1) future_days in
      let? close := Pd.col df "Close" in
      let? current_price := Arr.item_last close in
      let? last_prediction := Arr.item_last predictions_unscaled in
      let? predicted_price := float_of_array last_prediction in
      let? price_change_percent :=
        float_of_array
          (map (fun x => Np.mul (Np.div (Np.sub x current_price) current_price) (Fin 100))
               last_prediction) in
      inr [("success", VBool true);
           ("symbol", VStr symbol);
           ("predictions", VList (map VFloat (Arr.flatten predictions_unscaled)));
           ("future_dates", VList (map VDate future_dates));
           ("historical_prices", VList (map VFloat close));
           ("historical_dates", VList (map VDate (index df)));
           ("current_price", VFloat current_price);
           ("predicted_price", VFloat predicted_price);
           ("price_change_percent", VFloat price_change_percent);
           ("model_metadata", metadata);
           ("using_pretrained", VBool true)]
  end.

Definition run_lstm_prediction_pretrained (symbol period : string) (future_days : Z)
  : M Dict :=
  if negb KERAS_AVAILABLE then ret (failure "TensorFlow/Keras not installed") else
  try_except
    (let trainer := ModelTrainer_init "models/pretrained" in
     let! pretrained := load_pretrained_model trainer symbol in
     match pretrained with
     | Some (model, feature_scaler, target_scaler, metadata) =>
         lift (fast_predict symbol future_days model feature_scaler target_scaler metadata)
     | None => run_lstm_prediction symbol period 1 future_days
     end)
    (fun e => ret (failure (str_exc e))).

(** [model.predict(X, verbose=0)] on a batch of windows: the network of
    [build_model] ends in [Dense(1)], so the result is an array of one
    column; [keras_predict_batch m X] is that column. *)
Variable keras_predict_batch : Model -> list Matrix -> Exc (list float64).

(** [LSTMPredictor.predict] (lines 168-179): the predictions go through
    the inverse transform of [self.scaler], the scaler of the features. *)
Definition predict (self : LSTMPredictor) (X : list Matrix) : Exc Matrix :=
  let? predictions :=
    match p_model self with
    | Some m => keras_predict_batch m X
    | None => inl (AttributeError "'NoneType' object has no attribute 'predict'")
    end in
  Sk.inverse_transform (p_scaler self) (Arr.as_column predictions).

(** ** ModelTrainer.get_training_status *)

(** [a += b] on a running total that started as the integer 0. *)
Definition py_iadd (a b : PyVal) : Exc PyVal :=
  match a, b with
  | VInt x, VInt y => inr (VInt (x + y))
  | VInt x, VBool y => inr (VInt (x + Z.b2z y))
  | VInt x, VFloat y => inr (VFloat (Np.add (Np.of_Z x) y))
  | VFloat x, VInt y => inr (VFloat (Np.add x (Np.of_Z y)))
  | VFloat x, VBool y => inr (VFloat (Np.add x (Np.of_Z (Z.b2z y))))
  | VFloat x, VFloat y => inr (VFloat (Np.add x y))
  | _, _ => inl (TypeError "unsupported operand type(s) for +=")
  end.

Definition indian_summary_path (self : ModelTrainer) : string :=
  model_dir self ++ "/training_summary_indian.json".
Definition us_summary_path (self : ModelTrainer) : string :=
  model_dir self ++ "/training_summary_us.json".

(** Lines 329-332 and 334-337: when the summary file is there, store what
    it holds under [key] and add its [successful] entry to the total. *)
Definition add_summary (path key : string) (status : Dict) : M Dict :=
  let! e := path_exists path in
  if e then
    let! v := json_load path in
    let status := dict_set key v status in
    let! total := lift (dict_item "total_models" status) in
    let! n := lift (py_item v "successful") in
    let! total := lift (py_iadd total n) in
    ret (dict_set "total_models" total status)
  else ret status.

(** [ModelTrainer.get_training_status]: any exception becomes [None]. *)
Definition get_training_status (self : ModelTrainer) : M (option Dict) :=
  try_except
    (let status :=
       [("model_directory", VStr (model_dir self));
        ("indian_stocks", VNone);
        ("us_stocks", VNone);
        ("total_models", VInt 0)] in
     let! status := add_summary (indian_summary_path self) "indian_stocks" status in
     let! status := add_summary (us_summary_path self) "us_stocks" status in
     ret (Some status))
    (fun _ => ret None).


(** ** run_full_training_pipeline *)

(** [download_all_indian_stocks(period)] and [download_all_us_stocks(period)]:
    the dictionary of the frames that were fetched, as the list of its
    items.  Both catch what a fetch raises and go on to the next ticker. *)
Variable download_all_indian_stocks : string -> list (string * DataFrame).
Variable download_all_us_stocks : string -> list (string * DataFrame).





(** ** Vocabulary of the statements *)

(** A finite value between 0 and 100. *)
Definition in_0_100 (x : float64) : Prop :=
  exists q, x = Fin q /\ (0 <= q)%Q /\ (q <= 100)%Q.

(** The number of times one simulation calls [model.fit]: once when
    [prepare_data] gives the arrays, never when it raises. *)
Definition fits_per_simulation (df : DataFrame) : nat :=
  match prepare_data (LSTMPredictor_init 30) df with
  | inr _ => 1
  | inl _ => 0
  end.

(** A result is a failure record or says [success = True]. *)
Definition is_result (r : Dict) : Prop :=
  (exists msg, r = failure msg) \/ dict_get "success" r = Some (VBool true).

(** * Properties *)

(** ** The error monads *)

Lemma exc_bind_inr {A B} (c : Exc A) (k : A -> Exc B) (b : B) :
  exc_bind c k = inr b -> exists a, c = inr a /\ k a = inr b.
Proof. destruct c as [e|a]; simpl; [discriminate | eauto]. Qed.

Lemma bind_inr {A B} (c : M A) (k : A -> M B) (w w' : World) (b : B) :
  bind c k w = (inr b, w') ->
  exists a w1, c w = (inr a, w1) /\ k a w1 = (inr b, w').
Proof.
  unfold bind. destruct (c w) as [[e|a] w1]; [discriminate | eauto].
Qed.

(** A handler that returns makes the whole [try] return. *)
Lemma try_except_returns {A} (c : M A) (h : Exception -> A) (w : World) :
  exists a w', try_except c (fun e => ret (h e)) w = (inr a, w').
Proof.
  unfold try_except, ret. destruct (c w) as [[e|a] w1]; eauto.
Qed.

(** Drops the parameters of the pipeline that a goal does not mention. *)
Ltac clear_env :=
  try clear round2; try clear np_std_axis0; try clear isoformat;
  try clear download_stock_with_fallback; try clear KERAS_AVAILABLE;
  try clear download_all_indian_stocks; try clear download_all_us_stocks;
  try clear keras_predict_batch;
  try clear keras_evaluate; try clear keras_fit; try clear keras_predict.

Ltac exc_inv H :=
  repeat match type of H with
  | exc_bind ?c ?k = inr _ =>
      let a := fresh "a" in let Ha := fresh "Ha" in
      apply exc_bind_inr in H; destruct H as (a & Ha & H)
  | match ?p with pair _ _ => _ end = inr _ => destruct p
  end.

(** ** RSI *)

Lemma clip_0_100_fin (q : Q) :
  in_0_100 (Np.minimum (Np.maximum (Fin q) (Fin 0)) (Fin 100)).
Proof.
  unfold Np.maximum, Np.minimum, Np.lt, Np.gt.
  destruct (Qle_bool 0 q) eqn:E0; simpl.
  - destruct (Qle_bool q 100) eqn:E1; simpl.
    + exists q. apply Qle_bool_iff in E0, E1. auto.
    + exists 100%Q. split; [reflexivity | split; discriminate].
  - exists 0%Q. split; [reflexivity | split; discriminate].
Qed.

Lemma rsi_value_bounded (r : float64) :
  let r1 := if Np.isinf r then Fin 100 else r in
  let r2 := if Np.isnan r1 then Fin 50 else r1 in
  let v := Np.sub (Fin 100) (Np.div (Fin 100) (Np.add (Fin 1) r2)) in
  in_0_100 (if Np.isnan v then NaN else Np.minimum (Np.maximum v (Fin 0)) (Fin 100)).
Proof.
  destruct r as [q| | |]; cbn -[Qred Qplus Qdiv Qopp Np.minimum Np.maximum];
    try apply clip_0_100_fin.
  destruct (Qeq_bool (Qred (1 + q)) 0);
    cbn -[Qred Qplus Qdiv Qopp Np.minimum Np.maximum].
  - exists 0%Q. split; [reflexivity | split; discriminate].
  - apply clip_0_100_fin.
Qed.

(** Every value of the RSI column is finite and lies in [0, 100],
    whatever the close prices are. *)
Lemma RSI_bounds (close : Series) : Forall in_0_100 (RSI close).
Proof.
  unfold RSI, Pd.clip, Pd.fillna, Pd.replace_inf.
  rewrite !map_map. apply Forall_map, Forall_forall. intros r _.
  apply rsi_value_bounded.
Qed.

(** ** The forecast loop *)

Lemma forecast_loop_S (model : option Model) (L nf k : nat) (st : Matrix * list float64) :
  forecast_loop model L nf (S k) st =
  (let? st' := forecast_loop model L nf k st in forecast_step model L nf st').
Proof.
  revert st. induction k as [|k IH]; intros st.
  - simpl. destruct (forecast_step model L nf st); reflexivity.
  - transitivity (let? st' := forecast_step model L nf st in
                  let? st2 := forecast_loop model L nf k st' in
                  forecast_step model L nf st2).
    + change (forecast_loop model L nf (S (S k)) st)
        with (let? st' := forecast_step model L nf st in forecast_loop model L nf (S k) st').
      destruct (forecast_step model L nf st) as [e|st1]; [reflexivity | apply IH].
    + simpl. destruct (forecast_step model L nf st); reflexivity.
Qed.

Lemma length_concat_uniform {A} (nf : nat) (l : list (list A)) :
  Forall (fun r => length r = nf) l -> length (concat l) = length l * nf.
Proof.
  induction 1 as [|r l Hr _ IH]; simpl; [reflexivity|].
  rewrite length_app, IH, Hr. reflexivity.
Qed.

(** What one round does to the window and to the predictions. *)
Lemma forecast_step_inv (model : option Model) (L nf : nat)
    (seq seq' : Matrix) (preds preds' : list float64) :
  0 < nf ->
  Forall (fun r => length r = nf) seq ->
  forecast_step model L nf (seq, preds) = inr (seq', preds') ->
  exists p last_row new_row,
    model_predict model seq = inr p /\
    length seq = L /\
    last seq = Some last_row /\
    new_row !! 0 = Some p /\
    (forall j, 1 <= j -> new_row !! j = last_row !! j) /\
    seq' = skipn 1 seq ++ [new_row] /\
    preds' = preds ++ [p] /\
    length seq' = L /\
    Forall (fun r => length r = nf) seq'.
Proof. clear_env.
  intros Hnf Hw H. unfold forecast_step in H.
  unfold Arr.reshape_1 in H.
  destruct (Nat.eqb_spec (length (concat seq)) (L * nf)) as [Hlen|]; [|discriminate].
  simpl in H. exc_inv H.
  unfold Arr.item_last in Ha0. destruct (last seq) as [last_row|] eqn:Hlast; [|discriminate].
  injection Ha0 as <-.
  unfold Arr.set_item0 in Ha1. destruct last_row as [|c rest] eqn:Hrow; [discriminate|].
  injection Ha1 as <-. injection H as <- <-.
  rewrite (length_concat_uniform nf) in Hlen by assumption.
  assert (HL : length seq = L) by nia.
  assert (Hne : seq <> []) by (intros ->; discriminate).
  assert (Hin : (c :: rest) ∈ seq).
  { apply last_Some in Hlast as [l' ->]. set_solver. }
  exists a, (c :: rest), (a :: rest). repeat split; auto.
  - intros [|j] Hj; [lia | reflexivity].
  - rewrite length_app, length_skipn. simpl.
    destruct seq; [congruence | simpl in *; lia].
  - apply Forall_app. split.
    + apply Forall_drop. assumption.
    + constructor; [|constructor].
      rewrite Forall_forall in Hw. specialize (Hw _ Hin). simpl in *. exact Hw.
Qed.

(** After [k] rounds the window still has rows of the same width and [k]
    predictions were recorded. *)
Lemma forecast_loop_inv (model : option Model) (L nf k : nat)
    (seq0 seqk : Matrix) (preds0 predsk : list float64) :
  0 < nf ->
  Forall (fun r => length r = nf) seq0 ->
  forecast_loop model L nf k (seq0, preds0) = inr (seqk, predsk) ->
  Forall (fun r => length r = nf) seqk /\ length predsk = length preds0 + k.
Proof.
  intros Hnf. revert seq0 preds0.
  induction k as [|k IH]; intros seq0 preds0 Hw H.
  - injection H as <- <-. split; [assumption | lia].
  - simpl in H. exc_inv H. destruct a as [seq1 preds1].
    destruct (forecast_step_inv _ _ _ _ _ _ _ Hnf Hw Ha)
      as (p & lr & nr & _ & _ & _ & _ & _ & _ & -> & _ & Hw1).
    destruct (IH _ _ Hw1 H) as [Hwk Hlk]. split; [assumption|].
    rewrite Hlk, length_app. simpl. lia.
Qed.

(** A loop that ran [days] rounds ran every shorter loop. *)
Lemma forecast_loop_prefix (model : option Model) (L nf days k : nat)
    (st0 std : Matrix * list float64) :
  forecast_loop model L nf days st0 = inr std -> k <= days ->
  exists stk, forecast_loop model L nf k st0 = inr stk.
Proof.
  induction days as [|days IH] in std |- *; intros H Hk.
  - assert (k = 0) as -> by lia. eauto.
  - destruct (decide (k = S days)) as [->|]; [eauto|].
    rewrite forecast_loop_S in H. exc_inv H. eapply IH; [eassumption | lia].
Qed.

Lemma lookup_map {A B} (f : A -> B) (l : list A) (i : nat) :
  map f l !! i = f <$> (l !! i).
Proof. exact (list_lookup_fmap f l i). Qed.

(** The rolling loss of lines 64-66, as [RSI] computes it. *)
Lemma RSI_zero_loss (close : Series) (i : nat) (l : float64) :
  Pd.rolling_mean 14
    (map Np.neg (Pd.where_ (fun d => Np.lt d (Fin 0)) (Fin 0) (Pd.diff close))) !! i = Some l ->
  Np.is_zero l = true ->
  RSI close !! i = Some (Fin (5000 # 51)).
Proof.
  intros Hl Hz. unfold RSI, Pd.clip, Pd.fillna, Pd.replace_inf.
  rewrite !lookup_map.
  set (gain := Pd.rolling_mean 14 _).
  assert (Hg : is_Some (gain !! i)).
  { apply lookup_lt_is_Some. apply lookup_lt_Some in Hl.
    unfold gain, Pd.rolling_mean, Pd.where_ in *.
    rewrite !length_map, !length_seq in *. exact Hl. }
  destruct Hg as [g Hg].
  unfold Pd.replace_zero_nan.
  rewrite lookup_zip_with, Hg, lookup_map, Hl. simpl. rewrite Hz.
  replace (Np.div g NaN) with NaN by (destruct g; reflexivity).
  reflexivity.
Qed.

(** C2, the defect: on fifteen rising closes the rolling loss of the last
    window is zero, and [calculate_technical_indicators] gives that row the
    RSI 5000/51 (about 98.04): the neutral 50 is what the ratio of gain to
    loss is set to, not the RSI. *)
Theorem RSI_zero_loss_window_gets_98 :
  let df := Sample.rising 15 in
  exists close out rsi,
    Pd.col df "Close" = inr close /\
    Pd.rolling_mean 14
      (map Np.neg (Pd.where_ (fun d => Np.lt d (Fin 0)) (Fin 0) (Pd.diff close))) !! 14
      = Some (Fin 0) /\
    calculate_technical_indicators df = inr out /\
    Pd.col out "RSI" = inr rsi /\
    rsi !! 14 = Some (Fin (5000 # 51)) /\
    rsi !! 14 <> Some (Fin 50).
Proof.
  eexists _, _, _. repeat split; try (vm_compute; reflexivity).
  vm_compute. discriminate.
Qed.

(** C6: each round of the forecast loop copies the last row of the window
    but for its entry 0, which becomes the new prediction, drops the
    oldest row and appends the copy; the window keeps [L] rows. *)
Theorem forecast_frame_property (model : option Model) (L days k : nat)
    (seq0 seqd : Matrix) (predsd : list float64) :
  Forall (fun r => length r = length feature_names) seq0 ->
  forecast_loop model L (length feature_names) days (seq0, []) = inr (seqd, predsd) ->
  k < days ->
  exists seqk predsk seqk1 p last_row new_row,
    forecast_loop model L (length feature_names) k (seq0, []) = inr (seqk, predsk) /\
    forecast_loop model L (length feature_names) (S k) (seq0, []) = inr (seqk1, predsk ++ [p]) /\
    length seqk = L /\
    last seqk = Some last_row /\
    model_predict model seqk = inr p /\
    new_row !! 0 = Some p /\
    (forall j, 1 <= j < 9 -> new_row !! j = last_row !! j) /\
    length new_row = 9 /\
    seqk1 = skipn 1 seqk ++ [new_row] /\
    length seqk1 = L.
Proof.
  intros Hw Hloop Hk.
  destruct (forecast_loop_prefix _ _ _ _ (S k) _ _ Hloop ltac:(lia)) as [[seqk1 predsk1] HS].
  pose proof HS as HS'. rewrite forecast_loop_S in HS'. exc_inv HS'.
  destruct a as [seqk predsk].
  assert (Hnf : 0 < length feature_names) by (simpl; lia).
  destruct (forecast_loop_inv _ _ _ _ _ _ _ _ Hnf Hw Ha) as [Hwk _].
  destruct (forecast_step_inv _ _ _ _ _ _ _ Hnf Hwk HS')
    as (p & lr & nr & Hp & HL & Hlast & H0 & Hcopy & -> & -> & HL1 & Hw1).
  exists seqk, predsk, (skipn 1 seqk ++ [nr]), p, lr, nr.
  repeat split; auto.
  - intros j [Hj _]. auto.
  - apply Forall_app in Hw1 as [_ Hnr]. inversion Hnr; subst. assumption.
Qed.

(** ** Frames, scalers and the sequence loop *)

Lemma values_inv (df : DataFrame) (cs : list string) (fd : Matrix) :
  Pd.values df cs = inr fd ->
  exists ss, mapM (fun c => dict_get c (columns df)) cs = Some ss /\
    fd = map (fun i => map (fun s => Pd.at_ s i) ss) (seq 0 (Pd.len df)) /\
    length fd = Pd.len df /\
    Forall (fun r => length r = length cs) fd.
Proof.
  unfold Pd.values. intros H.
  destruct (mapM _ cs) as [ss|] eqn:Hss.
  - injection H as <-. exists ss. repeat split.
    + rewrite length_map, length_seq. reflexivity.
    + apply Forall_map, Forall_forall. intros i _. simpl.
      rewrite length_map. symmetry. exact (length_mapM _ _ _ Hss).
  - destruct (List.filter _ cs); discriminate.
Qed.

Lemma all_finite_no_inf (X : Matrix) :
  Arr.all_finite X = true -> existsb (existsb Np.isinf) X = false.
Proof.
  unfold Arr.all_finite. induction X as [|r X IH]; simpl; [reflexivity|].
  intros [Hr HX]%andb_prop. rewrite (IH HX), orb_false_r.
  clear -Hr. induction r as [|x r IH]; simpl in *; [reflexivity|].
  apply andb_prop in Hr as [Hx Hr]. rewrite (IH Hr).
  destruct x; simpl in *; congruence.
Qed.

Lemma check_array_ok (X : Matrix) (k : nat) :
  X <> [] -> 0 < k -> Forall (fun r => length r = k) X ->
  existsb (existsb Np.isinf) X = false ->
  Sk.check_array X = inr X /\ Sk.n_features X = k.
Proof.
  intros Hne Hk Hw Hinf. destruct X as [|r X]; [congruence|].
  assert (Sk.n_features (r :: X) = k) as Hn by (inversion Hw; assumption).
  unfold Sk.check_array. rewrite Hn, Hinf.
  destruct (Nat.eqb_spec k 0); [lia | auto].
Qed.

(** Fitting and transforming a rectangular array without infinities
    succeeds and keeps its shape. *)
Lemma fit_transform_ok (X : Matrix) (k : nat) :
  X <> [] -> 0 < k -> Forall (fun r => length r = k) X ->
  existsb (existsb Np.isinf) X = false ->
  exists sc Y,
    Sk.fit_transform X = inr (sc, Y) /\
    Sk.fit X = inr sc /\ Sk.transform sc X = inr Y /\
    length Y = length X /\ Forall (fun r => length r = k) Y.
Proof.
  intros Hne Hk Hw Hinf.
  destruct (check_array_ok X k Hne Hk Hw Hinf) as [Hc Hn].
  unfold Sk.fit_transform, Sk.fit. rewrite Hc. cbn [exc_bind].
  set (params := map _ _).
  assert (Hp : length params = k).
  { unfold params. rewrite !length_map, length_seq. exact Hn. }
  unfold Sk.transform. rewrite Hc. cbn [exc_bind].
  rewrite Hn, Hp, Nat.eqb_refl. cbn [negb exc_bind].
  eexists _, _. repeat split.
  - rewrite Hp, Nat.eqb_refl. reflexivity.
  - rewrite length_map. reflexivity.
  - apply Forall_map. eapply Forall_impl; [exact Hw|]. intros r Hr. simpl in *.
    rewrite length_zip_with. lia.
Qed.

Lemma fit_transform_inv (X Y : Matrix) (sc : MinMaxScaler) :
  Sk.fit_transform X = inr (sc, Y) ->
  Sk.fit X = inr sc /\ Sk.transform sc X = inr Y /\ length Y = length X.
Proof.
  unfold Sk.fit_transform. intros H. exc_inv H. injection H as <- <-.
  repeat split; auto.
  unfold Sk.transform in Ha0. destruct a; [discriminate|].
  exc_inv Ha0. destruct (negb _); [discriminate|]. injection Ha0 as <-.
  unfold Sk.check_array in Ha1. destruct X; [discriminate|].
  destruct (_ =? 0)%nat; [discriminate|].
  destruct (existsb _ _); [discriminate|]. injection Ha1 as <-.
  rewrite length_map. reflexivity.
Qed.

Lemma create_sequences_inv (L : nat) (sf sp : Matrix) (idx : list nat)
    (X0 X : list Matrix) (y0 y : list float64) :
  create_sequences L sf sp idx X0 y0 = inr (X, y) ->
  X = X0 ++ map (fun i => Arr.slice (i - L) i sf) idx /\
  exists ps, y = y0 ++ ps /\ Forall2 (fun i p => Arr.item2 sp i 0 = inr p) idx ps.
Proof.
  revert X0 y0. induction idx as [|i idx IH]; intros X0 y0 H; simpl in H.
  - injection H as <- <-. rewrite !app_nil_r. split; [reflexivity|].
    exists []. rewrite app_nil_r. split; [reflexivity | constructor].
  - exc_inv H. destruct (IH _ _ H) as (-> & ps & -> & Hps).
    split.
    + rewrite <- app_assoc. reflexivity.
    + exists (a :: ps). rewrite <- app_assoc. split; [reflexivity|].
      constructor; assumption.
Qed.

Lemma create_sequences_ok (L : nat) (sf sp : Matrix) (idx : list nat)
    (X0 : list Matrix) (y0 : list float64) :
  Forall (fun i => exists p, Arr.item2 sp i 0 = inr p) idx ->
  exists X y, create_sequences L sf sp idx X0 y0 = inr (X, y).
Proof.
  intros H. revert X0 y0. induction H as [|i idx [p Hp] _ IH]; intros X0 y0; simpl.
  - eauto.
  - rewrite Hp. simpl. apply IH.
Qed.

Lemma item2_column (sp : Matrix) (i : nat) :
  i < length sp -> Forall (fun r => length r = 1) sp ->
  exists p, Arr.item2 sp i 0 = inr p /\ sp !! i = Some [p].
Proof.
  intros Hi Hw. apply lookup_lt_is_Some in Hi as [r Hr].
  rewrite Forall_lookup in Hw. specialize (Hw _ _ Hr).
  destruct r as [|p [|]]; try discriminate.
  exists p. unfold Arr.item2. rewrite Hr. auto.
Qed.

(** The samples the loop builds from [N] scaled rows: [N - L] of them,
    sample [i] made of rows [i .. i+L-1] and of the price of row [i+L]. *)
Lemma create_sequences_spec (L : nat) (sf sp : Matrix) :
  length sp = length sf -> Forall (fun r => length r = 1) sp ->
  exists X y,
    create_sequences L sf sp (range L (length sf)) [] [] = inr (X, y) /\
    length X = length sf - L /\ length y = length sf - L /\
    forall i, i < length sf - L ->
      X !! i = Some (Arr.slice i (i + L) sf) /\
      exists p, y !! i = Some p /\ sp !! (i + L) = Some [p].
Proof.
  intros Hlen Hw.
  destruct (create_sequences_ok L sf sp (range L (length sf)) [] []) as (X & y & H).
  { apply Forall_forall. intros i Hi. apply elem_of_seq in Hi.
    destruct (item2_column sp i) as (p & Hp & _); [lia | assumption | eauto]. }
  exists X, y. split; [assumption|].
  destruct (create_sequences_inv _ _ _ _ _ _ _ _ H) as (-> & ps & -> & Hps).
  pose proof (Forall2_length _ _ _ Hps) as Hl. unfold range in *.
  rewrite length_seq in Hl. simpl.
  rewrite length_map, length_seq. split; [lia|]. split; [lia|].
  intros i Hi. split.
  - rewrite lookup_map, lookup_seq_lt by lia. simpl. do 2 f_equal; lia.
  - destruct (lookup_lt_is_Some_2 ps i) as [p Hp]; [lia|].
    exists p. split; [assumption|].
    rewrite Forall2_lookup in Hps. specialize (Hps i).
    rewrite lookup_seq_lt, Hp in Hps by lia. inversion Hps as [? ? Hi2|]; subst.
    destruct (item2_column sp (L + i)) as (p' & Hp' & Hrow); [lia | assumption |].
    rewrite Hi2 in Hp'. injection Hp' as ->.
    rewrite Nat.add_comm. assumption.
Qed.

Lemma dict_get_set_eq {V} (k : string) (v : V) (d : list (string * V)) :
  dict_get k (dict_set k v d) = Some v.
Proof.
  induction d as [|[k' v'] d IH]; simpl.
  - rewrite String.eqb_refl. reflexivity.
  - destruct (String.eqb k k') eqn:E; simpl; rewrite ?String.eqb_refl, ?E; auto.
Qed.

Lemma dict_get_set_ne {V} (k k' : string) (v : V) (d : list (string * V)) :
  k <> k' -> dict_get k' (dict_set k v d) = dict_get k' d.
Proof.
  intros Hne. induction d as [|[k0 v0] d IH]; simpl.
  - destruct (String.eqb_spec k' k); congruence.
  - destruct (String.eqb_spec k k0) as [->|]; simpl.
    + destruct (String.eqb_spec k' k0); congruence.
    + destruct (String.eqb_spec k' k0); auto.
Qed.

Lemma col_set_col_ne (df : DataFrame) (c c' : string) (s : Series) :
  c <> c' -> Pd.col (Pd.set_col df c s) c' = Pd.col df c'.
Proof.
  intros Hne. unfold Pd.col, Pd.set_col, dict_item. simpl.
  rewrite dict_get_set_ne by assumption. reflexivity.
Qed.

Lemma col_set_col_eq (df : DataFrame) (c : string) (s : Series) :
  Pd.col (Pd.set_col df c s) c = inr s.
Proof.
  unfold Pd.col, Pd.set_col, dict_item. simpl. rewrite dict_get_set_eq. reflexivity.
Qed.

Lemma wf_col_length (df : DataFrame) (c : string) (s : Series) :
  Pd.well_formed df = true -> dict_get c (columns df) = Some s -> length s = Pd.len df.
Proof.
  unfold Pd.well_formed. generalize (Pd.len df). intros n.
  induction (columns df) as [|[c' s'] cols IH]; simpl; [discriminate|].
  intros [H1 H2]%andb_prop. destruct (String.eqb c c').
  - intros [= <-]. apply Nat.eqb_eq. assumption.
  - auto.
Qed.

(** The frames [take] builds have columns as long as their index. *)
Lemma take_well_formed (df : DataFrame) (rows : list nat) :
  Pd.well_formed (Pd.take df rows) = true.
Proof.
  unfold Pd.well_formed, Pd.take, Pd.len. simpl.
  rewrite forallb_forall. intros [c s] Hin. apply in_map_iff in Hin as ([c' s'] & [= <- <-] & _).
  simpl. rewrite !length_map. apply Nat.eqb_refl.
Qed.

Lemma map_at_seq (s : Series) : map (Pd.at_ s) (seq 0 (length s)) = s.
Proof.
  apply list_eq. intros i. rewrite lookup_map.
  destruct (s !! i) as [x|] eqn:Hx.
  - rewrite lookup_seq_lt by (eapply lookup_lt_Some; eassumption).
    simpl. unfold Pd.at_. rewrite (nth_lookup_Some _ _ _ _ Hx). reflexivity.
  - rewrite lookup_seq_ge by (apply lookup_ge_None; assumption). reflexivity.
Qed.

(** Column 0 of the feature rows is the close column of the frame. *)
Lemma values_close_column (ff : DataFrame) (fd : Matrix) :
  Pd.well_formed ff = true ->
  Pd.values ff feature_names = inr fd ->
  Pd.col ff "Close" = inr (Arr.column fd 0) /\ length (Arr.column fd 0) = Pd.len ff.
Proof.
  intros Hwf Hv. destruct (values_inv _ _ _ Hv) as (ss & Hss & -> & _ & _).
  apply mapM_Some_1 in Hss. unfold feature_names in Hss.
  inversion Hss as [|? close ? ss' Hclose _]; subst.
  pose proof (wf_col_length _ _ _ Hwf Hclose) as Hlen.
  unfold Arr.column. rewrite map_map. simpl.
  rewrite <- Hlen, map_at_seq. split; [|reflexivity].
  unfold Pd.col, dict_item. rewrite Hclose. reflexivity.
Qed.

Lemma all_finite_column0 (fd : Matrix) (k : nat) :
  0 < k -> Forall (fun r => length r = k) fd -> Arr.all_finite fd = true ->
  existsb (existsb Np.isinf) (Arr.as_column (Arr.column fd 0)) = false.
Proof.
  intros Hk Hw. unfold Arr.all_finite, Arr.as_column, Arr.column.
  induction Hw as [|r fd Hr _ IH]; simpl; [reflexivity|].
  intros [H1 H2]%andb_prop. rewrite (IH H2), !orb_false_r.
  destruct r as [|x r]; [simpl in Hr; lia|]. simpl in *.
  apply andb_prop in H1 as [Hx _]. destruct x; simpl in *; congruence.
Qed.

Lemma as_column_width (s : Series) : Forall (fun r => length r = 1) (Arr.as_column s).
Proof. unfold Arr.as_column. apply Forall_map, Forall_forall. reflexivity. Qed.

Lemma clean_feature_data_finite (n : nat) (fd : Matrix) :
  Arr.all_finite fd = true -> clean_feature_data n fd = Some fd.
Proof. intros H. unfold clean_feature_data. rewrite H. reflexivity. Qed.

(** ** Sequence building in [ModelTrainer.prepare_stock_data] *)

Lemma prepare_stock_data_short (self : ModelTrainer) (df ff : DataFrame) :
  Pd.has_column df "Close" = true ->
  indicator_frame df = inr ff ->
  Pd.len ff < lookback self + 50 ->
  prepare_stock_data self df = None.
Proof.
  intros Hc Hff Hlt. unfold prepare_stock_data, prepare_stock_data_body.
  rewrite Hc, Hff. simpl.
  destruct (Nat.ltb_spec (Pd.len ff) (lookback self + 50)); [reflexivity | lia].
Qed.

Lemma prepare_stock_data_complete (self : ModelTrainer) (df ff : DataFrame) (fd : Matrix) :
  features self = feature_names ->
  Pd.has_column df "Close" = true ->
  indicator_frame df = inr ff ->
  Pd.well_formed ff = true ->
  Pd.values ff feature_names = inr fd ->
  Arr.all_finite fd = true ->
  lookback self + 50 <= Pd.len ff ->
  exists X y fsc tsc sf sp,
    prepare_stock_data self df = Some (X, y, fsc, tsc) /\
    Sk.fit_transform fd = inr (fsc, sf) /\
    Sk.fit_transform (Arr.as_column (Arr.column fd 0)) = inr (tsc, sp) /\
    length X = Pd.len ff - lookback self /\
    length y = Pd.len ff - lookback self /\
    forall i, i < Pd.len ff - lookback self ->
      X !! i = Some (Arr.slice i (i + lookback self) sf) /\
      exists p, y !! i = Some p /\ sp !! (i + lookback self) = Some [p].
Proof.
  intros Hfeat Hc Hff Hwf Hv Hfin HN.
  destruct (values_inv _ _ _ Hv) as (_ & _ & _ & Hlen & Hw).
  destruct (values_close_column _ _ Hwf Hv) as [Hclose Hclen].
  assert (Hne : fd <> []) by (intros ->; simpl in Hlen; lia).
  assert (H9 : 0 < length feature_names) by (simpl; lia).
  destruct (fit_transform_ok fd _ Hne H9 Hw (all_finite_no_inf _ Hfin))
    as (fsc & sf & Hft & _ & _ & Hsf & _).
  destruct (fit_transform_ok (Arr.as_column (Arr.column fd 0)) 1)
    as (tsc & sp & Htt & _ & _ & Hsp & Hspw).
  { unfold Arr.as_column, Arr.column. destruct fd; [congruence | discriminate]. }
  { lia. }
  { apply as_column_width. }
  { eapply all_finite_column0; eassumption. }
  assert (Hsp' : length sp = length sf).
  { rewrite Hsp, Hsf. unfold Arr.as_column. rewrite length_map. lia. }
  destruct (create_sequences_spec (lookback self) sf sp Hsp' Hspw)
    as (X & y & Hcs & HX & Hy & Hi).
  exists X, y, fsc, tsc, sf, sp.
  rewrite Hsf, Hlen in HX, Hy, Hi.
  split; [|repeat split; solve [auto | apply Hi; assumption]].
  unfold prepare_stock_data, prepare_stock_data_body.
  rewrite Hc, Hff. cbn [negb exc_bind].
  destruct (Nat.ltb_spec (Pd.len ff) (lookback self + 50)); [lia|].
  rewrite Hfeat, Hv. cbn [exc_bind].
  rewrite (clean_feature_data_finite _ _ Hfin), Hft. cbn [exc_bind].
  rewrite Hclose. cbn [exc_bind]. rewrite Htt. cbn [exc_bind].
  rewrite Hcs. reflexivity.
Qed.

(** ** Sequence building in [LSTMPredictor.prepare_data] *)

Lemma add_features_cols (data df1 : DataFrame) :
  add_features data = inr df1 ->
  exists c h l v,
    Pd.col data "Close" = inr c /\ Pd.col data "High" = inr h /\
    Pd.col data "Low" = inr l /\ Pd.col data "Volume" = inr v.
Proof.
  unfold add_features. intros H. exc_inv H.
  rewrite !col_set_col_ne in Ha0 by discriminate.
  rewrite !col_set_col_ne in Ha1 by discriminate.
  rewrite !col_set_col_ne in Ha2 by discriminate.
  exists a, a0, a1, a2. auto.
Qed.

Lemma prepare_data_short (self : LSTMPredictor) (data df1 : DataFrame) :
  add_features data = inr df1 ->
  Pd.len (Pd.dropna df1) < p_lookback self + 50 ->
  prepare_data self data =
    inl (ValueError (insufficient_data_message (p_lookback self + 50)
                       (Pd.len (Pd.dropna df1)))).
Proof.
  intros Hadd Hlt.
  destruct (add_features_cols _ _ Hadd) as (c & h & l & v & Hc & Hh & Hl & Hv).
  unfold prepare_data. rewrite Hc, Hh, Hl, Hv, Hadd. cbn [exc_bind].
  destruct (Nat.ltb_spec (Pd.len (Pd.dropna df1)) (p_lookback self + 50)); [reflexivity | lia].
Qed.

Lemma prepare_data_complete (self : LSTMPredictor) (data df1 : DataFrame) (fd : Matrix) :
  add_features data = inr df1 ->
  Pd.values (Pd.dropna df1) feature_names = inr fd ->
  Arr.all_finite fd = true ->
  p_lookback self + 50 <= Pd.len (Pd.dropna df1) ->
  exists X y sc tsc sf sp,
    prepare_data self data =
      inr (mkLSTMPredictor (p_lookback self) sc tsc (p_model self),
           (firstn (int_mul_08 (length X)) X, firstn (int_mul_08 (length X)) y,
            skipn (int_mul_08 (length X)) X, skipn (int_mul_08 (length X)) y, sf)) /\
    Sk.fit_transform fd = inr (sc, sf) /\
    Sk.fit_transform (Arr.as_column (Arr.column fd 0)) = inr (tsc, sp) /\
    length X = Pd.len (Pd.dropna df1) - p_lookback self /\
    length y = Pd.len (Pd.dropna df1) - p_lookback self /\
    forall i, i < Pd.len (Pd.dropna df1) - p_lookback self ->
      X !! i = Some (Arr.slice i (i + p_lookback self) sf) /\
      exists p, y !! i = Some p /\ sp !! (i + p_lookback self) = Some [p].
Proof.
  intros Hadd Hv Hfin HN. set (ff := Pd.dropna df1) in *.
  assert (Hwf : Pd.well_formed ff = true) by apply take_well_formed.
  destruct (add_features_cols _ _ Hadd) as (c & h & l & v & Hc & Hh & Hl & Hvol).
  destruct (values_inv _ _ _ Hv) as (_ & _ & _ & Hlen & Hw).
  destruct (values_close_column _ _ Hwf Hv) as [Hclose Hclen].
  assert (Hne : fd <> []) by (intros ->; simpl in Hlen; lia).
  assert (H9 : 0 < length feature_names) by (simpl; lia).
  destruct (fit_transform_ok fd _ Hne H9 Hw (all_finite_no_inf _ Hfin))
    as (sc & sf & Hft & _ & _ & Hsf & _).
  destruct (fit_transform_ok (Arr.as_column (Arr.column fd 0)) 1)
    as (tsc & sp & Htt & _ & _ & Hsp & Hspw).
  { unfold Arr.as_column, Arr.column. destruct fd; [congruence | discriminate]. }
  { lia. }
  { apply as_column_width. }
  { eapply all_finite_column0; eassumption. }
  assert (Hsp' : length sp = length sf).
  { rewrite Hsp, Hsf. unfold Arr.as_column. rewrite length_map. lia. }
  destruct (create_sequences_spec (p_lookback self) sf sp Hsp' Hspw)
    as (X & y & Hcs & HX & Hy & Hi).
  exists X, y, sc, tsc, sf, sp.
  rewrite Hsf, Hlen in HX, Hy, Hi.
  split; [|repeat split; solve [auto | apply Hi; assumption]].
  unfold prepare_data. rewrite Hc, Hh, Hl, Hvol, Hadd. cbn [exc_bind]. fold ff.
  destruct (Nat.ltb_spec (Pd.len ff) (p_lookback self + 50)); [lia|].
  rewrite Hv. cbn [exc_bind]. rewrite Hft. cbn [exc_bind].
  rewrite Hclose. cbn [exc_bind]. rewrite Htt. cbn [exc_bind].
  rewrite Hcs. reflexivity.
Qed.

(** C1: from [N] complete feature rows, [N >= L + 50], sequence building
    makes [N - L] samples; the window of sample [i] is the scaled rows
    [i .. i+L-1] and its label the scaled close of row [i+L].  The first
    part is [ModelTrainer.prepare_stock_data], the second
    [LSTMPredictor.prepare_data], whose samples come back split in two. *)
Theorem causal_windowing :
  (forall (self : ModelTrainer) (df ff : DataFrame) (fd : Matrix),
     features self = feature_names ->
     Pd.has_column df "Close" = true ->
     indicator_frame df = inr ff ->
     Pd.well_formed ff = true ->
     Pd.values ff feature_names = inr fd ->
     Arr.all_finite fd = true ->
     lookback self + 50 <= Pd.len ff ->
     exists X y fsc tsc sf sp,
       prepare_stock_data self df = Some (X, y, fsc, tsc) /\
       Sk.fit_transform fd = inr (fsc, sf) /\
       Sk.fit_transform (Arr.as_column (Arr.column fd 0)) = inr (tsc, sp) /\
       length X = Pd.len ff - lookback self /\
       length y = Pd.len ff - lookback self /\
       forall i, i < Pd.len ff - lookback self ->
         X !! i = Some (Arr.slice i (i + lookback self) sf) /\
         exists p, y !! i = Some p /\ sp !! (i + lookback self) = Some [p]) /\
  (forall (self : LSTMPredictor) (data df1 : DataFrame) (fd : Matrix),
     add_features data = inr df1 ->
     Pd.values (Pd.dropna df1) feature_names = inr fd ->
     Arr.all_finite fd = true ->
     p_lookback self + 50 <= Pd.len (Pd.dropna df1) ->
     exists self' X_train y_train X_test y_test sf sp,
       prepare_data self data = inr (self', (X_train, y_train, X_test, y_test, sf)) /\
       Sk.fit_transform fd = inr (p_scaler self', sf) /\
       Sk.fit_transform (Arr.as_column (Arr.column fd 0)) = inr (p_target_scaler self', sp) /\
       length (X_train ++ X_test) = Pd.len (Pd.dropna df1) - p_lookback self /\
       length (y_train ++ y_test) = Pd.len (Pd.dropna df1) - p_lookback self /\
       forall i, i < Pd.len (Pd.dropna df1) - p_lookback self ->
         (X_train ++ X_test) !! i = Some (Arr.slice i (i + p_lookback self) sf) /\
         exists p, (y_train ++ y_test) !! i = Some p /\
                   sp !! (i + p_lookback self) = Some [p]).
Proof.
  split.
  - apply prepare_stock_data_complete.
  - intros self data df1 fd Hadd Hv Hfin HN.
    destruct (prepare_data_complete self data df1 fd Hadd Hv Hfin HN)
      as (X & y & sc & tsc & sf & sp & Hpd & Hft & Htt & HX & Hy & Hi).
    eexists _, _, _, _, _, sf, sp. split; [exact Hpd|].
    rewrite !take_drop. simpl. auto 10.
Qed.

(** C5: on a frame of complete feature rows, sequence building gives up
    exactly when there are fewer than [L + 50] rows ([None] from
    [ModelTrainer.prepare_stock_data], the [ValueError] of line 90 from
    [LSTMPredictor.prepare_data]); otherwise it returns the samples and
    the two scalers, fitted on the feature rows and on the close column. *)
Theorem insufficient_data_threshold :
  (forall (self : ModelTrainer) (df ff : DataFrame) (fd : Matrix),
     features self = feature_names ->
     Pd.has_column df "Close" = true ->
     indicator_frame df = inr ff ->
     Pd.well_formed ff = true ->
     Pd.values ff feature_names = inr fd ->
     Arr.all_finite fd = true ->
     (prepare_stock_data self df = None <-> Pd.len ff < lookback self + 50) /\
     (lookback self + 50 <= Pd.len ff ->
      exists X y fsc tsc,
        prepare_stock_data self df = Some (X, y, fsc, tsc) /\
        Sk.fit fd = inr fsc /\
        Sk.fit (Arr.as_column (Arr.column fd 0)) = inr tsc /\
        length X = Pd.len ff - lookback self /\
        length y = Pd.len ff - lookback self)) /\
  (forall (self : LSTMPredictor) (data df1 : DataFrame) (fd : Matrix),
     add_features data = inr df1 ->
     Pd.values (Pd.dropna df1) feature_names = inr fd ->
     Arr.all_finite fd = true ->
     ((exists e, prepare_data self data = inl e) <->
      Pd.len (Pd.dropna df1) < p_lookback self + 50) /\
     (Pd.len (Pd.dropna df1) < p_lookback self + 50 ->
      prepare_data self data =
        inl (ValueError (insufficient_data_message (p_lookback self + 50)
                           (Pd.len (Pd.dropna df1))))) /\
     (p_lookback self + 50 <= Pd.len (Pd.dropna df1) ->
      exists self' X_train y_train X_test y_test sf,
        prepare_data self data = inr (self', (X_train, y_train, X_test, y_test, sf)) /\
        Sk.fit fd = inr (p_scaler self') /\
        Sk.fit (Arr.as_column (Arr.column fd 0)) = inr (p_target_scaler self') /\
        length (X_train ++ X_test) = Pd.len (Pd.dropna df1) - p_lookback self)).
Proof.
  split.
  - intros self df ff fd Hfeat Hc Hff Hwf Hv Hfin.
    assert (Hbig : lookback self + 50 <= Pd.len ff ->
      exists X y fsc tsc,
        prepare_stock_data self df = Some (X, y, fsc, tsc) /\
        Sk.fit fd = inr fsc /\
        Sk.fit (Arr.as_column (Arr.column fd 0)) = inr tsc /\
        length X = Pd.len ff - lookback self /\
        length y = Pd.len ff - lookback self).
    { intros HN.
      destruct (prepare_stock_data_complete self df ff fd Hfeat Hc Hff Hwf Hv Hfin HN)
        as (X & y & fsc & tsc & sf & sp & Hp & Hft & Htt & HX & Hy & _).
      apply fit_transform_inv in Hft as [Hft _], Htt as [Htt _]. eauto 10. }
    split; [split|exact Hbig].
    + intros Hnone. destruct (Nat.lt_ge_cases (Pd.len ff) (lookback self + 50)) as [|HN];
        [assumption|].
      destruct (Hbig HN) as (X & y & fsc & tsc & Hp & _). congruence.
    + intros Hlt. eapply prepare_stock_data_short; eassumption.
  - intros self data df1 fd Hadd Hv Hfin.
    assert (Hbig : p_lookback self + 50 <= Pd.len (Pd.dropna df1) ->
      exists self' X_train y_train X_test y_test sf,
        prepare_data self data = inr (self', (X_train, y_train, X_test, y_test, sf)) /\
        Sk.fit fd = inr (p_scaler self') /\
        Sk.fit (Arr.as_column (Arr.column fd 0)) = inr (p_target_scaler self') /\
        length (X_train ++ X_test) = Pd.len (Pd.dropna df1) - p_lookback self).
    { intros HN.
      destruct (prepare_data_complete self data df1 fd Hadd Hv Hfin HN)
        as (X & y & sc & tsc & sf & sp & Hp & Hft & Htt & HX & Hy & _).
      apply fit_transform_inv in Hft as [Hft _], Htt as [Htt _].
      eexists _, _, _, _, _, _. split; [exact Hp|]. simpl.
      rewrite take_drop. auto. }
    split; [split | split; [|exact Hbig]].
    + intros [e He].
      destruct (Nat.lt_ge_cases (Pd.len (Pd.dropna df1)) (p_lookback self + 50)) as [|HN];
        [assumption|].
      destruct (Hbig HN) as (? & ? & ? & ? & ? & ? & Hp & _). congruence.
    + intros Hlt. eexists. eapply prepare_data_short; eassumption.
    + intros Hlt. eapply prepare_data_short; eassumption.
Qed.

(** ** Training one symbol *)

Lemma int_mul_08_div (n : nat) : int_mul_08 n = n * 8 / 10.
Proof.
  unfold int_mul_08, Qfloor, Qmult, inject_Z. simpl Qnum. simpl Qden.
  apply Nat2Z.inj. rewrite Z2Nat.id by (apply Z.div_pos; lia).
  rewrite Nat2Z.inj_div, Nat2Z.inj_mul. reflexivity.
Qed.

Lemma int_mul_08_le (n : nat) : int_mul_08 n <= n.
Proof.
  rewrite int_mul_08_div. apply Nat.Div0.div_le_upper_bound. lia.
Qed.

Lemma clean_feature_data_length (n : nat) (fd fd' : Matrix) :
  clean_feature_data n fd = Some fd' -> length fd' = length fd.
Proof.
  unfold clean_feature_data. destruct (Arr.all_finite fd); [intros [= <-]; reflexivity|].
  destruct (Arr.all_finite _); [|discriminate]. intros [= <-].
  rewrite length_map, length_seq, length_map. reflexivity.
Qed.

(** What a successful [prepare_stock_data] tells about its frame. *)
Lemma prepare_stock_data_inv (self : ModelTrainer) (df : DataFrame)
    (X : list Matrix) (y : list float64) (fsc tsc : MinMaxScaler) :
  prepare_stock_data self df = Some (X, y, fsc, tsc) ->
  exists ff,
    indicator_frame df = inr ff /\
    lookback self + 50 <= Pd.len ff /\
    length X = Pd.len ff - lookback self /\
    length y = Pd.len ff - lookback self.
Proof.
  unfold prepare_stock_data. destruct (prepare_stock_data_body self df) as [e|r] eqn:H;
    [discriminate|].
  intros ->. unfold prepare_stock_data_body in H.
  destruct (negb _); [discriminate|]. exc_inv H. rename a into ff.
  destruct (Nat.ltb_spec (Pd.len ff) (lookback self + 50)); [discriminate|].
  exc_inv H. destruct (clean_feature_data _ a) as [fd'|] eqn:Hclean; [|discriminate].
  exc_inv H. injection H as <- <- <- <-.
  apply values_inv in Ha0 as (_ & _ & _ & Hlen & _).
  apply clean_feature_data_length in Hclean.
  apply fit_transform_inv in Ha1 as (_ & _ & Hsf).
  apply create_sequences_inv in Ha4 as (-> & ps & -> & Hps).
  apply Forall2_length in Hps. unfold range in *. rewrite length_seq in Hps.
  exists ff. simpl. rewrite length_map, length_seq, <- Hps.
  repeat split; auto; lia.
Qed.

(** [train_single_stock] returns: every exception ends as [None]. *)
Lemma train_single_stock_returns (self : ModelTrainer) (symbol : string) (df : DataFrame)
    (epochs batch_size : Z) (w : World) :
  exists r w', train_single_stock self symbol df epochs batch_size w = (inr r, w').
Proof.
  unfold train_single_stock. apply (try_except_returns _ (fun _ => None)).
Qed.

(** A successful training: what was fitted, what was written. *)
Lemma train_single_stock_inv (self : ModelTrainer) (symbol : string) (df : DataFrame)
    (epochs batch_size : Z) (w w' : World) (md : Dict) :
  train_single_stock self symbol df epochs batch_size w = (inr (Some md), w') ->
  exists X y fsc tsc model hist test_loss test_mae final_loss,
    let k := int_mul_08 (length X) in
    prepare_stock_data self df = Some (X, y, fsc, tsc) /\
    keras_fit None (firstn k X) (firstn k y) epochs
      (Z.min batch_size (Z.max 8 (Z.of_nat (length (firstn k X) / 10))))
      = inr (model, hist) /\
    keras_evaluate model (skipn k X) (skipn k y) = inr (test_loss, test_mae) /\
    last hist = Some final_loss /\
    md = metadata_record self symbol (isoformat (clock w))
           (length (firstn k X)) (length (skipn k X)) test_loss test_mae final_loss epochs /\
    w' = mkWorld
           (<[metadata_path self symbol := FJson (VDict md)]>
              (<[scaler_path self symbol :=
                   FPickle [("feature_scaler", fsc); ("target_scaler", tsc)]]>
                 (<[model_path self symbol := FKeras model]> (fs w))))
           (S (fit_calls w)) (S (clock w)).
Proof.
  unfold train_single_stock, try_except.
  destruct (prepare_stock_data self df) as [[[[X y] fsc] tsc]|]; [|discriminate].
  unfold bind, model_fit, lift, write_file, datetime_now, ret. simpl.
  destruct (keras_fit _ _ _ _ _) as [e|[model hist]] eqn:Hfit; [discriminate|].
  destruct (keras_evaluate _ _ _) as [e|[tl tm]] eqn:Hev; [discriminate|]. simpl.
  unfold Arr.item_last. destruct (last hist) as [fl|] eqn:Hlast; [|discriminate].
  intros [= <- <-].
  exists X, y, fsc, tsc, model, hist, tl, tm, fl. simpl. auto 10.
Qed.

(** Whether a training succeeds does not depend on the world. *)
Lemma train_single_stock_outcome (self : ModelTrainer) (symbol : string) (df : DataFrame)
    (epochs batch_size : Z) (w1 w2 : World) :
  trained (fst (train_single_stock self symbol df epochs batch_size w1)) =
  trained (fst (train_single_stock self symbol df epochs batch_size w2)).
Proof.
  unfold train_single_stock, try_except.
  destruct (prepare_stock_data self df) as [[[[X y] fsc] tsc]|]; [|reflexivity].
  unfold bind, model_fit, lift, write_file, datetime_now, ret. simpl.
  destruct (keras_fit _ _ _ _ _) as [e|[model hist]]; [reflexivity|].
  destruct (keras_evaluate _ _ _) as [e|[tl tm]]; [reflexivity|]. simpl.
  destruct (Arr.item_last hist); reflexivity.
Qed.

(** C10: the metadata that [train_single_stock] writes counts
    [floor(0.8 * (N - L))] training samples, the first ones of the [N - L]
    samples, and the rest as test samples; its feature list is the nine
    names in the order the sequences were built from. *)
Theorem metadata_sample_counts (self : ModelTrainer) (symbol : string) (df : DataFrame)
    (epochs batch_size : Z) (w w' : World) (md : Dict) :
  features self = feature_names ->
  train_single_stock self symbol df epochs batch_size w = (inr (Some md), w') ->
  exists ff X y fsc tsc model hist tr te,
    let n := Pd.len ff - lookback self in
    indicator_frame df = inr ff /\
    prepare_stock_data self df = Some (X, y, fsc, tsc) /\
    length X = n /\
    fs w' !! metadata_path self symbol = Some (FJson (VDict md)) /\
    dict_get "training_samples" md = Some (VInt tr) /\
    dict_get "test_samples" md = Some (VInt te) /\
    (tr + te = Z.of_nat n)%Z /\
    tr = Qfloor (inject_Z (Z.of_nat n) * (8 # 10)) /\
    keras_fit None (firstn (Z.to_nat tr) X) (firstn (Z.to_nat tr) y) epochs
      (Z.min batch_size (Z.max 8 (tr / 10))) = inr (model, hist) /\
    dict_get "lookback" md = Some (VInt (Z.of_nat (lookback self))) /\
    dict_get "features" md = Some (VList (map VStr feature_names)).
Proof.
  intros Hfeat H.
  destruct (train_single_stock_inv _ _ _ _ _ _ _ _ H)
    as (X & y & fsc & tsc & model & hist & tl & tm & fl & Hp & Hfit & _ & _ & -> & ->).
  destruct (prepare_stock_data_inv _ _ _ _ _ _ Hp) as (ff & Hff & HN & HX & Hy).
  pose proof (int_mul_08_le (length X)) as Hle.
  set (k := int_mul_08 (length X)) in *.
  assert (Hk : length (firstn k X) = k) by (rewrite length_take; lia).
  assert (Hkz : Z.of_nat k = Qfloor (inject_Z (Z.of_nat (length X)) * (8 # 10))).
  { unfold k, int_mul_08. rewrite Z2Nat.id; [reflexivity|].
    unfold Qfloor, Qmult, inject_Z. simpl Qnum. simpl Qden. apply Z.div_pos; lia. }
  exists ff, X, y, fsc, tsc, model, hist, (Z.of_nat k), (Z.of_nat (length X - k)).
  cbn zeta. rewrite <- HX. repeat split; auto.
  - simpl. apply lookup_insert_eq.
  - simpl. rewrite Hk. reflexivity.
  - simpl. rewrite length_skipn. reflexivity.
  - lia.
  - rewrite Nat2Z.id. rewrite Hk in Hfit.
    replace (Z.of_nat k / 10)%Z with (Z.of_nat (k / 10)); [exact Hfit|].
    apply Nat2Z.inj_div.
  - simpl. rewrite Hfeat. reflexivity.
Qed.

(** ** Bulk training *)

Lemma train_loop_spec (self : ModelTrainer) (epochs batch_size : Z) (w0 : World)
    (items : list (string * DataFrame)) :
  let ok := fun it : string * DataFrame =>
    trained (fst (train_single_stock self (fst it) (snd it) epochs batch_size w0)) in
  forall (successful0 : list Dict) (failed0 : list string) (w : World),
  exists successful failed w',
    train_loop self items epochs batch_size successful0 failed0 w
      = (inr (successful0 ++ successful, failed0 ++ failed), w') /\
    failed = map fst (List.filter (fun it => negb (ok it)) items) /\
    map (dict_get "symbol") successful = map (fun it => Some (VStr (fst it))) (List.filter ok items) /\
    length successful + length failed = length items.
Proof.
  intros ok. induction items as [|[symbol df] items IH]; intros successful0 failed0 w.
  - exists [], [], w. simpl. rewrite !app_nil_r. auto.
  - simpl train_loop. unfold bind.
    destruct (train_single_stock_returns self symbol df epochs batch_size w) as (r & w1 & Hr).
    assert (Hok : ok (symbol, df) = trained (inr r)).
    { unfold ok. simpl fst. simpl snd.
      rewrite (train_single_stock_outcome self symbol df epochs batch_size w0 w), Hr.
      reflexivity. }
    rewrite Hr. cbn [List.filter]. rewrite Hok.
    destruct r as [md|]; cbn [trained negb map fst length].
    + destruct (IH (successful0 ++ [md]) failed0 w1) as (su & fa & w' & Hloop & Hfa & Hsu & Hlen).
      exists (md :: su), fa, w'. rewrite Hloop, <- app_assoc.
      destruct (train_single_stock_inv _ _ _ _ _ _ _ _ Hr)
        as (? & ? & ? & ? & ? & ? & ? & ? & ? & _ & _ & _ & _ & Hmd & _).
      split; [reflexivity|]. split; [exact Hfa|].
      split; [|simpl; lia].
      cbn [map]. rewrite Hsu, Hmd. reflexivity.
    + destruct (IH successful0 (failed0 ++ [symbol]) w1) as (su & fa & w' & Hloop & Hfa & Hsu & Hlen).
      exists su, (symbol :: fa), w'. rewrite Hloop, <- app_assoc.
      split; [reflexivity|]. split; [rewrite Hfa; reflexivity|].
      split; [exact Hsu | simpl; lia].
Qed.

(** C4: [train_all_stocks] returns a summary whatever the symbols do; the
    failed symbols are exactly those whose training gave [None], the other
    symbols have one metadata record each, and the two counts add up to the
    number of symbols. *)
Theorem bulk_partial_failure (self : ModelTrainer) (stock_data : list (string * DataFrame))
    (market_name : string) (epochs batch_size : Z) (w w0 : World) :
  let ok := fun it : string * DataFrame =>
    trained (fst (train_single_stock self (fst it) (snd it) epochs batch_size w0)) in
  exists summary successful failed w',
    train_all_stocks self stock_data market_name epochs batch_size w = (inr summary, w') /\
    dict_get "total_stocks" summary = Some (VInt (Z.of_nat (length stock_data))) /\
    dict_get "successful" summary = Some (VInt (Z.of_nat (length successful))) /\
    dict_get "failed" summary = Some (VInt (Z.of_nat (length failed))) /\
    length successful + length failed = length stock_data /\
    dict_get "failed_symbols" summary = Some (VList (map VStr failed)) /\
    failed = map fst (List.filter (fun it => negb (ok it)) stock_data) /\
    dict_get "models" summary = Some (VList (map VDict successful)) /\
    map (dict_get "symbol") successful
      = map (fun it => Some (VStr (fst it))) (List.filter ok stock_data).
Proof.
  intros ok.
  destruct (train_loop_spec self epochs batch_size w0 stock_data [] [] w)
    as (su & fa & w1 & Hloop & Hfa & Hsu & Hlen).
  simpl in Hloop.
  unfold train_all_stocks, bind. rewrite Hloop.
  unfold datetime_now, write_file, ret. simpl.
  eexists _, su, fa, _. split; [reflexivity|].
  simpl. auto 10.
Qed.

(** ** The model store *)

Lemma list_ascii_of_string_app (a b : string) :
  list_ascii_of_string (a ++ b) = list_ascii_of_string a ++ list_ascii_of_string b.
Proof. induction a as [|c a IH]; simpl; [reflexivity | rewrite IH; reflexivity]. Qed.

Lemma replace_char_In (c c' : ascii) (by_ s : string) :
  In c (list_ascii_of_string (replace_char c' by_ s)) ->
  In c (list_ascii_of_string by_) \/ (c <> c' /\ In c (list_ascii_of_string s)).
Proof. clear_env.
  induction s as [|a s IH]; simpl; [tauto|].
  destruct (Ascii.eqb_spec a c') as [->|Hne].
  - rewrite list_ascii_of_string_app, in_app_iff. tauto.
  - simpl. intros [->|H]; [right; split; [assumption | left; reflexivity] | tauto].
Qed.

(** The key holds neither a dot nor an ampersand. *)
Lemma safe_symbol_clean (symbol : string) :
  ~ In "."%char (list_ascii_of_string (safe_symbol symbol)) /\
  ~ In "&"%char (list_ascii_of_string (safe_symbol symbol)).
Proof. clear_env.
  unfold safe_symbol. split; intros H.
  - apply replace_char_In in H as [H|[_ H]].
    + simpl in H. intuition discriminate.
    + apply replace_char_In in H as [H|[H _]]; [simpl in H; intuition discriminate | congruence].
  - apply replace_char_In in H as [H|[H _]]; [simpl in H; intuition discriminate | congruence].
Qed.

(** The three files of a symbol differ by their extension. *)
Lemma paths_distinct (self : ModelTrainer) (symbol : string) :
  model_path self symbol <> scaler_path self symbol /\
  model_path self symbol <> metadata_path self symbol /\
  scaler_path self symbol <> metadata_path self symbol.
Proof.
  assert (Hm : last (list_ascii_of_string (model_path self symbol)) = Some "s"%char).
  { unfold model_path. rewrite !list_ascii_of_string_app, !last_app. reflexivity. }
  assert (Hs : last (list_ascii_of_string (scaler_path self symbol)) = Some "l"%char).
  { unfold scaler_path. rewrite !list_ascii_of_string_app, !last_app. reflexivity. }
  assert (Hj : last (list_ascii_of_string (metadata_path self symbol)) = Some "n"%char).
  { unfold metadata_path. rewrite !list_ascii_of_string_app, !last_app. reflexivity. }
  repeat split; intros Heq; rewrite Heq in *; congruence.
Qed.

(** What [load_pretrained_model] does, by the files that are there: it
    never raises and never writes. *)
Lemma load_pretrained_model_cases (self : ModelTrainer) (symbol : string) (w : World) :
  exists r, load_pretrained_model self symbol w = (inr r, w) /\
    match fs w !! model_path self symbol,
          fs w !! scaler_path self symbol,
          fs w !! metadata_path self symbol with
    | Some fm, Some fsc, Some fj =>
        match r with
        | Some (model, feature_scaler, target_scaler, metadata) =>
            exists d, fm = FKeras model /\ fsc = FPickle d /\ fj = FJson metadata /\
              dict_get "feature_scaler" d = Some feature_scaler /\
              dict_get "target_scaler" d = Some target_scaler
        | None =>
            ~ exists model d metadata feature_scaler target_scaler,
                fm = FKeras model /\ fsc = FPickle d /\ fj = FJson metadata /\
                dict_get "feature_scaler" d = Some feature_scaler /\
                dict_get "target_scaler" d = Some target_scaler
        end
    | _, _, _ => r = None
    end.
Proof.
  destruct (fs w !! model_path self symbol) as [fm|] eqn:Em;
    destruct (fs w !! scaler_path self symbol) as [fsc|] eqn:Es;
    destruct (fs w !! metadata_path self symbol) as [fj|] eqn:Ej;
    unfold load_pretrained_model, try_except, bind, path_exists, load_model, pickle_load,
      json_load, read_file, bind, lift, ret, dict_item;
    repeat (rewrite ?Em, ?Es, ?Ej; simpl);
    try (eexists; split; reflexivity).
  destruct fm as [model|dm|vm]; repeat (rewrite ?Em, ?Es, ?Ej; simpl);
    try (eexists; split; [reflexivity|];
         intros (? & ? & ? & ? & ? & ? & _); discriminate).
  destruct fsc as [ms|d|vs]; repeat (rewrite ?Em, ?Es, ?Ej; simpl);
    try (eexists; split; [reflexivity|];
         intros (? & ? & ? & ? & ? & _ & ? & _); discriminate).
  destruct fj as [mj|dj|metadata]; repeat (rewrite ?Em, ?Es, ?Ej; simpl);
    try (eexists; split; [reflexivity|];
         intros (? & ? & ? & ? & ? & _ & _ & ? & _); discriminate).
  destruct (dict_get "feature_scaler" d) as [fsc|] eqn:Hf; simpl.
  - destruct (dict_get "target_scaler" d) as [tsc|] eqn:Ht; simpl.
    + eexists. split; [reflexivity|]. exists d. auto.
    + eexists. split; [reflexivity|].
      intros (? & ? & ? & ? & ? & _ & [= <-] & _ & _ & Ht'). congruence.
  - eexists. split; [reflexivity|].
    intros (? & ? & ? & ? & ? & _ & [= <-] & _ & Hf' & _). congruence.
Qed.

(** C8: saving and loading name the three files of a symbol from the same
    key, [safe_symbol symbol], which holds no dot and no ampersand; loading
    never raises and never writes; it gives [None] as soon as one of the
    three files is absent, gives a bundle only when the three are there,
    and gives back what [train_single_stock] saved. *)
Theorem model_store_key_and_miss (self : ModelTrainer) (symbol : string) (w : World) :
  (~ In "."%char (list_ascii_of_string (safe_symbol symbol)) /\
   ~ In "&"%char (list_ascii_of_string (safe_symbol symbol))) /\
  (exists r, load_pretrained_model self symbol w = (inr r, w)) /\
  ((fs w !! model_path self symbol = None \/
    fs w !! scaler_path self symbol = None \/
    fs w !! metadata_path self symbol = None) ->
   load_pretrained_model self symbol w = (inr None, w)) /\
  (forall bundle w',
     load_pretrained_model self symbol w = (inr (Some bundle), w') ->
     is_Some (fs w !! model_path self symbol) /\
     is_Some (fs w !! scaler_path self symbol) /\
     is_Some (fs w !! metadata_path self symbol)) /\
  (forall (df : DataFrame) (epochs batch_size : Z) (w0 : World) (md : Dict),
     train_single_stock self symbol df epochs batch_size w0 = (inr (Some md), w) ->
     exists model X y fsc tsc,
       prepare_stock_data self df = Some (X, y, fsc, tsc) /\
       fs w !! model_path self symbol = Some (FKeras model) /\
       load_pretrained_model self symbol w = (inr (Some (model, fsc, tsc, VDict md)), w)).
Proof.
  destruct (load_pretrained_model_cases self symbol w) as (r & Hr & Hcases).
  split; [apply safe_symbol_clean|].
  split; [eauto|].
  split; [|split].
  - intros Hmiss. rewrite Hr.
    destruct (fs w !! model_path self symbol); [|congruence].
    destruct (fs w !! scaler_path self symbol); [|congruence].
    destruct (fs w !! metadata_path self symbol); [|congruence].
    destruct Hmiss as [?|[?|?]]; discriminate.
  - intros bundle w' Hb. rewrite Hr in Hb. injection Hb as -> <-.
    destruct (fs w !! model_path self symbol); [|discriminate].
    destruct (fs w !! scaler_path self symbol); [|discriminate].
    destruct (fs w !! metadata_path self symbol); [|discriminate].
    eauto.
  - intros df epochs batch_size w0 md Htrain.
    destruct (train_single_stock_inv _ _ _ _ _ _ _ _ Htrain)
      as (X & y & fsc & tsc & model & hist & tl & tm & fl & Hp & _ & _ & _ & _ & Hw).
    destruct (paths_distinct self symbol) as (Hms & Hmj & Hsj).
    assert (Em : fs w !! model_path self symbol = Some (FKeras model)).
    { rewrite Hw. simpl. rewrite !lookup_insert_ne by congruence. apply lookup_insert_eq. }
    assert (Es : fs w !! scaler_path self symbol =
                 Some (FPickle [("feature_scaler", fsc); ("target_scaler", tsc)])).
    { rewrite Hw. simpl. rewrite lookup_insert_ne by congruence. apply lookup_insert_eq. }
    assert (Ej : fs w !! metadata_path self symbol = Some (FJson (VDict md))).
    { rewrite Hw. simpl. apply lookup_insert_eq. }
    exists model, X, y, fsc, tsc. split; [assumption|]. split; [assumption|].
    rewrite Hr. rewrite Em, Es, Ej in Hcases.
    destruct r as [[[[m f] t] v]|].
    + destruct Hcases as (d & [= <-] & [= <-] & [= <-] & Hf & Ht).
      simpl in Hf, Ht. injection Hf as <-. injection Ht as <-. reflexivity.
    + exfalso. apply Hcases. eexists _, _, _, _, _. repeat split; reflexivity.
Qed.

(** ** The prediction entry points *)

Lemma simulations_spec (df : DataFrame) (future_days : Z) (n : nat) :
  forall (all_predictions : list (list float64)) (w : World),
  exists all' w',
    simulations df future_days n all_predictions w = (inr all', w') /\
    fs w' = fs w /\ clock w' = clock w /\
    fit_calls w' = fit_calls w + n * fits_per_simulation df.
Proof.
  induction n as [|n IH]; intros all_predictions w.
  - exists all_predictions, w. simpl. repeat split; auto.
  - simpl simulations. unfold bind at 1, try_except at 1.
    unfold bind, lift, train, model_fit, ret.
    destruct (prepare_data (LSTMPredictor_init 30) df)
      as [e|[p [[[[X_train y_train] X_test] y_test] sf]]] eqn:Hpd; simpl.
    + assert (Hfp : fits_per_simulation df = 0)
        by (unfold fits_per_simulation; rewrite Hpd; reflexivity).
      destruct (IH all_predictions w) as (all' & w' & H & Hfs & Hck & Hfit).
      exists all', w'. rewrite Hfp in *. repeat split; auto; lia.
    + assert (Hfp : fits_per_simulation df = 1)
        by (unfold fits_per_simulation; rewrite Hpd; reflexivity).
      rewrite Hfp in *.
      destruct (keras_fit _ _ _ _ _) as [e|[model hist]]; simpl.
      * match goal with |- context [simulations _ _ _ _ ?w1] =>
          destruct (IH all_predictions w1) as (all' & w' & H & Hfs & Hck & Hfit) end.
        exists all', w'. simpl in *. repeat split; auto; lia.
      * destruct (predict_future _ _ _) as [e|fp]; simpl;
          match goal with |- context [simulations _ _ _ ?a ?w1] =>
            destruct (IH a w1) as (all' & w' & H & Hfs & Hck & Hfit) end;
          exists all', w'; simpl in *; repeat split; auto; lia.
Qed.

Lemma fits_per_simulation_le (df : DataFrame) : fits_per_simulation df <= 1.
Proof. unfold fits_per_simulation. destruct (prepare_data _ df); lia. Qed.

Lemma fits_per_simulation_no_close (df : DataFrame) (e : Exception) :
  Pd.col df "Close" = inl e -> fits_per_simulation df = 0.
Proof.
  intros H. unfold fits_per_simulation, prepare_data. rewrite H. reflexivity.
Qed.

(** [run_lstm_prediction] never raises; its results carry no
    [using_pretrained] entry; it fits once per simulation that got its
    arrays. *)
Lemma run_lstm_prediction_spec (symbol period : string) (num_simulations future_days : Z)
    (w : World) :
  exists r w',
    run_lstm_prediction symbol period num_simulations future_days w = (inr r, w') /\
    is_result r /\
    dict_get "using_pretrained" r = None /\
    fs w' = fs w /\
    fit_calls w <= fit_calls w' <= fit_calls w + Z.to_nat num_simulations /\
    (KERAS_AVAILABLE = true ->
     forall df, download_stock_with_fallback symbol period = Some df ->
       Pd.empty df = false ->
       fit_calls w' = fit_calls w + Z.to_nat num_simulations * fits_per_simulation df) /\
    ((download_stock_with_fallback symbol period = None \/
      exists df, download_stock_with_fallback symbol period = Some df /\ Pd.empty df = true) ->
     exists msg, r = failure msg).
Proof.
  unfold run_lstm_prediction, is_result.
  destruct KERAS_AVAILABLE; simpl.
  2:{ eexists _, w. unfold ret. split; [reflexivity|].
      repeat split; eauto; try lia; discriminate. }
  unfold try_except.
  destruct (download_stock_with_fallback symbol period) as [df|] eqn:Hdl.
  2:{ eexists _, w. unfold ret. split; [reflexivity|].
      repeat split; eauto; try lia; discriminate. }
  destruct (Pd.empty df) eqn:Hempty.
  { eexists _, w. unfold ret. split; [reflexivity|].
    repeat split; eauto; try lia; intros _ df0 [= <-] ?; congruence. }
  assert (Hnofail : (Some df = None \/
            exists df0, Some df = Some df0 /\ Pd.empty df0 = true) -> False).
  { intros [?|(df0 & [= <-] & ?)]; congruence. }
  unfold bind at 1, lift at 1.
  destruct (Pd.col df "Close") as [e|historical_prices] eqn:Hcol; simpl.
  { eexists _, w. unfold ret. split; [reflexivity|].
    repeat split; eauto; try lia;
      first [ intros _ df0 [= <-] _; rewrite (fits_per_simulation_no_close _ _ Hcol); lia
            | intros; exfalso; auto; fail ]. }
  unfold bind at 1.
  destruct (simulations_spec df future_days (Z.to_nat num_simulations) [] w)
    as (all' & w1 & Hsim & Hfs & Hck & Hfit).
  rewrite Hsim.
  pose proof (fits_per_simulation_le df) as Hle.
  assert (Hb : fit_calls w <= fit_calls w1 <= fit_calls w + Z.to_nat num_simulations) by nia.
  assert (Hex : true = true ->
     forall df0, Some df = Some df0 -> Pd.empty df0 = false ->
       fit_calls w1 = fit_calls w + Z.to_nat num_simulations * fits_per_simulation df0).
  { intros _ df0 [= <-] _. assumption. }
  destruct all' as [|a all'].
  { eexists _, w1. unfold ret. split; [reflexivity|].
    repeat split; eauto; try lia; intros; exfalso; auto. }
  unfold bind, lift, ret.
  destruct (Arr.item_last (index df)) as [e|last_date]; simpl.
  { eexists _, w1. split; [reflexivity|].
    repeat split; eauto; try lia; intros; exfalso; auto. }
  destruct (Arr.item_last historical_prices) as [e|current_price]; simpl.
  { eexists _, w1. split; [reflexivity|].
    repeat split; eauto; try lia; intros; exfalso; auto. }
  destruct (Arr.item_last (mean_axis0 (a :: all'))) as [e|predicted_price]; simpl.
  { eexists _, w1. split; [reflexivity|].
    repeat split; eauto; try lia; intros; exfalso; auto. }
  eexists _, w1. split; [reflexivity|].
  repeat split; auto; try lia; intros; exfalso; auto.
Qed.

Lemma forecast_loop_length (model : option Model) (L nf k : nat)
    (seq0 seqk : Matrix) (preds0 predsk : list float64) :
  forecast_loop model L nf k (seq0, preds0) = inr (seqk, predsk) ->
  length predsk = length preds0 + k.
Proof.
  revert seq0 preds0. induction k as [|k IH]; intros seq0 preds0 H.
  - injection H as <- <-. lia.
  - simpl in H. exc_inv H. destruct a as [seq1 preds1].
    apply IH in H. rewrite H.
    unfold forecast_step in Ha. exc_inv Ha. injection Ha as <- <-.
    rewrite length_app. simpl. lia.
Qed.

(** Inverse-transforming a column of values: the scaler has one feature,
    and every value [p] becomes [(p - min) / scale]. *)
Lemma inverse_transform_column (sc : MinMaxScaler) (l : list float64) (pu : Matrix) :
  Sk.inverse_transform sc (Arr.as_column l) = inr pu ->
  exists scale min,
    sc = Fitted [(scale, min)] /\ l <> [] /\
    pu = Arr.as_column (map (fun p => Np.div (Np.sub p min) scale) l).
Proof.
  unfold Sk.inverse_transform. destruct sc as [|params]; [discriminate|].
  intros H. exc_inv H.
  destruct l as [|x l]; [discriminate|].
  unfold Sk.check_array in Ha. simpl in Ha.
  destruct (_ || _); [discriminate|]. injection Ha as <-.
  simpl in H. destruct params as [|[scale min] [|]]; try discriminate.
  injection H as <-. exists scale, min. split; [reflexivity|]. split; [discriminate|].
  unfold Arr.as_column. rewrite !map_map. reflexivity.
Qed.

Lemma date_range_inv (start periods : Z) (dates : list Z) :
  date_range start periods = inr dates ->
  length dates = Z.to_nat periods /\ Forall (fun x => (start <= x)%Z) dates.
Proof.
  unfold date_range. destruct (periods <? 0)%Z; [discriminate|]. intros [= <-].
  rewrite length_map, length_seq. split; [reflexivity|].
  apply Forall_map, Forall_forall. intros i _. simpl. lia.
Qed.

(** What [fast_predict] returns when it does not raise. *)
Lemma fast_predict_result (symbol : string) (future_days : Z) (model : Model)
    (fsc tsc : MinMaxScaler) (md : PyVal) (r : Dict) :
  fast_predict symbol future_days model fsc tsc md = inr r ->
  (exists msg, r = failure msg) \/
  (dict_get "success" r = Some (VBool true) /\
   dict_get "using_pretrained" r = Some (VBool true) /\
   exists window windowd scaled scale min prices dates hist last_date,
     forecast_loop (Some model) 30 (length feature_names) (Z.to_nat future_days)
       (window, []) = inr (windowd, scaled) /\
     length scaled = Z.to_nat future_days /\
     (1 <= future_days)%Z /\
     tsc = Fitted [(scale, min)] /\
     Sk.inverse_transform tsc (Arr.as_column scaled) = inr (Arr.as_column prices) /\
     prices = map (fun p => Np.div (Np.sub p min) scale) scaled /\
     dict_get "predictions" r = Some (VList (map VFloat prices)) /\
     length prices = Z.to_nat future_days /\
     dict_get "future_dates" r = Some (VList (map VDate dates)) /\
     length dates = Z.to_nat future_days /\
     dict_get "historical_dates" r = Some (VList (map VDate hist)) /\
     last hist = Some last_date /\
     Forall (fun x => (last_date < x)%Z) dates).
Proof.
  unfold fast_predict. intros H. exc_inv H.
  destruct (download_stock_with_fallback symbol "6mo") as [raw|];
    [|injection H as <-; eauto].
  destruct (Pd.empty raw); [injection H as <-; eauto|].
  exc_inv H.
  match goal with Hc : calculate_technical_indicators raw = inr ?d |- _ => rename d into df1 end.
  destruct (Pd.len (Pd.dropna df1) <? 30)%nat; [injection H as <-; eauto|].
  exc_inv H. injection H as <-. right.
  split; [reflexivity|]. split; [reflexivity|].
  match goal with
  | Hloop : forecast_loop _ _ _ _ (?win, []) = inr (?wd, ?sc),
    Hinv : Sk.inverse_transform tsc _ = inr ?p,
    Hlast : Arr.item_last (index _) = inr ?ld,
    Hdr : date_range _ _ = inr ?ds |- _ =>
      rename win into window, wd into windowd, sc into scaled, p into pu,
        ld into last_date, ds into dates;
      rename Hloop into Hloop', Hinv into Hinv', Hlast into Hlast', Hdr into Hdr'
  end.
  pose proof (forecast_loop_length _ _ _ _ _ _ _ _ Hloop') as Hlen. simpl in Hlen.
  pose proof Hinv' as Hinv.
  apply inverse_transform_column in Hinv' as (scale & min & -> & Hne & ->).
  apply date_range_inv in Hdr' as [Hdlen Hdates].
  unfold Arr.item_last in Hlast'.
  destruct (last (index (Pd.dropna df1))) as [ld|] eqn:Hlast; [|discriminate].
  injection Hlast' as ->.
  exists window, windowd, scaled, scale, min,
    (map (fun p => Np.div (Np.sub p min) scale) scaled), dates,
    (index (Pd.dropna df1)), last_date.
  assert (Hflat : Arr.flatten
            (Arr.as_column (map (fun p => Np.div (Np.sub p min) scale) scaled))
          = map (fun p => Np.div (Np.sub p min) scale) scaled).
  { unfold Arr.flatten, Arr.as_column. generalize (map (fun p => Np.div (Np.sub p min) scale) scaled).
    intros l. induction l as [|x l IH]; simpl; [reflexivity | rewrite IH; reflexivity]. }
  repeat split; auto.
  - destruct scaled; [congruence | simpl in Hlen; lia].
  - simpl. rewrite Hflat. reflexivity.
  - rewrite length_map. assumption.
  - eapply Forall_impl; [exact Hdates|]. simpl. intros. lia.
Qed.

(** [run_lstm_prediction_pretrained] by what [load_pretrained_model]
    found. *)
Lemma run_lstm_prediction_pretrained_cases (symbol period : string) (future_days : Z)
    (w : World) :
  exists r w', run_lstm_prediction_pretrained symbol period future_days w = (inr r, w') /\
    is_result r /\
    (KERAS_AVAILABLE = false -> w' = w /\ exists msg, r = failure msg) /\
    (KERAS_AVAILABLE = true ->
     forall b,
       load_pretrained_model (ModelTrainer_init "models/pretrained") symbol w = (inr b, w) ->
       match b with
       | Some (model, fsc, tsc, md) =>
           w' = w /\
           match fast_predict symbol future_days model fsc tsc md with
           | inr r' => r = r'
           | inl e => r = failure (str_exc e)
           end
       | None =>
           run_lstm_prediction symbol period 1 future_days w = (inr r, w')
       end).
Proof.
  unfold run_lstm_prediction_pretrained.
  destruct KERAS_AVAILABLE eqn:HK; simpl.
  - unfold try_except, bind.
    destruct (load_pretrained_model_cases (ModelTrainer_init "models/pretrained") symbol w)
      as (b & Hload & _).
    rewrite Hload.
    destruct b as [[[[model fsc] tsc] md]|].
    + unfold lift, ret.
      destruct (fast_predict symbol future_days model fsc tsc md) as [e|r'] eqn:Hfp.
      * eexists _, w. split; [reflexivity|]. split; [left; eauto|].
        split; [discriminate|]. intros _ b Hb. injection Hb as <-.
        rewrite Hfp. auto.
      * eexists _, w. split; [reflexivity|]. split.
        { destruct (fast_predict_result _ _ _ _ _ _ _ Hfp) as [?|[? _]];
            [left | right]; assumption. }
        split; [discriminate|]. intros _ b Hb. injection Hb as <-.
        rewrite Hfp. auto.
    + destruct (run_lstm_prediction_spec symbol period 1 future_days w)
        as (r & w' & Hrun & Hres & _).
      rewrite Hrun. exists r, w'. split; [reflexivity|]. split; [assumption|].
      split; [discriminate|]. intros _ b Hb. injection Hb as <-.
      first [assumption | reflexivity].
  - eexists _, w. unfold ret. split; [reflexivity|]. split; [left; eauto|].
    split; [eauto | discriminate].
Qed.

Lemma fast_predict_no_data (symbol : string) (future_days : Z) (model : Model)
    (fsc tsc : MinMaxScaler) (md : PyVal) :
  (download_stock_with_fallback symbol "6mo" = None \/
   exists df, download_stock_with_fallback symbol "6mo" = Some df /\ Pd.empty df = true) ->
  (exists e, fast_predict symbol future_days model fsc tsc md = inl e) \/
  (exists msg, fast_predict symbol future_days model fsc tsc md = inr (failure msg)).
Proof.
  intros Hdl. unfold fast_predict.
  destruct (py_item md "trained_date"); simpl; [eauto|].
  destruct (py_item md "test_mae") as [|v1]; simpl; [eauto|].
  destruct (format_f v1); simpl; [eauto|].
  destruct (py_item md "test_loss") as [|v2]; simpl; [eauto|].
  destruct (format_f v2); simpl; [eauto|].
  destruct Hdl as [->|(df & -> & ->)]; eauto.
Qed.

Lemma fast_predict_short (symbol : string) (future_days : Z) (model : Model)
    (fsc tsc : MinMaxScaler) (md : PyVal) (raw df1 : DataFrame) :
  download_stock_with_fallback symbol "6mo" = Some raw ->
  calculate_technical_indicators raw = inr df1 ->
  Pd.len (Pd.dropna df1) < 30 ->
  (exists e, fast_predict symbol future_days model fsc tsc md = inl e) \/
  (exists msg, fast_predict symbol future_days model fsc tsc md = inr (failure msg)).
Proof.
  intros Hdl Hcalc Hlt. unfold fast_predict.
  destruct (py_item md "trained_date"); simpl; [eauto|].
  destruct (py_item md "test_mae") as [|v1]; simpl; [eauto|].
  destruct (format_f v1); simpl; [eauto|].
  destruct (py_item md "test_loss") as [|v2]; simpl; [eauto|].
  destruct (format_f v2); simpl; [eauto|].
  rewrite Hdl. destruct (Pd.empty raw); [eauto|].
  rewrite Hcalc. simpl.
  destruct (Nat.ltb_spec (Pd.len (Pd.dropna df1)) 30); [eauto | lia].
Qed.

(** C9: the two prediction entry points never raise; when the market data
    provider gives nothing or an empty frame for the symbol they return a
    failure record ([success = False] and an [error] message), and so does
    the pretrained path when fewer than 30 complete rows are left. *)
Theorem soft_failure (symbol period : string) (num_simulations future_days : Z) (w : World) :
  (exists r w',
     run_lstm_prediction_pretrained symbol period future_days w = (inr r, w')) /\
  (exists r w',
     run_lstm_prediction symbol period num_simulations future_days w = (inr r, w')) /\
  ((forall p,
      download_stock_with_fallback symbol p = None \/
      exists df, download_stock_with_fallback symbol p = Some df /\ Pd.empty df = true) ->
   (exists msg w',
      run_lstm_prediction_pretrained symbol period future_days w = (inr (failure msg), w')) /\
   (exists msg w',
      run_lstm_prediction symbol period num_simulations future_days w
        = (inr (failure msg), w'))) /\
  (forall bundle raw df1,
     load_pretrained_model (ModelTrainer_init "models/pretrained") symbol w
       = (inr (Some bundle), w) ->
     download_stock_with_fallback symbol "6mo" = Some raw ->
     calculate_technical_indicators raw = inr df1 ->
     Pd.len (Pd.dropna df1) < 30 ->
     exists msg w',
       run_lstm_prediction_pretrained symbol period future_days w = (inr (failure msg), w')).
Proof.
  destruct (run_lstm_prediction_pretrained_cases symbol period future_days w)
    as (r & w' & Hrun & Hres & Hoff & Hon).
  destruct (run_lstm_prediction_spec symbol period num_simulations future_days w)
    as (r2 & w2 & Hrun2 & _ & _ & _ & _ & _ & Hfail2).
  split; [eauto|]. split; [eauto|]. split.
  - intros Hdl. split.
    + rewrite Hrun. destruct KERAS_AVAILABLE eqn:HK.
      * destruct (load_pretrained_model_cases (ModelTrainer_init "models/pretrained") symbol w)
          as (b & Hload & _).
        specialize (Hon eq_refl b Hload).
        destruct b as [[[[model fsc] tsc] md]|].
        -- destruct Hon as [-> Hr].
           destruct (fast_predict_no_data symbol future_days model fsc tsc md (Hdl "6mo"))
             as [[e He]|[msg He]]; rewrite He in Hr; subst r; eauto.
        -- destruct (run_lstm_prediction_spec symbol period 1 future_days w)
             as (r1 & w1 & Hrun1 & _ & _ & _ & _ & _ & Hfail1).
           rewrite Hrun1 in Hon. injection Hon as <- <-.
           destruct (Hfail1 (Hdl period)) as [msg ->]. eauto.
      * destruct (Hoff eq_refl) as [-> [msg ->]]. eauto.
    + rewrite Hrun2. destruct (Hfail2 (Hdl period)) as [msg ->]. eauto.
  - intros [[[model fsc] tsc] md] raw df1 Hload Hdl Hcalc Hlt.
    rewrite Hrun. destruct KERAS_AVAILABLE eqn:HK.
    + destruct (Hon eq_refl _ Hload) as [-> Hr].
      destruct (fast_predict_short symbol future_days model fsc tsc md raw df1 Hdl Hcalc Hlt)
        as [[e He]|[msg He]]; rewrite He in Hr; subst r; eauto.
    + destruct (Hoff eq_refl) as [-> [msg ->]]. eauto.
Qed.


(** C7: a successful result of the pretrained path for [future_days = d]
    holds [d] prices, the [d] scaled predictions of the forecast loop put
    through the inverse transform of the target scaler of the artifact,
    and [d] dates, all after the last historical date. *)
Theorem prediction_output_contract (symbol period : string) (future_days : Z)
    (w w' : World) (r : Dict) (model : Model) (fsc tsc : MinMaxScaler) (md : PyVal) :
  load_pretrained_model (ModelTrainer_init "models/pretrained") symbol w
    = (inr (Some (model, fsc, tsc, md)), w) ->
  run_lstm_prediction_pretrained symbol period future_days w = (inr r, w') ->
  dict_get "success" r = Some (VBool true) ->
  exists window windowd scaled scale min prices dates hist last_date,
    forecast_loop (Some model) 30 (length feature_names) (Z.to_nat future_days)
      (window, []) = inr (windowd, scaled) /\
    length scaled = Z.to_nat future_days /\
    (1 <= future_days)%Z /\
    tsc = Fitted [(scale, min)] /\
    Sk.inverse_transform tsc (Arr.as_column scaled) = inr (Arr.as_column prices) /\
    prices = map (fun p => Np.div (Np.sub p min) scale) scaled /\
    dict_get "predictions" r = Some (VList (map VFloat prices)) /\
    length prices = Z.to_nat future_days /\
    dict_get "future_dates" r = Some (VList (map VDate dates)) /\
    length dates = Z.to_nat future_days /\
    dict_get "historical_dates" r = Some (VList (map VDate hist)) /\
    last hist = Some last_date /\
    Forall (fun x => (last_date < x)%Z) dates.
Proof.
  intros Hload Hrun Hs.
  destruct (run_lstm_prediction_pretrained_cases symbol period future_days w)
    as (r0 & w0 & Hrun0 & _ & Hoff & Hon).
  rewrite Hrun in Hrun0. injection Hrun0 as <- <-.
  destruct KERAS_AVAILABLE eqn:HK.
  - destruct (Hon eq_refl _ Hload) as [_ Hr].
    destruct (fast_predict symbol future_days model fsc tsc md) as [e|r'] eqn:Hfast.
    + subst r. discriminate.
    + subst r'.
      destruct (fast_predict_result _ _ _ _ _ _ _ Hfast) as [[msg ->]|(_ & _ & H)];
        [discriminate | exact H].
  - destruct (Hoff eq_refl) as [_ [msg ->]]. discriminate.
Qed.

(** ** More on the feature engineer *)

Lemma dict_get_In {V} (k : string) (v : V) (d : list (string * V)) :
  dict_get k d = Some v -> In (k, v) d.
Proof. clear_env.
  induction d as [|[k' v'] d IH]; simpl; [discriminate|].
  destruct (String.eqb_spec k k') as [->|]; [intros [= ->]; auto | auto].
Qed.

Lemma dict_get_map_values {V W} (f : V -> W) (k : string) (d : list (string * V)) :
  dict_get k (map (fun cs => (fst cs, f (snd cs))) d) = f <$> dict_get k d.
Proof. clear_env.
  induction d as [|[k' v'] d IH]; simpl; [reflexivity|].
  destruct (String.eqb k k'); [reflexivity | exact IH].
Qed.

Lemma replace_inf_nan_no_inf (s : Series) :
  Forall (fun x => Np.isinf x = false) (Pd.replace_inf NaN s).
Proof. clear_env.
  unfold Pd.replace_inf. apply Forall_map, Forall_forall. intros x _. simpl.
  destruct x; reflexivity.
Qed.

(** The rows [dropna] keeps hold no NaN; when the frame had no infinity
    either, every value left is finite. *)
Lemma dropna_finite (df : DataFrame) :
  (forall c s, In (c, s) (columns df) -> Forall (fun x => Np.isinf x = false) s) ->
  forall c s, In (c, s) (columns (Pd.dropna df)) -> Forall (fun x => Np.isfinite x = true) s.
Proof. clear_env.
  intros Hinf c s Hin. unfold Pd.dropna, Pd.take in Hin. simpl in Hin.
  apply in_map_iff in Hin as ([c0 s0] & [= <- <-] & Hin0). simpl.
  apply Forall_map, Forall_forall. intros i Hi.
  apply list_elem_of_In, filter_In in Hi as [_ Hrow]. simpl.
  apply negb_true_iff in Hrow.
  assert (Hnan : Np.isnan (Pd.at_ s0 i) = false).
  { unfold Pd.row_has_nan in Hrow.
    destruct (Np.isnan (Pd.at_ s0 i)) eqn:E; [|reflexivity].
    exfalso. apply Bool.not_true_iff_false in Hrow. apply Hrow.
    apply existsb_exists. exists (c0, s0). auto. }
  specialize (Hinf _ _ Hin0). unfold Pd.at_ in *.
  destruct (nth_lookup_or_length s0 i NaN) as [Hl|Hge].
  - rewrite Forall_lookup in Hinf. specialize (Hinf _ _ Hl).
    destruct (nth i s0 NaN); simpl in *; congruence.
  - rewrite nth_overflow in Hnan by lia. discriminate.
Qed.

Lemma take_nil_columns (df : DataFrame) (rows : list nat) (c : string) (s : Series) :
  Pd.len (Pd.take df rows) = 0 -> In (c, s) (columns (Pd.take df rows)) -> s = [].
Proof. clear_env.
  unfold Pd.len, Pd.take. simpl. rewrite length_map. intros Hlen Hin.
  destruct rows; [|discriminate].
  apply in_map_iff in Hin as (cs & [= _ <-] & _). reflexivity.
Qed.

(** The shape of what [calculate_technical_indicators] returns for a
    frame with a close column: an empty frame, or a frame whose columns
    went through the final cleanup and whose RSI column is [RSI] of its
    close column. *)
Lemma calculate_technical_indicators_inv (df out : DataFrame) :
  Pd.has_column df "Close" = true ->
  calculate_technical_indicators df = inr out ->
  (Pd.len out = 0 /\ forall c s, In (c, s) (columns out) -> s = []) \/
  (exists cols close,
     columns out = map (fun cs => (fst cs, Pd.replace_inf NaN (snd cs))) cols /\
     dict_get "RSI" cols = Some (RSI close) /\
     dict_get "MA20" cols = Some (Pd.rolling_mean 20 close) /\
     length close = Pd.len out /\ Pd.len out <= Pd.len df).
Proof. clear_env.
  intros Hc H. unfold calculate_technical_indicators in H. rewrite Hc in H.
  cbn [negb] in H. exc_inv H.
  set (df0 := Pd.dropna_subset _ _) in H.
  assert (Hwf0 : Pd.well_formed df0 = true) by apply take_well_formed.
  assert (Hle : Pd.len df0 <= Pd.len df).
  { unfold df0, Pd.dropna_subset, Pd.take, Pd.len. simpl. rewrite length_map.
    etransitivity; [apply filter_length_le|]. rewrite length_seq. lia. }
  destruct (Nat.eqb_spec (Pd.len df0) 0) as [Hz|Hnz].
  - injection H as <-. left. split; [exact Hz|]. intros c s Hin.
    eapply take_nil_columns; eassumption.
  - exc_inv H. right.
    assert (Hclose : length a0 = Pd.len df0).
    { unfold Pd.col, dict_item in Ha0.
      destruct (dict_get "Close" (columns df0)) eqn:E; [|discriminate].
      injection Ha0 as <-. eapply wf_col_length; eassumption. }
    destruct (Pd.has_column _ "Volume") eqn:Hvol.
    + exc_inv Ha3. injection Ha3 as <-. injection H as <-.
      eexists _, a0. split; [reflexivity|]. simpl.
      rewrite dict_get_set_eq. split; [reflexivity|].
      rewrite !dict_get_set_ne by discriminate.
      rewrite dict_get_set_eq. auto.
    + injection Ha3 as <-. injection H as <-.
      eexists _, a0. split; [reflexivity|]. simpl.
      rewrite dict_get_set_eq. split; [reflexivity|].
      rewrite !dict_get_set_ne by discriminate.
      rewrite dict_get_set_eq. auto.
Qed.

(** X1: the feature frame is complete: once the indicators are computed and
    the rows with a NaN dropped, every value of every column is finite. *)
Theorem indicator_frame_finite (df out : DataFrame) (c : string) (s : Series) :
  Pd.has_column df "Close" = true ->
  calculate_technical_indicators df = inr out ->
  dict_get c (columns (Pd.dropna out)) = Some s ->
  Forall (fun x => Np.isfinite x = true) s.
Proof. clear_env.
  intros Hc Hcalc Hs. apply dict_get_In in Hs.
  eapply dropna_finite; [|exact Hs].
  intros c' s' Hin.
  destruct (calculate_technical_indicators_inv _ _ Hc Hcalc)
    as [[_ Hnil]|(cols & close & Hcols & _)].
  - rewrite (Hnil _ _ Hin). constructor.
  - rewrite Hcols in Hin. apply in_map_iff in Hin as (cs & [= _ <-] & _). apply replace_inf_nan_no_inf.
Qed.

(** X2: every RSI value that [calculate_technical_indicators] writes is a
    finite number between 0 and 100. *)
Theorem RSI_column_bounds (df out : DataFrame) (rsi : Series) :
  Pd.has_column df "Close" = true ->
  calculate_technical_indicators df = inr out ->
  dict_get "RSI" (columns out) = Some rsi ->
  Forall in_0_100 rsi.
Proof. clear_env.
  intros Hc Hcalc Hrsi.
  destruct (calculate_technical_indicators_inv _ _ Hc Hcalc)
    as [[_ Hnil]|(cols & close & Hcols & Hget & _)].
  - rewrite (Hnil _ _ (dict_get_In _ _ _ Hrsi)). constructor.
  - rewrite Hcols, dict_get_map_values, Hget in Hrsi. injection Hrsi as <-.
    pose proof (RSI_bounds close) as Hb.
    unfold Pd.replace_inf. apply Forall_map. eapply Forall_impl; [exact Hb|].
    intros x (q & -> & Hq). simpl. exists q. auto.
Qed.

(** ** The cleaning of the feature matrix *)

Lemma ffill_from_length (prev : float64) (s : Series) :
  length (Pd.ffill_from prev s) = length s.
Proof. clear_env.
  revert prev. induction s as [|x s IH]; intros prev; simpl; [reflexivity|].
  rewrite IH. reflexivity.
Qed.

Lemma ffill_from_Forall (P : float64 -> Prop) (prev : float64) (s : Series) :
  P prev -> Forall P s -> Forall P (Pd.ffill_from prev s).
Proof. clear_env.
  intros Hp Hs. revert prev Hp. induction Hs as [|x s Hx _ IH]; intros prev Hp; simpl.
  - constructor.
  - destruct (Np.isnan x); constructor; auto.
Qed.

Lemma ffill_from_lookup (prev : float64) (s : Series) (i : nat) (x : float64) :
  s !! i = Some x -> Np.isnan x = false -> Pd.ffill_from prev s !! i = Some x.
Proof. clear_env.
  revert prev i. induction s as [|y s IH]; intros prev i Hi Hx; [discriminate|].
  destruct i as [|i]; simpl in *.
  - injection Hi as ->. rewrite Hx. reflexivity.
  - apply IH; assumption.
Qed.

Lemma rev_lookup {A} (l : list A) (i : nat) (x : A) :
  l !! i = Some x -> rev l !! (length l - S i) = Some x.
Proof. clear_env.
  intros Hi. pose proof (lookup_lt_Some _ _ _ Hi) as Hlt.
  rewrite rev_alt. change (rev_append l []) with (reverse l).
  rewrite reverse_lookup by lia.
  replace (length l - S (length l - S i)) with i by lia. exact Hi.
Qed.

(** The three fills of line 91: [ffill().bfill().fillna(0)]. *)
Lemma fill3_length (c : Series) : length (Pd.fillna (Fin 0) (Pd.bfill (Pd.ffill c))) = length c.
Proof. clear_env.
  unfold Pd.fillna, Pd.bfill, Pd.ffill.
  rewrite length_map, length_rev, ffill_from_length, length_rev, ffill_from_length.
  reflexivity.
Qed.

Lemma fill3_finite (c : Series) :
  Forall (fun x => Np.isinf x = false) c ->
  Forall (fun x => Np.isfinite x = true) (Pd.fillna (Fin 0) (Pd.bfill (Pd.ffill c))).
Proof. clear_env.
  intros Hc. unfold Pd.fillna. apply Forall_map.
  assert (H : Forall (fun x => Np.isinf x = false) (Pd.bfill (Pd.ffill c))).
  { unfold Pd.bfill, Pd.ffill. apply Forall_rev, ffill_from_Forall; [reflexivity|].
    apply Forall_rev, ffill_from_Forall; [reflexivity | assumption]. }
  eapply Forall_impl; [exact H|]. intros x Hx. simpl.
  destruct x; simpl in *; congruence.
Qed.

Lemma fill3_lookup (c : Series) (i : nat) (x : float64) :
  c !! i = Some x -> Np.isfinite x = true -> (Pd.fillna (Fin 0) (Pd.bfill (Pd.ffill c))) !! i = Some x.
Proof. clear_env.
  intros Hi Hx.
  assert (Hnan : Np.isnan x = false) by (destruct x; simpl in *; congruence).
  pose proof (lookup_lt_Some _ _ _ Hi) as Hlt.
  unfold Pd.fillna. rewrite lookup_map.
  assert (H : Pd.bfill (Pd.ffill c) !! i = Some x).
  { unfold Pd.bfill, Pd.ffill.
    pose proof (ffill_from_lookup NaN c i x Hi Hnan) as H1.
    apply rev_lookup in H1. rewrite ffill_from_length in H1.
    apply (ffill_from_lookup NaN) in H1; [|assumption].
    apply rev_lookup in H1.
    rewrite ffill_from_length, length_rev, ffill_from_length in H1.
    replace (length c - S (length c - S i)) with i in H1 by lia. exact H1. }
  rewrite H. simpl. rewrite Hnan. reflexivity.
Qed.

(** What the cleaning does to a matrix of [n] columns. *)
Lemma clean_feature_data_spec (n : nat) (fd : Matrix) :
  Forall (fun r => length r = n) fd ->
  exists fd',
    clean_feature_data n fd = Some fd' /\
    Arr.all_finite fd' = true /\
    length fd' = length fd /\
    Forall (fun r => length r = n) fd' /\
    forall i j x, Arr.item2 fd i j = inr x -> Np.isfinite x = true ->
      Arr.item2 fd' i j = inr x.
Proof. clear_env.
  intros Hw. unfold clean_feature_data.
  destruct (Arr.all_finite fd) eqn:Hfin.
  { exists fd. repeat split; auto. }
  cbv zeta.
  set (fd0 := map (map (fun x => if Np.isfinite x then x else NaN)) fd).
  set (cols := map (fun c => Pd.fillna (Fin 0) (Pd.bfill (Pd.ffill c)))
                   (map (Arr.column fd0) (seq 0 n))).
  assert (Hcols : Forall (fun c => length c = length fd /\
                                   Forall (fun x => Np.isfinite x = true) c) cols).
  { unfold cols. rewrite map_map. apply Forall_map, Forall_forall. intros j _. simpl.
    split.
    - rewrite fill3_length. unfold Arr.column, fd0.
      rewrite !length_map. reflexivity.
    - apply (fill3_finite (Arr.column fd0 j)).
      unfold Arr.column, fd0. rewrite map_map. apply Forall_map, Forall_forall.
      intros r _. simpl.
      destruct (nth_lookup_or_length (map (fun x => if Np.isfinite x then x else NaN) r) j NaN)
        as [Hl|Hge].
      + rewrite lookup_map in Hl. destruct (r !! j) as [x|] eqn:E; [|discriminate].
        simpl in Hl. injection Hl as Hl. rewrite <- Hl.
        destruct x; reflexivity.
      + rewrite nth_overflow by lia. reflexivity. }
  assert (Hlen0 : length fd0 = length fd) by (unfold fd0; apply length_map).
  set (fd' := map (fun i => map (fun c => Pd.at_ c i) cols) (seq 0 (length fd0))).
  assert (Hfin' : Arr.all_finite fd' = true).
  { unfold Arr.all_finite, fd'. apply forallb_forall. intros r Hr.
    apply in_map_iff in Hr as (i & <- & Hi). apply in_seq in Hi.
    apply forallb_forall. intros x Hx.
    apply in_map_iff in Hx as (c & <- & Hc).
    rewrite Forall_forall in Hcols.
    destruct (Hcols c (proj2 (list_elem_of_In _ _) Hc)) as [Hlen Hf].
    unfold Pd.at_. destruct (nth_lookup_or_length c i NaN) as [Hl|Hge]; [|lia].
    rewrite Forall_lookup in Hf. exact (Hf _ _ Hl). }
  rewrite Hfin'. exists fd'. split; [reflexivity|]. split; [assumption|].
  split; [unfold fd'; rewrite length_map, length_seq; exact Hlen0|].
  split.
  { unfold fd'. apply Forall_map, Forall_forall. intros i _. simpl.
    unfold cols. rewrite !length_map, length_seq. reflexivity. }
  intros i j x Hx Hxfin. unfold Arr.item2 in *.
  destruct (fd !! i) as [r|] eqn:Hr; [|discriminate].
  destruct (r !! j) as [x0|] eqn:Hj; [|discriminate]. injection Hx as ->.
  pose proof (lookup_lt_Some _ _ _ Hr) as Hi.
  pose proof (lookup_lt_Some _ _ _ Hj) as Hjn.
  rewrite Forall_lookup in Hw. rewrite (Hw _ _ Hr) in Hjn.
  unfold fd'. rewrite lookup_map, lookup_seq_lt by lia. simpl.
  unfold cols. rewrite !lookup_map, lookup_seq_lt by assumption. simpl.
  assert (Hc : Arr.column fd0 j !! i = Some x).
  { unfold Arr.column, fd0. rewrite !lookup_map, Hr. simpl. f_equal.
    apply nth_lookup_Some. rewrite lookup_map, Hj. simpl. rewrite Hxfin. reflexivity. }
  pose proof (fill3_lookup _ _ _ Hc Hxfin) as Hf.
  unfold Pd.at_. rewrite (nth_lookup_Some _ _ NaN _ Hf). reflexivity.
Qed.

(** X3: the cleaning never gives up: on a matrix of [n] columns it returns a
    matrix of the same shape whose values are all finite, and in which
    every value that was finite is where it was. *)
Theorem clean_feature_data_total (n : nat) (fd : Matrix) :
  Forall (fun r => length r = n) fd ->
  exists fd',
    clean_feature_data n fd = Some fd' /\
    Arr.all_finite fd' = true /\
    length fd' = length fd /\
    Forall (fun r => length r = n) fd' /\
    forall i j x, Arr.item2 fd i j = inr x -> Np.isfinite x = true ->
      Arr.item2 fd' i j = inr x.
Proof. clear_env. exact (clean_feature_data_spec n fd). Qed.

(** ** The shape of the training samples *)

Lemma check_array_inv (X X' : Matrix) :
  Sk.check_array X = inr X' -> X' = X /\ X <> [] /\ Sk.n_features X <> 0.
Proof. clear_env.
  unfold Sk.check_array. destruct X as [|r X]; [discriminate|].
  destruct (Nat.eqb_spec (Sk.n_features (r :: X)) 0); [discriminate|].
  destruct (existsb _ _); [discriminate|]. intros [= <-]. auto.
Qed.

Lemma fit_inv (X : Matrix) (sc : MinMaxScaler) :
  Sk.fit X = inr sc ->
  exists params, sc = Fitted params /\ length params = Sk.n_features X /\ X <> [].
Proof. clear_env.
  unfold Sk.fit. intros H. exc_inv H.
  apply check_array_inv in Ha as (-> & Hne & _). injection H as <-.
  eexists. split; [reflexivity|]. rewrite !length_map, length_seq. auto.
Qed.

Lemma transform_width (params : list (float64 * float64)) (X Y : Matrix) (n : nat) :
  Sk.transform (Fitted params) X = inr Y ->
  Forall (fun r => length r = n) X ->
  length params = n /\ length Y = length X /\ Forall (fun r => length r = n) Y.
Proof. clear_env.
  unfold Sk.transform. intros H Hw. exc_inv H.
  apply check_array_inv in Ha as (-> & Hne & _).
  destruct (Nat.eqb_spec (Sk.n_features X) (length params)) as [Hn|]; [|discriminate].
  injection H as <-.
  assert (Hp : length params = n).
  { destruct X as [|r X]; [congruence|]. simpl in Hn. inversion Hw; subst. congruence. }
  split; [assumption|]. split; [apply length_map|].
  apply Forall_map. eapply Forall_impl; [exact Hw|]. intros r Hr. cbn beta.
  rewrite length_zip_with, Hr, Hp. apply Nat.min_id.
Qed.

Lemma fit_transform_shape (X Y : Matrix) (sc : MinMaxScaler) (n : nat) :
  Sk.fit_transform X = inr (sc, Y) ->
  Forall (fun r => length r = n) X ->
  exists params, sc = Fitted params /\ length params = n /\
    length Y = length X /\ Forall (fun r => length r = n) Y.
Proof. clear_env.
  unfold Sk.fit_transform. intros H Hw. exc_inv H. injection H as <- <-.
  apply fit_inv in Ha as (params & -> & _ & _).
  destruct (transform_width _ _ _ _ Ha0 Hw) as (Hp & Hl & HY).
  exists params. auto.
Qed.

Lemma slice_length {A} (lo hi : nat) (a : list A) :
  lo <= hi -> hi <= length a -> length (Arr.slice lo hi a) = hi - lo.
Proof. clear_env.
  intros H1 H2. unfold Arr.slice. rewrite length_firstn, length_skipn. lia.
Qed.

Lemma slice_Forall {A} (P : A -> Prop) (lo hi : nat) (a : list A) :
  Forall P a -> Forall P (Arr.slice lo hi a).
Proof. clear_env.
  intros H. unfold Arr.slice. apply Forall_take, Forall_drop, H.
Qed.

(** X4: what [prepare_stock_data] returns has the shape the network and the
    predictor expect: every sample is a window of [lookback] rows of one
    value per feature, there is one label per sample, the feature scaler
    is fitted on as many columns as there are features and the target
    scaler on one. *)
Theorem prepare_stock_data_shape (self : ModelTrainer) (df : DataFrame)
    (X : list Matrix) (y : list float64) (fsc tsc : MinMaxScaler) :
  prepare_stock_data self df = Some (X, y, fsc, tsc) ->
  Forall (fun win => length win = lookback self /\
                     Forall (fun r => length r = length (features self)) win) X /\
  length y = length X /\
  (exists pf, fsc = Fitted pf /\ length pf = length (features self)) /\
  (exists scale min, tsc = Fitted [(scale, min)]).
Proof. clear_env.
  unfold prepare_stock_data. destruct (prepare_stock_data_body self df) as [e|r] eqn:H;
    [discriminate|].
  intros ->. unfold prepare_stock_data_body in H.
  destruct (negb _); [discriminate|]. exc_inv H. rename a into ff.
  destruct (Nat.ltb_spec (Pd.len ff) (lookback self + 50)); [discriminate|].
  exc_inv H. rename a into fd.
  destruct (clean_feature_data _ fd) as [fd'|] eqn:Hclean; [|discriminate].
  exc_inv H. injection H as <- <- <- <-.
  rename l1 into X, l2 into y, m into fsc, l into sf, a into close, m0 into tsc, l0 into sp.
  apply values_inv in Ha0 as (ss & _ & _ & Hlen & Hw).
  destruct (clean_feature_data_spec _ _ Hw) as (fd2 & Hclean2 & _ & _ & Hw' & _).
  rewrite Hclean in Hclean2. injection Hclean2 as <-.
  destruct (fit_transform_shape _ _ _ _ Ha1 Hw') as (pf & -> & Hpf & Hsf & Hwsf).
  assert (Hwc : Forall (fun r => length r = 1) (Arr.as_column close)).
  { unfold Arr.as_column. apply Forall_map, Forall_forall. reflexivity. }
  destruct (fit_transform_shape _ _ _ _ Ha3 Hwc) as (pt & -> & Hpt & _).
  apply create_sequences_inv in Ha4 as (-> & ps & -> & Hps).
  apply Forall2_length in Hps. simpl.
  split.
  { apply Forall_map, Forall_forall. intros i Hi. unfold range in Hi.
    apply elem_of_seq in Hi. simpl. split.
    - rewrite slice_length; lia.
    - apply slice_Forall, Hwsf. }
  split; [rewrite length_map; lia|].
  split; [eauto|].
  destruct pt as [|[scale min] [|]]; try discriminate. eauto.
Qed.

(** ** What a training run leaves in the model store *)

(** The effect of [train_single_stock] on the world. *)
Lemma train_single_stock_cases (self : ModelTrainer) (symbol : string) (df : DataFrame)
    (epochs batch_size : Z) (w : World) :
  exists r w',
    train_single_stock self symbol df epochs batch_size w = (inr r, w') /\
    (forall p, p <> model_path self symbol -> p <> scaler_path self symbol ->
               p <> metadata_path self symbol -> fs w' !! p = fs w !! p) /\
    fit_calls w <= fit_calls w' <= S (fit_calls w) /\
    (r = None ->
     fs w' !! metadata_path self symbol = fs w !! metadata_path self symbol) /\
    (prepare_stock_data self df = None -> r = None /\ w' = w).
Proof.
  pose proof (paths_distinct self symbol) as (Hms & Hmj & Hsj).
  unfold train_single_stock, try_except.
  destruct (prepare_stock_data self df) as [[[[X y] fsc] tsc]|].
  2:{ exists None, w. unfold ret. repeat split; auto. }
  unfold bind, model_fit, lift, write_file, datetime_now, ret. simpl.
  destruct (keras_fit _ _ _ _ _) as [e|[model hist]].
  { eexists _, _. split; [reflexivity|]. simpl. repeat split; auto; discriminate. }
  destruct (keras_evaluate _ _ _) as [e|[tl tm]].
  { eexists _, _. split; [reflexivity|]. simpl. repeat split; auto; discriminate. }
  simpl. destruct (Arr.item_last hist) as [e|fl]; simpl.
  - eexists _, _. split; [reflexivity|]. simpl. repeat split; auto; try discriminate.
    + intros p H1 H2 H3. rewrite !lookup_insert_ne by congruence. reflexivity.
    + intros _. rewrite !lookup_insert_ne by congruence. reflexivity.
  - eexists _, _. split; [reflexivity|]. simpl. repeat split; auto; try discriminate.
    intros p H1 H2 H3. rewrite !lookup_insert_ne by congruence. reflexivity.
Qed.

(** X5: [train_single_stock] never raises; it fits at most once; of all the
    files it can only change the three of its symbol; when it returns
    [None] the metadata file of the symbol is as it was; and when the
    frame gives no training arrays nothing is fitted and nothing written. *)
Theorem train_single_stock_effect (self : ModelTrainer) (symbol : string) (df : DataFrame)
    (epochs batch_size : Z) (w : World) :
  exists r w',
    train_single_stock self symbol df epochs batch_size w = (inr r, w') /\
    (forall p, p <> model_path self symbol -> p <> scaler_path self symbol ->
               p <> metadata_path self symbol -> fs w' !! p = fs w !! p) /\
    fit_calls w <= fit_calls w' <= S (fit_calls w) /\
    (r = None ->
     fs w' !! metadata_path self symbol = fs w !! metadata_path self symbol) /\
    (prepare_stock_data self df = None -> r = None /\ w' = w).
Proof. exact (train_single_stock_cases self symbol df epochs batch_size w). Qed.

(** X6: a failed training leaves nothing to load: when the symbol had no
    metadata file and [train_single_stock] returns [None],
    [load_pretrained_model] still finds no artifact. *)
Theorem failed_training_leaves_no_artifact (self : ModelTrainer) (symbol : string)
    (df : DataFrame) (epochs batch_size : Z) (w w' : World) :
  fs w !! metadata_path self symbol = None ->
  train_single_stock self symbol df epochs batch_size w = (inr None, w') ->
  load_pretrained_model self symbol w' = (inr None, w').
Proof.
  intros Hnone Htrain.
  destruct (train_single_stock_cases self symbol df epochs batch_size w)
    as (r & w1 & Hrun & _ & _ & Hmeta & _).
  rewrite Htrain in Hrun. injection Hrun as <- <-.
  specialize (Hmeta eq_refl). rewrite Hnone in Hmeta.
  destruct (load_pretrained_model_cases self symbol w') as (r & Hload & Hcase).
  rewrite Hmeta in Hcase.
  destruct (fs w' !! model_path self symbol), (fs w' !! scaler_path self symbol);
    rewrite Hcase in Hload; exact Hload.
Qed.

(** A frame that already has its indicator columns and fewer than
    [lookback + 50] rows is never trained on: [train_single_stock] returns
    [None] without fitting and without writing. *)
Lemma short_frame_not_trained (self : ModelTrainer) (symbol : string) (df : DataFrame)
    (epochs batch_size : Z) (w : World) :
  Pd.has_column df "MA5" = true ->
  Pd.len df < lookback self + 50 ->
  train_single_stock self symbol df epochs batch_size w = (inr None, w).
Proof.
  intros Hma Hlt.
  assert (Hprep : prepare_stock_data self df = None).
  { unfold prepare_stock_data, prepare_stock_data_body.
    destruct (negb (Pd.has_column df "Close")); [reflexivity|].
    unfold indicator_frame. rewrite Hma. simpl.
    destruct (Nat.ltb_spec (Pd.len df) (lookback self + 50)); [reflexivity | lia]. }
  unfold train_single_stock, try_except. rewrite Hprep. reflexivity.
Qed.

(** ** The artifact key *)

Lemma string_app_assoc' (a b c : string) : ((a ++ b) ++ c = a ++ (b ++ c))%string.
Proof. clear_env.
  induction a as [|x a IH]; [reflexivity|].
  change (String x ((a ++ b) ++ c) = String x (a ++ (b ++ c)))%string.
  rewrite IH. reflexivity.
Qed.

Lemma replace_char_app (c : ascii) (by_ s1 s2 : string) :
  replace_char c by_ (s1 ++ s2) = (replace_char c by_ s1 ++ replace_char c by_ s2)%string.
Proof. clear_env.
  induction s1 as [|a s1 IH]; simpl; [reflexivity|].
  destruct (Ascii.eqb a c); rewrite IH; [symmetry; apply string_app_assoc' | reflexivity].
Qed.

Lemma replace_char_absent (c : ascii) (by_ s : string) :
  ~ In c (list_ascii_of_string s) -> replace_char c by_ s = s.
Proof. clear_env.
  induction s as [|a s IH]; simpl; [reflexivity|]. intros Hn.
  destruct (Ascii.eqb_spec a c) as [->|_]; [tauto|].
  rewrite IH; [reflexivity | tauto].
Qed.

(** X7: a symbol with neither a dot nor an ampersand is its own key, and the
    key of a key is the key itself. *)
Theorem safe_symbol_idempotent (symbol : string) :
  (~ In "."%char (list_ascii_of_string symbol) ->
   ~ In "&"%char (list_ascii_of_string symbol) ->
   safe_symbol symbol = symbol) /\
  safe_symbol (safe_symbol symbol) = safe_symbol symbol.
Proof. clear_env.
  assert (Hfix : forall s, ~ In "."%char (list_ascii_of_string s) ->
                           ~ In "&"%char (list_ascii_of_string s) -> safe_symbol s = s).
  { intros s Hd Ha. unfold safe_symbol.
    rewrite (replace_char_absent "." "_" s Hd). apply replace_char_absent, Ha. }
  split; [apply Hfix|].
  destruct (safe_symbol_clean symbol) as [Hd Ha]. apply Hfix; assumption.
Qed.

(** X8: keys collide: a symbol with a dot and the symbol with an underscore in
    its place, or one with an ampersand and one with [AND] in its place,
    name the same three files, so that each loads the artifact of the
    other. *)
Theorem artifact_key_collision (self : ModelTrainer) (a b : string) (w : World) :
  (safe_symbol (a ++ "." ++ b) = safe_symbol (a ++ "_" ++ b) /\
   load_pretrained_model self (a ++ "." ++ b) w
     = load_pretrained_model self (a ++ "_" ++ b) w) /\
  (safe_symbol (a ++ "&" ++ b) = safe_symbol (a ++ "AND" ++ b) /\
   load_pretrained_model self (a ++ "&" ++ b) w
     = load_pretrained_model self (a ++ "AND" ++ b) w).
Proof.
  assert (H1 : safe_symbol (a ++ "." ++ b) = safe_symbol (a ++ "_" ++ b)).
  { unfold safe_symbol. rewrite !replace_char_app. reflexivity. }
  assert (H2 : safe_symbol (a ++ "&" ++ b) = safe_symbol (a ++ "AND" ++ b)).
  { unfold safe_symbol. rewrite !replace_char_app. reflexivity. }
  split; (split; [assumption|]);
    unfold load_pretrained_model, model_path, scaler_path, metadata_path;
    rewrite ?H1, ?H2; reflexivity.
Qed.

(** ** LSTMPredictor.predict *)

(** The scalers that [prepare_data] leaves in the predictor: the feature
    scaler is fitted on the nine feature columns, the target scaler on
    one. *)
Lemma prepare_data_scalers (self self' : LSTMPredictor) (data : DataFrame)
    (arrays : list Matrix * list float64 * list Matrix * list float64 * Matrix) :
  prepare_data self data = inr (self', arrays) ->
  p_lookback self' = p_lookback self /\ p_model self' = p_model self /\
  (exists pf, p_scaler self' = Fitted pf /\ length pf = length feature_names) /\
  (exists scale min, p_target_scaler self' = Fitted [(scale, min)]).
Proof. clear_env.
  unfold prepare_data. intros H. exc_inv H.
  destruct (Nat.ltb_spec (Pd.len (Pd.dropna a3)) (p_lookback self + 50)); [discriminate|].
  exc_inv H. injection H as <- <-. simpl.
  split; [reflexivity|]. split; [reflexivity|].
  match goal with Hv : Pd.values _ _ = inr ?fd |- _ =>
    apply values_inv in Hv as (ss & _ & _ & _ & Hw) end.
  match goal with Hf : Sk.fit_transform _ = inr (?sc, _) |- (exists pf, ?sc = _ /\ _) /\ _ =>
    destruct (fit_transform_shape _ _ _ _ Hf Hw) as (pf & -> & Hpf & _) end.
  split; [eauto|].
  match goal with Hf : Sk.fit_transform (Arr.as_column ?c) = inr _ |- _ =>
    assert (Hwc : Forall (fun r => length r = 1) (Arr.as_column c))
      by (unfold Arr.as_column; apply Forall_map, Forall_forall; reflexivity);
    destruct (fit_transform_shape _ _ _ _ Hf Hwc) as (pt & -> & Hpt & _) end.
  destruct pt as [|[scale min] [|]]; try discriminate. eauto.
Qed.

(** X9: [LSTMPredictor.predict] cannot succeed on a predictor prepared by
    [prepare_data]: it hands the one-column array of predictions to the
    scaler of the nine features, whose inverse transform refuses it. *)
Theorem predict_after_prepare_data_raises (self self' : LSTMPredictor) (data : DataFrame)
    (arrays : list Matrix * list float64 * list Matrix * list float64 * Matrix)
    (X : list Matrix) :
  prepare_data self data = inr (self', arrays) ->
  exists e, predict self' X = inl e.
Proof.
  intros H. apply prepare_data_scalers in H as (_ & _ & (pf & Hpf & Hlen) & _).
  unfold predict. rewrite Hpf.
  destruct (p_model self') as [m|]; [|simpl; eauto].
  destruct (keras_predict_batch m X) as [e|preds]; [simpl; eauto|]. simpl.
  destruct (Sk.check_array (Arr.as_column preds)) as [e|P] eqn:Hc; [simpl; eauto|].
  apply check_array_inv in Hc as (-> & Hne & _). simpl.
  destruct preds as [|p preds]; [contradiction Hne; reflexivity|].
  simpl. rewrite Hlen. simpl. eauto.
Qed.

(** ** The forecast of the fallback path *)

Lemma flatten_as_column (l : list float64) : Arr.flatten (Arr.as_column l) = l.
Proof. clear_env.
  unfold Arr.flatten, Arr.as_column.
  induction l as [|x l IH]; simpl; [reflexivity | rewrite IH; reflexivity].
Qed.

(** What [predict_future] returns when it does not raise. *)
Lemma predict_future_inv (self : LSTMPredictor) (df : DataFrame) (days : Z)
    (out : list float64) :
  predict_future self df days = inr out ->
  length out = Z.to_nat days /\ (1 <= days)%Z /\
  exists window windowd scaled scale min,
    forecast_loop (p_model self) (p_lookback self) (length feature_names) (Z.to_nat days)
      (window, []) = inr (windowd, scaled) /\
    p_target_scaler self = Fitted [(scale, min)] /\
    out = map (fun p => Np.div (Np.sub p min) scale) scaled.
Proof. clear_env.
  unfold predict_future. intros H. exc_inv H. injection H as <-.
  match goal with Hl : forecast_loop _ _ _ _ _ = inr _ |- _ =>
    pose proof (forecast_loop_length _ _ _ _ _ _ _ _ Hl) as Hlen; simpl in Hlen end.
  match goal with Hi : Sk.inverse_transform _ _ = inr _ |- _ =>
    apply inverse_transform_column in Hi as (scale & min & Hsc & Hne & ->) end.
  rewrite flatten_as_column, length_map. split; [assumption|]. split.
  - match goal with Hn : ?l <> [] |- _ => destruct l; [congruence | simpl in Hlen; lia] end.
  - eauto 10.
Qed.

(** X10: [LSTMPredictor.predict_future]: a forecast that comes back holds one
    price per requested day, the scaled predictions of the forecast loop
    put through the inverse of the target scaler; for a horizon of zero
    days or less the call raises. *)
Theorem predict_future_horizon (self : LSTMPredictor) (df : DataFrame) (days : Z) :
  (forall out, predict_future self df days = inr out ->
     length out = Z.to_nat days /\ (1 <= days)%Z /\
     exists window windowd scaled scale min,
       forecast_loop (p_model self) (p_lookback self) (length feature_names)
         (Z.to_nat days) (window, []) = inr (windowd, scaled) /\
       p_target_scaler self = Fitted [(scale, min)] /\
       out = map (fun p => Np.div (Np.sub p min) scale) scaled) /\
  ((days <= 0)%Z -> exists e, predict_future self df days = inl e).
Proof. clear_env.
  split; [apply predict_future_inv|].
  intros Hd. destruct (predict_future self df days) as [e|out] eqn:H; [eauto|].
  apply predict_future_inv in H as (_ & H & _). lia.
Qed.

(** The simulations that end well each add one forecast of [future_days]
    prices; there are at most as many as were asked for. *)
Lemma simulations_inv (df : DataFrame) (future_days : Z) (n : nat) :
  forall (all_predictions all' : Matrix) (w w' : World),
    simulations df future_days n all_predictions w = (inr all', w') ->
    exists new, all' = all_predictions ++ new /\ length new <= n /\
      Forall (fun s => length s = Z.to_nat future_days /\ (1 <= future_days)%Z) new.
Proof.
  induction n as [|n IH]; intros all_predictions all' w w' H.
  - injection H as <- <-. exists []. rewrite app_nil_r. auto.
  - simpl simulations in H. unfold bind at 1, try_except at 1 in H.
    unfold bind, lift, train, model_fit, ret in H.
    destruct (prepare_data (LSTMPredictor_init 30) df)
      as [e|[p [[[[X_train y_train] X_test] y_test] sf]]]; simpl in H.
    { apply IH in H as (new & -> & Hlen & Hall). exists new. auto. }
    destruct (keras_fit _ _ _ _ _) as [e|[model hist]]; simpl in H.
    { apply IH in H as (new & -> & Hlen & Hall). exists new. auto. }
    destruct (predict_future _ _ _) as [e|fp] eqn:Hfp; simpl in H.
    { apply IH in H as (new & -> & Hlen & Hall). exists new. auto. }
    apply IH in H as (new & -> & Hlen & Hall).
    apply predict_future_inv in Hfp as (Hl & Hd & _).
    exists (fp :: new). rewrite <- app_assoc. simpl. split; [reflexivity|].
    split; [lia|]. constructor; auto.
Qed.

Lemma mean_axis0_length (a : Matrix) (r : list float64) :
  length (mean_axis0 (r :: a)) = length r.
Proof. clear_env. unfold mean_axis0. rewrite length_map, length_seq. reflexivity. Qed.

(** What a successful result of [run_lstm_prediction] holds. *)
Lemma run_lstm_prediction_success (symbol period : string) (num_simulations future_days : Z)
    (w w' : World) (r : Dict) :
  run_lstm_prediction symbol period num_simulations future_days w = (inr r, w') ->
  dict_get "success" r = Some (VBool true) ->
  (1 <= future_days)%Z /\ (1 <= num_simulations)%Z /\
  exists df sims last_date,
    download_stock_with_fallback symbol period = Some df /\
    last (index df) = Some last_date /\
    1 <= length sims <= Z.to_nat num_simulations /\
    Forall (fun s => length s = Z.to_nat future_days) sims /\
    length (mean_axis0 sims) = Z.to_nat future_days /\
    dict_get "predictions" r =
      Some (VDict [("dates",
                    VList (map VDate
                             (map (fun i => (last_date + (Z.of_nat i + 1))%Z)
                                  (range 0 (Z.to_nat future_days)))));
                   ("average", VList (map VFloat (mean_axis0 sims)));
                   ("std", VList (map VFloat (np_std_axis0 sims)));
                   ("simulations", VList (map (fun l => VList (map VFloat l)) sims))]).
Proof. clear_env.
  unfold run_lstm_prediction.
  destruct KERAS_AVAILABLE; simpl; [|intros [= <- <-]; discriminate].
  unfold try_except.
  destruct (download_stock_with_fallback symbol period) as [df|] eqn:Hdl;
    [|intros [= <- <-]; discriminate].
  destruct (Pd.empty df); [intros [= <- <-]; discriminate|].
  unfold bind at 1, lift at 1.
  destruct (Pd.col df "Close") as [e|historical_prices]; simpl;
    [intros [= <- <-]; discriminate|].
  unfold bind at 1.
  destruct (simulations df future_days (Z.to_nat num_simulations) [] w)
    as [[e|sims] w1] eqn:Hsim; [intros [= <- <-]; discriminate|].
  apply simulations_inv in Hsim as (new & -> & Hlen & Hall). simpl.
  destruct new as [|s new]; [intros [= <- <-]; discriminate|].
  unfold bind, lift, ret.
  destruct (Arr.item_last (index df)) as [e|last_date] eqn:Hlast; simpl;
    [intros [= <- <-]; discriminate|].
  destruct (Arr.item_last historical_prices) as [e|current_price]; simpl;
    [intros [= <- <-]; discriminate|].
  destruct (Arr.item_last (mean_axis0 (s :: new))) as [e|predicted_price]; simpl;
    [intros [= <- <-]; discriminate|].
  intros [= <- <-] _.
  pose proof (Forall_inv Hall) as [Hs Hd].
  split; [assumption|]. split; [simpl in Hlen; lia|].
  exists df, (s :: new), last_date.
  split; [reflexivity|]. split.
  { unfold Arr.item_last in Hlast. destruct (last (index df)); [|discriminate].
    injection Hlast as ->. reflexivity. }
  split; [simpl in *; lia|]. split.
  { eapply Forall_impl; [exact Hall|]. simpl. tauto. }
  split; [rewrite mean_axis0_length; assumption | reflexivity].
Qed.

(** X11: a successful result of [run_lstm_prediction] comes from at least one
    and at most [num_simulations] simulations; each forecast, their
    average and the list of dates hold [future_days] entries, and the
    dates are the days after the last historical date. *)
Theorem ensemble_output_contract (symbol period : string) (num_simulations future_days : Z)
    (w w' : World) (r : Dict) :
  run_lstm_prediction symbol period num_simulations future_days w = (inr r, w') ->
  dict_get "success" r = Some (VBool true) ->
  (1 <= future_days)%Z /\ (1 <= num_simulations)%Z /\
  exists df sims last_date,
    download_stock_with_fallback symbol period = Some df /\
    last (index df) = Some last_date /\
    1 <= length sims <= Z.to_nat num_simulations /\
    Forall (fun s => length s = Z.to_nat future_days) sims /\
    length (mean_axis0 sims) = Z.to_nat future_days /\
    dict_get "predictions" r =
      Some (VDict [("dates",
                    VList (map VDate
                             (map (fun i => (last_date + (Z.of_nat i + 1))%Z)
                                  (range 0 (Z.to_nat future_days)))));
                   ("average", VList (map VFloat (mean_axis0 sims)));
                   ("std", VList (map VFloat (np_std_axis0 sims)));
                   ("simulations", VList (map (fun l => VList (map VFloat l)) sims))]).
Proof.
  exact (run_lstm_prediction_success symbol period num_simulations future_days w w' r).
Qed.

(** X12: a request for zero days or less, or for zero simulations or less, is
    answered by a failure record, by both entry points; without a
    simulation nothing is fitted. *)
Theorem nonpositive_request_fails (symbol period : string) (num_simulations future_days : Z)
    (w : World) :
  ((future_days <= 0)%Z \/ (num_simulations <= 0)%Z ->
   exists msg w',
     run_lstm_prediction symbol period num_simulations future_days w
       = (inr (failure msg), w') /\
     ((num_simulations <= 0)%Z -> fit_calls w' = fit_calls w)) /\
  ((future_days <= 0)%Z ->
   exists msg w',
     run_lstm_prediction_pretrained symbol period future_days w = (inr (failure msg), w')).
Proof.
  split.
  - intros Hle.
    destruct (run_lstm_prediction_spec symbol period num_simulations future_days w)
      as (r & w' & Hrun & Hres & _ & _ & Hfit & _).
    destruct Hres as [[msg ->]|Hs].
    + exists msg, w'. split; [assumption|]. intros Hn.
      replace (Z.to_nat num_simulations) with 0 in Hfit by lia. lia.
    + destruct (run_lstm_prediction_success _ _ _ _ _ _ _ Hrun Hs) as (? & ? & _). lia.
  - intros Hle.
    destruct (run_lstm_prediction_pretrained_cases symbol period future_days w)
      as (r & w' & Hrun & Hres & Hoff & Hon).
    destruct Hres as [[msg ->]|Hs]; [eauto|].
    destruct KERAS_AVAILABLE.
    + destruct (load_pretrained_model_cases (ModelTrainer_init "models/pretrained") symbol w)
        as (b & Hload & _).
      specialize (Hon eq_refl b Hload).
      destruct b as [[[[model fsc] tsc] md]|].
      * destruct Hon as [_ Hr].
        destruct (fast_predict symbol future_days model fsc tsc md) as [e|r'] eqn:Hfast.
        -- subst r. discriminate.
        -- subst r'.
           destruct (fast_predict_result _ _ _ _ _ _ _ Hfast)
             as [[msg ->]|(_ & _ & H)]; [discriminate|].
           destruct H as (? & ? & ? & ? & ? & ? & ? & ? & ? & _ & _ & Hd & _). lia.
      * destruct (run_lstm_prediction_success _ _ _ _ _ _ _ Hon Hs) as (? & _). lia.
    + destruct (Hoff eq_refl) as [_ [msg ->]]. discriminate.
Qed.

(** ** The summary of a bulk run and [get_training_status] *)

Lemma string_app_inv_head (a b c : string) : (a ++ b = a ++ c)%string -> b = c.
Proof. clear_env.
  intros H. apply (f_equal list_ascii_of_string) in H.
  rewrite !list_ascii_of_string_app in H. apply app_inv_head in H.
  rewrite <- (string_of_list_ascii_of_string b), <- (string_of_list_ascii_of_string c), H.
  reflexivity.
Qed.


Lemma summary_path_not_artifact (self : ModelTrainer) (name symbol : string) :
  let p := (model_dir self ++ "/training_summary_" ++ name ++ ".json")%string in
  p <> model_path self symbol /\ p <> scaler_path self symbol /\
  p <> metadata_path self symbol.
Proof. clear_env.
  intros p.
  assert (Hp : last (list_ascii_of_string p) = Some "n"%char).
  { unfold p. rewrite !list_ascii_of_string_app, !last_app. reflexivity. }
  assert (Hm : last (list_ascii_of_string (model_path self symbol)) = Some "s"%char).
  { unfold model_path. rewrite !list_ascii_of_string_app, !last_app. reflexivity. }
  assert (Hs : last (list_ascii_of_string (scaler_path self symbol)) = Some "l"%char).
  { unfold scaler_path. rewrite !list_ascii_of_string_app, !last_app. reflexivity. }
  split; [intros Heq; rewrite Heq in Hp; congruence|].
  split; [intros Heq; rewrite Heq in Hp; congruence|].
  unfold p, metadata_path. intros Heq. apply string_app_inv_head in Heq.
  apply (f_equal list_ascii_of_string) in Heq.
  rewrite !list_ascii_of_string_app in Heq. simpl in Heq. discriminate.
Qed.

(** The training loop changes no file but artifact files. *)
Lemma train_loop_frame (self : ModelTrainer) (epochs batch_size : Z)
    (items : list (string * DataFrame)) (p : string) :
  (forall symbol, p <> model_path self symbol /\ p <> scaler_path self symbol /\
                  p <> metadata_path self symbol) ->
  forall (successful : list Dict) (failed : list string) (w w' : World) res,
    train_loop self items epochs batch_size successful failed w = (inr res, w') ->
    fs w' !! p = fs w !! p.
Proof.
  intros Hp. induction items as [|[symbol df] items IH]; intros successful failed w w' res H.
  - injection H as _ <-. reflexivity.
  - simpl train_loop in H. unfold bind in H.
    destruct (train_single_stock_cases self symbol df epochs batch_size w)
      as (r & w1 & Hr & Hframe & _).
    rewrite Hr in H. destruct (Hp symbol) as (H1 & H2 & H3).
    rewrite <- (Hframe p H1 H2 H3).
    destruct r; eapply IH; exact H.
Qed.

Lemma add_summary_absent (path key : string) (status : Dict) (w : World) :
  fs w !! path = None -> add_summary path key status w = (inr status, w).
Proof. clear_env.
  intros H. unfold add_summary, bind, path_exists. rewrite H. reflexivity.
Qed.

Lemma add_summary_present (path key : string) (status : Dict) (w : World) (v : PyVal) :
  fs w !! path = Some (FJson v) ->
  add_summary path key status w =
  (let status := dict_set key v status in
   let? total := dict_item "total_models" status in
   let? n := py_item v "successful" in
   let? total := py_iadd total n in
   inr (dict_set "total_models" total status), w).
Proof. clear_env.
  intros H. unfold add_summary, path_exists, json_load, read_file, lift, ret, bind.
  cbv beta. rewrite !H. cbv beta iota zeta.
  destruct (dict_item "total_models" (dict_set key v status)); [reflexivity|].
  destruct (py_item v "successful"); [reflexivity|]. simpl.
  destruct (py_iadd _ _); reflexivity.
Qed.

(** X13: after a bulk run for the Indian market on a store without a summary
    of the US market, [get_training_status] reads back the summary that
    [train_all_stocks] returned and reports its count of trained models
    as the total. *)
Theorem training_status_after_bulk_run (self : ModelTrainer)
    (stock_data : list (string * DataFrame)) (market_name : string)
    (epochs batch_size : Z) (w : World) :
  lower market_name = "indian" ->
  fs w !! us_summary_path self = None ->
  exists summary w' status n m,
    train_all_stocks self stock_data market_name epochs batch_size w = (inr summary, w') /\
    dict_get "successful" summary = Some (VInt (Z.of_nat n)) /\
    dict_get "failed" summary = Some (VInt (Z.of_nat m)) /\
    n + m = length stock_data /\
    get_training_status self w' = (inr (Some status), w') /\
    dict_get "indian_stocks" status = Some (VDict summary) /\
    dict_get "us_stocks" status = Some VNone /\
    dict_get "total_models" status = Some (VInt (Z.of_nat n)).
Proof.
  intros Hname Hus.
  unfold train_all_stocks. unfold bind at 1.
  destruct (train_loop_spec self epochs batch_size w stock_data [] [] w)
    as (successful & failed & w1 & Hloop & _ & _ & Hcount).
  rewrite Hloop. simpl app.
  assert (Hus1 : fs w1 !! us_summary_path self = None).
  { rewrite <- Hus. eapply train_loop_frame; [|exact Hloop].
    intros symbol. apply (summary_path_not_artifact self "us" symbol). }
  rewrite Hname.
  change (model_dir self ++ "/training_summary_" ++ "indian" ++ ".json")%string
    with (indian_summary_path self).
  unfold bind, datetime_now, write_file, ret. cbn [fs fit_calls clock].
  eexists _, _, _, (length successful), (length failed).
  split; [reflexivity|]. split; [reflexivity|]. split; [reflexivity|].
  split; [exact Hcount|].
  assert (Hne : indian_summary_path self <> us_summary_path self).
  { unfold us_summary_path, indian_summary_path. intros Heq.
    apply string_app_inv_head in Heq. discriminate. }
  unfold get_training_status, try_except. unfold bind at 1.
  erewrite add_summary_present by (cbn [fs]; apply lookup_insert_eq).
  cbn. unfold bind.
  rewrite add_summary_absent by (cbn [fs]; rewrite lookup_insert_ne by exact Hne; exact Hus1).
  unfold ret. repeat split; reflexivity.
Qed.

(** ** The rows that the indicators cost *)

Lemma rolling_mean_head (w : nat) (s : Series) (i : nat) :
  i + 1 < w -> Pd.at_ (Pd.rolling_mean w s) i = NaN.
Proof. clear_env.
  intros Hi. unfold Pd.at_, Pd.rolling_mean. rewrite nth_lookup, lookup_map.
  destruct (seq 0 (length s) !! i) as [j|] eqn:Hj; [|reflexivity].
  apply lookup_seq in Hj as [-> _]. simpl.
  destruct (Nat.ltb_spec (i + 1) w); [reflexivity | lia].
Qed.

Lemma filter_seq_bound (P : nat -> bool) (n k : nat) :
  (forall i, i < k -> P i = false) ->
  length (List.filter P (seq 0 n)) <= n - k.
Proof. clear_env.
  intros HP. induction n as [|n IH]; [simpl; lia|].
  rewrite seq_S, List.filter_app, length_app. simpl.
  destruct (P n) eqn:E; simpl.
  - destruct (Nat.lt_ge_cases n k) as [Hlt|Hge]; [rewrite HP in E by assumption; discriminate|].
    lia.
  - lia.
Qed.

(** A column whose first [k] values are NaN costs [dropna] the first [k]
    rows. *)
Lemma dropna_len_bound (df : DataFrame) (c : string) (s : Series) (k : nat) :
  In (c, s) (columns df) ->
  (forall i, i < k -> Np.isnan (Pd.at_ s i) = true) ->
  Pd.len (Pd.dropna df) <= Pd.len df - k.
Proof. clear_env.
  intros Hin Hnan. unfold Pd.dropna, Pd.take, Pd.len at 1. simpl. rewrite length_map.
  apply filter_seq_bound. intros i Hi. apply negb_false_iff.
  unfold Pd.row_has_nan. apply existsb_exists. exists (c, s). split; [assumption|].
  simpl. auto.
Qed.

Lemma has_column_take (df : DataFrame) (rows : list nat) (c : string) :
  Pd.has_column (Pd.take df rows) c = Pd.has_column df c.
Proof. clear_env.
  unfold Pd.has_column, Pd.take. simpl.
  rewrite (dict_get_map_values (fun s => map (Pd.at_ s) rows)).
  destruct (dict_get c (columns df)); reflexivity.
Qed.

Lemma calculate_technical_indicators_rows (df out : DataFrame) :
  Pd.has_column df "Close" = true ->
  calculate_technical_indicators df = inr out ->
  Pd.len (Pd.dropna out) <= Pd.len df - 19.
Proof. clear_env.
  intros Hc Hcalc.
  destruct (calculate_technical_indicators_inv _ _ Hc Hcalc)
    as [[Hz _]|(cols & close & Hcols & _ & Hma & _ & Hle)].
  - unfold Pd.dropna, Pd.take, Pd.len at 1. simpl. rewrite length_map, Hz. simpl. lia.
  - etransitivity; [|apply Nat.sub_le_mono_r; exact Hle].
    apply (dropna_len_bound out "MA20" (Pd.replace_inf NaN (Pd.rolling_mean 20 close))).
    + rewrite Hcols. apply in_map_iff. exists ("MA20", Pd.rolling_mean 20 close).
      split; [reflexivity|]. apply dict_get_In, Hma.
    + intros i Hi. pose proof (rolling_mean_head 20 close i ltac:(lia)) as Hh.
      unfold Pd.at_, Pd.replace_inf in *. rewrite nth_lookup in Hh.
      rewrite nth_lookup, lookup_map.
      destruct (Pd.rolling_mean 20 close !! i) as [x|]; simpl in *; [subst x|]; reflexivity.
Qed.

(** X14: the indicators cost nineteen rows: of the rows of a frame with a close
    column, at most all but nineteen are left once
    [calculate_technical_indicators] has run and the rows with a NaN are
    dropped. *)
Theorem indicators_cost_nineteen_rows (df out : DataFrame) :
  Pd.has_column df "Close" = true ->
  calculate_technical_indicators df = inr out ->
  Pd.len (Pd.dropna out) <= Pd.len df - 19.
Proof. clear_env. apply calculate_technical_indicators_rows. Qed.

Lemma add_features_rows (data df1 : DataFrame) :
  add_features data = inr df1 -> Pd.len (Pd.dropna df1) <= Pd.len data - 19.
Proof. clear_env.
  unfold add_features. intros H. exc_inv H. injection H as <-.
  match goal with |- Pd.len (Pd.dropna ?d) <= _ =>
    change (Pd.len data) with (Pd.len d);
    apply (dropna_len_bound d "MA20" (Pd.rolling_mean 20 a))
  end.
  - apply dict_get_In. unfold Pd.set_col. simpl.
    rewrite !dict_get_set_ne by discriminate. apply dict_get_set_eq.
  - intros i Hi. rewrite rolling_mean_head by lia. reflexivity.
Qed.

Lemma prepare_data_needs_rows (self : LSTMPredictor) (data : DataFrame) :
  Pd.len data < p_lookback self + 69 -> exists e, prepare_data self data = inl e.
Proof. clear_env.
  intros Hlt. destruct (prepare_data self data) as [e|r] eqn:H; [eauto|].
  exfalso. unfold prepare_data in H. exc_inv H.
  match goal with Ha : add_features data = inr ?d |- _ =>
    pose proof (add_features_rows _ _ Ha) as Hrows;
    destruct (Nat.ltb_spec (Pd.len (Pd.dropna d)) (p_lookback self + 50));
      [discriminate | lia]
  end.
Qed.

Lemma simulations_all_fail (df : DataFrame) (future_days : Z) (n : nat) (e : Exception)
    (all_predictions : Matrix) (w : World) :
  prepare_data (LSTMPredictor_init 30) df = inl e ->
  simulations df future_days n all_predictions w = (inr all_predictions, w).
Proof.
  intros He. induction n as [|n IH]; [reflexivity|].
  simpl simulations. unfold bind at 1, try_except at 1.
  unfold bind, lift. rewrite He. unfold ret. exact IH.
Qed.

(** X15: the fallback path needs 99 fetched rows: on a frame with fewer,
    [run_lstm_prediction] returns a failure record, whatever the number of
    simulations, and fits nothing. *)
Theorem fallback_path_needs_99_rows (symbol period : string) (num_simulations future_days : Z)
    (w : World) (df : DataFrame) :
  download_stock_with_fallback symbol period = Some df ->
  Pd.len df < 99 ->
  exists msg,
    run_lstm_prediction symbol period num_simulations future_days w
      = (inr (failure msg), w).
Proof.
  intros Hdl Hlt. unfold run_lstm_prediction.
  destruct KERAS_AVAILABLE; simpl; [|unfold ret; eauto].
  unfold try_except. rewrite Hdl.
  destruct (Pd.empty df); [unfold ret; eauto|].
  unfold bind at 1, lift at 1.
  destruct (Pd.col df "Close") as [e|historical_prices]; simpl; [unfold ret; eauto|].
  destruct (prepare_data_needs_rows (LSTMPredictor_init 30) df) as [e He]; [simpl; lia|].
  unfold bind at 1. rewrite (simulations_all_fail df future_days _ e [] w He).
  unfold ret. eauto.
Qed.

(** X16: the trainer needs [lookback + 69] raw rows: a frame with a close
    column and without indicator columns that has fewer gives no training
    arrays, and [train_single_stock] returns [None] without fitting and
    without writing. *)
Theorem training_needs_99_raw_rows (self : ModelTrainer) (symbol : string) (df : DataFrame)
    (epochs batch_size : Z) (w : World) :
  Pd.has_column df "Close" = true ->
  Pd.has_column df "MA5" = false ->
  Pd.len df < lookback self + 69 ->
  prepare_stock_data self df = None /\
  train_single_stock self symbol df epochs batch_size w = (inr None, w).
Proof.
  intros Hc Hma Hlt.
  assert (Hprep : prepare_stock_data self df = None).
  { unfold prepare_stock_data, prepare_stock_data_body. rewrite Hc. simpl.
    unfold indicator_frame. rewrite Hma. simpl.
    destruct (calculate_technical_indicators df) as [e|out] eqn:Hcalc; [reflexivity|].
    simpl. pose proof (calculate_technical_indicators_rows _ _ Hc Hcalc) as Hrows.
    destruct (Nat.ltb_spec (Pd.len (Pd.dropna out)) (lookback self + 50)); [reflexivity | lia]. }
  split; [assumption|].
  unfold train_single_stock, try_except. rewrite Hprep. reflexivity.
Qed.

Lemma fast_predict_few_rows (symbol : string) (future_days : Z) (model : Model)
    (fsc tsc : MinMaxScaler) (md : PyVal) (raw : DataFrame) :
  download_stock_with_fallback symbol "6mo" = Some raw ->
  Pd.len raw < 49 ->
  (exists e, fast_predict symbol future_days model fsc tsc md = inl e) \/
  (exists msg, fast_predict symbol future_days model fsc tsc md = inr (failure msg)).
Proof.
  intros Hdl Hlt.
  destruct (calculate_technical_indicators raw) as [e|df1] eqn:Hcalc.
  { unfold fast_predict.
    destruct (py_item md "trained_date"); simpl; [eauto|].
    destruct (py_item md "test_mae") as [|v1]; simpl; [eauto|].
    destruct (format_f v1); simpl; [eauto|].
    destruct (py_item md "test_loss") as [|v2]; simpl; [eauto|].
    destruct (format_f v2); simpl; [eauto|].
    rewrite Hdl. destruct (Pd.empty raw); [eauto|]. rewrite Hcalc. simpl. eauto. }
  destruct (Nat.lt_ge_cases (Pd.len (Pd.dropna df1)) 30) as [Hshort|Hlong].
  { eapply fast_predict_short; eassumption. }
  destruct (Pd.has_column raw "Close") eqn:Hc.
  { pose proof (calculate_technical_indicators_rows _ _ Hc Hcalc). lia. }
  assert (df1 = raw) as ->.
  { unfold calculate_technical_indicators in Hcalc. rewrite Hc in Hcalc.
    simpl in Hcalc. congruence. }
  assert (Hv : exists e, Pd.values (Pd.dropna raw) feature_names = inl e).
  { unfold Pd.values, feature_names.
    assert (Hn : dict_get "Close" (columns (Pd.dropna raw)) = None).
    { pose proof (has_column_take raw
        (List.filter (fun i => negb (Pd.row_has_nan (columns raw) i)) (seq 0 (Pd.len raw)))
        "Close") as Hh.
      rewrite Hc in Hh. unfold Pd.has_column in Hh. unfold Pd.dropna.
      destruct (dict_get "Close" _); [discriminate | reflexivity]. }
    cbn [mapM]. rewrite Hn. simpl.
    repeat match goal with |- context [match ?x with _ => _ end] => destruct x end; eauto. }
  destruct Hv as [e Hv]. unfold fast_predict.
  destruct (py_item md "trained_date"); simpl; [eauto|].
  destruct (py_item md "test_mae") as [|v1]; simpl; [eauto|].
  destruct (format_f v1); simpl; [eauto|].
  destruct (py_item md "test_loss") as [|v2]; simpl; [eauto|].
  destruct (format_f v2); simpl; [eauto|].
  rewrite Hdl. destruct (Pd.empty raw); [eauto|]. rewrite Hcalc. simpl.
  destruct (Nat.ltb_spec (Pd.len (Pd.dropna raw)) 30); [lia|].
  rewrite Hv. simpl. eauto.
Qed.

(** X17: the pretrained path needs 49 fetched rows: with an artifact in the
    store and a fetched frame of fewer rows,
    [run_lstm_prediction_pretrained] returns a failure record. *)
Theorem pretrained_path_needs_49_rows (symbol period : string) (future_days : Z)
    (w : World) (bundle : Model * MinMaxScaler * MinMaxScaler * PyVal) (raw : DataFrame) :
  load_pretrained_model (ModelTrainer_init "models/pretrained") symbol w
    = (inr (Some bundle), w) ->
  download_stock_with_fallback symbol "6mo" = Some raw ->
  Pd.len raw < 49 ->
  exists msg,
    run_lstm_prediction_pretrained symbol period future_days w = (inr (failure msg), w).
Proof.
  intros Hload Hdl Hlt. destruct bundle as [[[model fsc] tsc] md].
  destruct (run_lstm_prediction_pretrained_cases symbol period future_days w)
    as (r & w' & Hrun & _ & Hoff & Hon).
  rewrite Hrun. destruct KERAS_AVAILABLE.
  - destruct (Hon eq_refl _ Hload) as [-> Hr].
    destruct (fast_predict_few_rows symbol future_days model fsc tsc md raw Hdl Hlt)
      as [[e He]|[msg He]]; rewrite He in Hr; subst r; eauto.
  - destruct (Hoff eq_refl) as [-> [msg ->]]. eauto.
Qed.


(** ** The volume column *)

Lemma has_column_set_col_ne (df : DataFrame) (c c' : string) (s : Series) :
  c <> c' -> Pd.has_column (Pd.set_col df c s) c' = Pd.has_column df c'.
Proof. clear_env.
  intros Hne. unfold Pd.has_column, Pd.set_col. simpl.
  rewrite dict_get_set_ne by assumption. reflexivity.
Qed.

Lemma values_missing (df : DataFrame) (cs : list string) (c : string) :
  In c cs -> Pd.has_column df c = false -> exists e, Pd.values df cs = inl e.
Proof. clear_env.
  intros Hin Hc. unfold Pd.values.
  destruct (mapM _ cs) as [ss|] eqn:Hm.
  - exfalso.
    assert (Hs : is_Some (mapM (fun c => dict_get c (columns df)) cs)) by (rewrite Hm; eauto).
    apply mapM_is_Some_1 in Hs. rewrite Forall_forall in Hs.
    destruct (Hs c (proj2 (list_elem_of_In _ _) Hin)) as [s Hget]. simpl in Hget.
    unfold Pd.has_column in Hc. rewrite Hget in Hc. discriminate.
  - destruct (List.filter _ cs); eauto.
Qed.

Lemma has_column_map_values (f : Series -> Series) (idx : list Z)
    (cols : list (string * Series)) (c : string) :
  Pd.has_column (mkDataFrame idx (map (fun cs => (fst cs, f (snd cs))) cols)) c
  = match dict_get c cols with Some _ => true | None => false end.
Proof. clear_env.
  unfold Pd.has_column. simpl. rewrite dict_get_map_values.
  destruct (dict_get c cols); reflexivity.
Qed.

(** X18: without a volume column there is nothing to train on and nothing to
    predict from: [prepare_stock_data] returns [None], whatever else the
    frame holds, and [prepare_data] raises. *)
Theorem volume_column_required (self : ModelTrainer) (p : LSTMPredictor) (df : DataFrame) :
  In "Volume" (features self) ->
  Pd.has_column df "Volume" = false ->
  prepare_stock_data self df = None /\
  exists e, prepare_data p df = inl e.
Proof. clear_env.
  intros Hf Hv. split.
  - unfold prepare_stock_data.
    destruct (prepare_stock_data_body self df) as [e|r] eqn:H; [reflexivity|].
    unfold prepare_stock_data_body in H.
    destruct (Pd.has_column df "Close") eqn:Hc; simpl in H; [|congruence].
    exc_inv H. rename a into ff.
    destruct (Nat.ltb_spec (Pd.len ff) (lookback self + 50)); [congruence|].
    exfalso.
    assert (Hvff : Pd.has_column ff "Volume" = false).
    { unfold indicator_frame in Ha.
      destruct (Pd.has_column df "MA5"); simpl in Ha; [congruence|].
      exc_inv Ha. injection Ha as <-. unfold Pd.dropna. rewrite has_column_take.
      unfold calculate_technical_indicators in Ha0. rewrite Hc in Ha0. simpl in Ha0.
      exc_inv Ha0.
      destruct (Pd.len _ =? 0)%nat.
      { injection Ha0 as <-. unfold Pd.dropna_subset.
        rewrite has_column_take, has_column_set_col_ne by discriminate. exact Hv. }
      exc_inv Ha0. injection Ha0 as <-.
      match goal with Hif : (if Pd.has_column ?d "Volume" then _ else _) = inr _ |- _ =>
        assert (E : Pd.has_column d "Volume" = false)
          by (rewrite !has_column_set_col_ne by discriminate;
              unfold Pd.dropna_subset;
              rewrite has_column_take, has_column_set_col_ne by discriminate; exact Hv);
        rewrite E in Hif; injection Hif as <-
      end.
      rewrite (has_column_map_values (Pd.replace_inf NaN)).
      rewrite dict_get_set_ne by discriminate. exact E. }
    destruct (values_missing ff (features self) "Volume" Hf Hvff) as [e He].
    rewrite He in H. discriminate.
  - unfold prepare_data.
    destruct (Pd.col df "Close"); simpl; [eauto|].
    destruct (Pd.col df "High"); simpl; [eauto|].
    destruct (Pd.col df "Low"); simpl; [eauto|].
    unfold Pd.col, dict_item. unfold Pd.has_column in Hv.
    destruct (dict_get "Volume" (columns df)); [discriminate|]. simpl. eauto.
Qed.

(** ** The full pipeline *)



(** ** Forecasts for a longer horizon *)

Lemma forecast_loop_add (model : option Model) (L nf k j : nat) (st : Matrix * list float64) :
  forecast_loop model L nf (k + j) st =
  (let? st' := forecast_loop model L nf k st in forecast_loop model L nf j st').
Proof. clear_env.
  revert st. induction k as [|k IH]; intros st; [reflexivity|].
  simpl. destruct (forecast_step model L nf st) as [e|st1]; [reflexivity|]. simpl. apply IH.
Qed.

Lemma forecast_loop_appends (model : option Model) (L nf j : nat)
    (s s' : Matrix) (p p' : list float64) :
  forecast_loop model L nf j (s, p) = inr (s', p') ->
  exists more, p' = p ++ more /\ length more = j.
Proof. clear_env.
  revert s p. induction j as [|j IH]; intros s p H.
  - injection H as <- <-. exists []. rewrite app_nil_r. auto.
  - simpl in H. exc_inv H. destruct a as [s1 p1].
    apply IH in H as (more & -> & Hlen).
    unfold forecast_step in Ha. exc_inv Ha. injection Ha as <- <-.
    eexists (_ :: more). rewrite <- app_assoc. simpl. split; [reflexivity | lia].
Qed.

(** Where the predictions of [fast_predict] come from. *)
Lemma fast_predict_predictions (symbol : string) (future_days : Z) (model : Model)
    (fsc tsc : MinMaxScaler) (md : PyVal) (r : Dict) (v : PyVal) :
  fast_predict symbol future_days model fsc tsc md = inr r ->
  dict_get "predictions" r = Some v ->
  exists raw df1 vals window windowd scaled scale min,
    download_stock_with_fallback symbol "6mo" = Some raw /\
    calculate_technical_indicators raw = inr df1 /\
    Pd.values (Pd.dropna df1) feature_names = inr vals /\
    Sk.transform fsc (Arr.last_n 30 vals) = inr window /\
    forecast_loop (Some model) 30 (length feature_names) (Z.to_nat future_days)
      (window, []) = inr (windowd, scaled) /\
    tsc = Fitted [(scale, min)] /\
    v = VList (map VFloat (map (fun p => Np.div (Np.sub p min) scale) scaled)).
Proof.
  unfold fast_predict. intros H Hv. exc_inv H.
  destruct (download_stock_with_fallback symbol "6mo") as [raw|];
    [|injection H as <-; discriminate].
  destruct (Pd.empty raw); [injection H as <-; discriminate|].
  exc_inv H.
  match goal with Hc : calculate_technical_indicators raw = inr ?d |- _ =>
    destruct (Pd.len (Pd.dropna d) <? 30)%nat; [injection H as <-; discriminate|] end.
  exc_inv H. injection H as <-. simpl in Hv. injection Hv as <-.
  match goal with Hi : Sk.inverse_transform _ _ = inr _ |- _ =>
    apply inverse_transform_column in Hi as (scale & min & -> & _ & ->) end.
  rewrite flatten_as_column.
  eexists _, _, _, _, _, _, scale, min. repeat split; eauto.
Qed.

Lemma map_VFloat_inj (l1 l2 : list float64) : map VFloat l1 = map VFloat l2 -> l1 = l2.
Proof. clear_env.
  revert l2. induction l1 as [|x l1 IH]; intros [|y l2] H; try discriminate; [reflexivity|].
  simpl in H. injection H as -> H. f_equal. apply IH, H.
Qed.

(** X20: with the same artifact and the same fetched data, the prices
    predicted for a horizon are the first prices predicted for any longer
    horizon. *)
Theorem horizon_prefix_consistency (symbol period : string) (d d' : Z)
    (w w1 w2 : World) (r r' : Dict)
    (bundle : Model * MinMaxScaler * MinMaxScaler * PyVal) (prices prices' : list float64) :
  load_pretrained_model (ModelTrainer_init "models/pretrained") symbol w
    = (inr (Some bundle), w) ->
  (d <= d')%Z ->
  run_lstm_prediction_pretrained symbol period d w = (inr r, w1) ->
  run_lstm_prediction_pretrained symbol period d' w = (inr r', w2) ->
  dict_get "predictions" r = Some (VList (map VFloat prices)) ->
  dict_get "predictions" r' = Some (VList (map VFloat prices')) ->
  prices = firstn (Z.to_nat d) prices'.
Proof.
  intros Hload Hle Hrun Hrun' Hp Hp'. destruct bundle as [[[model fsc] tsc] md].
  assert (Hfast : forall days w0 r0 v,
            run_lstm_prediction_pretrained symbol period days w = (inr r0, w0) ->
            dict_get "predictions" r0 = Some v ->
            fast_predict symbol days model fsc tsc md = inr r0).
  { intros days w0 r0 v H Hv.
    destruct (run_lstm_prediction_pretrained_cases symbol period days w)
      as (r1 & w3 & Hr1 & _ & Hoff & Hon).
    rewrite H in Hr1. injection Hr1 as <- <-.
    destruct KERAS_AVAILABLE.
    - destruct (Hon eq_refl _ Hload) as [_ Hr].
      destruct (fast_predict symbol days model fsc tsc md) as [e|r2];
        [subst r0; discriminate | congruence].
    - destruct (Hoff eq_refl) as [_ [msg ->]]. discriminate. }
  pose proof (Hfast _ _ _ _ Hrun Hp) as H1.
  pose proof (Hfast _ _ _ _ Hrun' Hp') as H2.
  destruct (fast_predict_predictions _ _ _ _ _ _ _ _ H1 Hp)
    as (raw & df1 & vals & window & windowd & scaled & scale & min
        & Hdl & Hcalc & Hvals & Htr & Hloop & Htsc & Hv).
  destruct (fast_predict_predictions _ _ _ _ _ _ _ _ H2 Hp')
    as (raw' & df1' & vals' & window' & windowd' & scaled' & scale' & min'
        & Hdl' & Hcalc' & Hvals' & Htr' & Hloop' & Htsc' & Hv').
  rewrite Hdl in Hdl'. injection Hdl' as <-.
  rewrite Hcalc in Hcalc'. injection Hcalc' as <-.
  rewrite Hvals in Hvals'. injection Hvals' as <-.
  rewrite Htr in Htr'. injection Htr' as <-.
  rewrite Htsc in Htsc'. injection Htsc' as <- <-.
  injection Hv as Hv. injection Hv' as Hv'.
  apply map_VFloat_inj in Hv, Hv'. subst prices prices'.
  pose proof (forecast_loop_length _ _ _ _ _ _ _ _ Hloop) as Hlen. simpl in Hlen.
  destruct (Z.le_gt_cases 0 d) as [Hd|Hd].
  - replace (Z.to_nat d') with (Z.to_nat d + (Z.to_nat d' - Z.to_nat d)) in Hloop' by lia.
    rewrite forecast_loop_add, Hloop in Hloop'. simpl in Hloop'.
    apply forecast_loop_appends in Hloop' as (more & -> & _).
    rewrite map_app, <- Hlen, <- (length_map (fun p => Np.div (Np.sub p min) scale) scaled).
    rewrite firstn_app, Nat.sub_diag, firstn_all. simpl. rewrite app_nil_r. reflexivity.
  - replace (Z.to_nat d) with 0 in * by lia.
    destruct scaled; [reflexivity | discriminate].
Qed.

Lemma add_summary_world (path key : string) (status : Dict) (w : World) :
  snd (add_summary path key status w) = w.
Proof. clear_env.
  unfold add_summary, path_exists, json_load, read_file, lift, ret, bind. cbv beta.
  destruct (fs w !! path) as [f|] eqn:E; cbv beta iota zeta; rewrite ?E;
    cbv beta iota zeta; [|reflexivity].
  destruct f as [m|d|v]; cbv beta iota zeta; try reflexivity.
  repeat match goal with
         | |- context [match ?x with inl _ => _ | inr _ => _ end] => destruct x; simpl
         end; reflexivity.
Qed.

(** X21: [get_training_status] never raises and never writes.  Without summary
    files it reports no market and no model; a summary file that holds no
    [successful] entry makes it return [None], whatever the other file
    holds. *)
Theorem training_status_edge_cases (self : ModelTrainer) (w : World) :
  (exists r, get_training_status self w = (inr r, w)) /\
  (fs w !! indian_summary_path self = None ->
   fs w !! us_summary_path self = None ->
   get_training_status self w =
     (inr (Some [("model_directory", VStr (model_dir self));
                 ("indian_stocks", VNone);
                 ("us_stocks", VNone);
                 ("total_models", VInt 0)]), w)) /\
  (forall v e,
     fs w !! indian_summary_path self = Some (FJson v) ->
     py_item v "successful" = inl e ->
     get_training_status self w = (inr None, w)).
Proof. clear_env.
  split; [|split].
  - unfold get_training_status, try_except. unfold bind at 1.
    match goal with |- context [add_summary ?p ?k ?s w] =>
      pose proof (add_summary_world p k s w) as Hw1;
      destruct (add_summary p k s w) as [[e|st1] w1]
    end; simpl in Hw1; subst w1; [unfold ret; eauto|].
    unfold bind.
    match goal with |- context [add_summary ?p ?k ?s w] =>
      pose proof (add_summary_world p k s w) as Hw2;
      destruct (add_summary p k s w) as [[e|st2] w2]
    end; simpl in Hw2; subst w2; unfold ret; eauto.
  - intros Hi Hu. unfold get_training_status, try_except. unfold bind at 1.
    rewrite add_summary_absent by exact Hi. unfold bind.
    rewrite add_summary_absent by exact Hu. reflexivity.
  - intros v e Hi Hs. unfold get_training_status, try_except. unfold bind at 1.
    rewrite (add_summary_present _ _ _ _ v Hi). cbv zeta.
    destruct (dict_item "total_models" _); [reflexivity|].
    rewrite Hs. reflexivity.
Qed.

End Pipeline.

Arguments mkWorld {Model}.
Arguments fs {Model}.
Arguments fit_calls {Model}.
Arguments clock {Model}.

(** * The results on the sample data *)

Lemma forecast_frame_property_witness :
  exists seqk predsk seqk1 p last_row new_row,
    forecast_loop nat Sample.keras_predict (Some 0) 2 (length feature_names) 1
      (Sample.window2, []) = inr (seqk, predsk) /\
    forecast_loop nat Sample.keras_predict (Some 0) 2 (length feature_names) 2
      (Sample.window2, []) = inr (seqk1, predsk ++ [p]) /\
    length seqk = 2 /\
    last seqk = Some last_row /\
    model_predict nat Sample.keras_predict (Some 0) seqk = inr p /\
    new_row !! 0 = Some p /\
    (forall j, 1 <= j < 9 -> new_row !! j = last_row !! j) /\
    length new_row = 9 /\
    seqk1 = skipn 1 seqk ++ [new_row] /\
    length seqk1 = 2.
Proof.
  refine (forecast_frame_property nat Sample.keras_predict (Some 0) 2 3 1
            Sample.window2 _ _ _ _ _).
  - repeat constructor.
  - vm_compute. reflexivity.
  - lia.
Defined.

Lemma causal_windowing_witness :
  (exists X y fsc tsc,
     prepare_stock_data (ModelTrainer_init "models/pretrained") (Sample.bars 100)
       = Some (X, y, fsc, tsc) /\
     length X = 51 /\ length y = 51) /\
  (exists self' X_train y_train X_test y_test sf,
     prepare_data nat (LSTMPredictor_init nat 30) (Sample.bars 120)
       = inr (self', (X_train, y_train, X_test, y_test, sf)) /\
     length (X_train ++ X_test) = 71).
Proof.
  split.
  - assert (H1 : features (ModelTrainer_init "models/pretrained") = feature_names)
      by reflexivity.
    assert (H2 : Pd.has_column (Sample.bars 100) "Close" = true) by reflexivity.
    assert (H3 : indicator_frame (Sample.bars 100) = inr (Sample.frame 100))
      by (vm_compute; reflexivity).
    assert (H4 : Pd.well_formed (Sample.frame 100) = true) by (vm_compute; reflexivity).
    assert (H5 : Pd.values (Sample.frame 100) feature_names
                 = inr (Sample.rows (Sample.frame 100))) by (vm_compute; reflexivity).
    assert (H6 : Arr.all_finite (Sample.rows (Sample.frame 100)) = true)
      by (vm_compute; reflexivity).
    assert (H7 : lookback (ModelTrainer_init "models/pretrained") + 50
                 <= Pd.len (Sample.frame 100)) by (vm_compute; lia).
    destruct (proj1 (causal_windowing nat) _ _ _ _ H1 H2 H3 H4 H5 H6 H7)
      as (X & y & fsc & tsc & sf & sp & Hp & _ & _ & HX & Hy & _).
    exists X, y, fsc, tsc. split; [exact Hp|]. split; [exact HX | exact Hy].
  - set (df1 := match add_features (Sample.bars 120) with
                | inr d => d
                | inl _ => Sample.bars 0
                end).
    assert (H1 : add_features (Sample.bars 120) = inr df1) by (vm_compute; reflexivity).
    assert (H2 : Pd.values (Pd.dropna df1) feature_names = inr (Sample.rows (Pd.dropna df1)))
      by (vm_compute; reflexivity).
    assert (H3 : Arr.all_finite (Sample.rows (Pd.dropna df1)) = true)
      by (vm_compute; reflexivity).
    assert (H4 : p_lookback nat (LSTMPredictor_init nat 30) + 50 <= Pd.len (Pd.dropna df1))
      by (vm_compute; lia).
    destruct (proj2 (causal_windowing nat) _ _ _ _ H1 H2 H3 H4)
      as (self' & Xtr & ytr & Xte & yte & sf & sp & Hp & _ & _ & HX & _).
    exists self', Xtr, ytr, Xte, yte, sf. split; [exact Hp|].
    rewrite HX. vm_compute. reflexivity.
Defined.

Lemma insufficient_data_threshold_witness :
  prepare_stock_data (ModelTrainer_init "models/pretrained") (Sample.bars 60) = None /\
  (exists X y fsc tsc,
     prepare_stock_data (ModelTrainer_init "models/pretrained") (Sample.bars 100)
       = Some (X, y, fsc, tsc)) /\
  (exists e, prepare_data nat (LSTMPredictor_init nat 30) (Sample.bars 60) = inl e).
Proof.
  split; [|split].
  - assert (H1 : features (ModelTrainer_init "models/pretrained") = feature_names)
      by reflexivity.
    assert (H2 : Pd.has_column (Sample.bars 60) "Close" = true) by reflexivity.
    assert (H3 : indicator_frame (Sample.bars 60) = inr (Sample.frame 60))
      by (vm_compute; reflexivity).
    assert (H4 : Pd.well_formed (Sample.frame 60) = true) by (vm_compute; reflexivity).
    assert (H5 : Pd.values (Sample.frame 60) feature_names
                 = inr (Sample.rows (Sample.frame 60))) by (vm_compute; reflexivity).
    assert (H6 : Arr.all_finite (Sample.rows (Sample.frame 60)) = true)
      by (vm_compute; reflexivity).
    apply (proj1 (insufficient_data_threshold nat) _ _ _ _ H1 H2 H3 H4 H5 H6).
    vm_compute. lia.
  - assert (H1 : features (ModelTrainer_init "models/pretrained") = feature_names)
      by reflexivity.
    assert (H2 : Pd.has_column (Sample.bars 100) "Close" = true) by reflexivity.
    assert (H3 : indicator_frame (Sample.bars 100) = inr (Sample.frame 100))
      by (vm_compute; reflexivity).
    assert (H4 : Pd.well_formed (Sample.frame 100) = true) by (vm_compute; reflexivity).
    assert (H5 : Pd.values (Sample.frame 100) feature_names
                 = inr (Sample.rows (Sample.frame 100))) by (vm_compute; reflexivity).
    assert (H6 : Arr.all_finite (Sample.rows (Sample.frame 100)) = true)
      by (vm_compute; reflexivity).
    destruct (proj2 (proj1 (insufficient_data_threshold nat) _ _ _ _ H1 H2 H3 H4 H5 H6))
      as (X & y & fsc & tsc & Hp & _); [vm_compute; lia|].
    exists X, y, fsc, tsc. exact Hp.
  - set (df1 := match add_features (Sample.bars 60) with
                | inr d => d
                | inl _ => Sample.bars 0
                end).
    assert (H1 : add_features (Sample.bars 60) = inr df1) by (vm_compute; reflexivity).
    assert (H2 : Pd.values (Pd.dropna df1) feature_names = inr (Sample.rows (Pd.dropna df1)))
      by (vm_compute; reflexivity).
    assert (H3 : Arr.all_finite (Sample.rows (Pd.dropna df1)) = true)
      by (vm_compute; reflexivity).
    apply (proj1 (proj2 (insufficient_data_threshold nat) (LSTMPredictor_init nat 30)
                   _ _ _ H1 H2 H3)).
    vm_compute. lia.
Defined.

Lemma metadata_sample_counts_witness :
  exists md w' tr te,
    train_single_stock nat Sample.keras_fit Sample.keras_evaluate Sample.isoformat
      (ModelTrainer_init "models/pretrained") "TEST" (Sample.bars 100) 10 32
      (mkWorld ∅ 0 0) = (inr (Some md), w') /\
    dict_get "training_samples" md = Some (VInt tr) /\
    dict_get "test_samples" md = Some (VInt te) /\
    (tr + te = 51)%Z /\
    dict_get "features" md = Some (VList (map VStr feature_names)).
Proof.
  eexists _, _.
  assert (H : train_single_stock nat Sample.keras_fit Sample.keras_evaluate Sample.isoformat
      (ModelTrainer_init "models/pretrained") "TEST" (Sample.bars 100) 10 32
      (mkWorld ∅ 0 0) = (inr (Some _), _)) by (vm_compute; reflexivity).
  destruct (metadata_sample_counts nat Sample.keras_fit Sample.keras_evaluate Sample.isoformat
              (ModelTrainer_init "models/pretrained") _ _ _ _ _ _ _ eq_refl H)
    as (ff & X & y & fsc & tsc & model & hist & tr & te & Hff & _ & HX & _ & Htr & Hte & Hsum
        & _ & _ & _ & Hfeat).
  exists tr, te. split; [exact H|]. split; [exact Htr|]. split; [exact Hte|].
  split; [|exact Hfeat].
  rewrite Hsum. assert (Hff' : indicator_frame (Sample.bars 100) = inr (Sample.frame 100))
    by (vm_compute; reflexivity).
  rewrite Hff' in Hff. injection Hff as <-. vm_compute. reflexivity.
Defined.

Lemma model_store_key_and_miss_witness :
  let self := ModelTrainer_init "models/pretrained" in
  let w := snd (train_single_stock nat Sample.keras_fit Sample.keras_evaluate
                  Sample.isoformat self "M&M.NS" (Sample.bars 100) 10 32 (mkWorld ∅ 0 0)) in
  (exists bundle, load_pretrained_model nat self "M&M.NS" w = (inr (Some bundle), w)) /\
  load_pretrained_model nat self "TCS.NS" w = (inr None, w).
Proof.
  intros self w. split.
  - assert (H : train_single_stock nat Sample.keras_fit Sample.keras_evaluate
                  Sample.isoformat self "M&M.NS" (Sample.bars 100) 10 32 (mkWorld ∅ 0 0)
                = (inr (Some _), w)) by (vm_compute; reflexivity).
    destruct (proj2 (proj2 (proj2 (proj2
                (model_store_key_and_miss nat Sample.keras_fit Sample.keras_evaluate
                   Sample.isoformat self "M&M.NS" w)))) _ _ _ _ _ H)
      as (model & X & y & fsc & tsc & _ & _ & Hload).
    eexists. exact Hload.
  - apply (proj1 (proj2 (proj2
             (model_store_key_and_miss nat Sample.keras_fit Sample.keras_evaluate
                Sample.isoformat self "TCS.NS" w)))).
    left. vm_compute. reflexivity.
Defined.

Lemma soft_failure_witness :
  (exists msg w',
     run_lstm_prediction_pretrained nat Sample.keras_fit Sample.keras_predict true
       (fun _ _ => None) Sample.np_std_axis0 Sample.round2 "NOPE" "2y" 7 (mkWorld ∅ 0 0)
     = (inr (failure msg), w')) /\
  (let w := snd (train_single_stock nat Sample.keras_fit Sample.keras_evaluate
                   Sample.isoformat (ModelTrainer_init "models/pretrained") "TEST"
                   (Sample.bars 100) 10 32 (mkWorld ∅ 0 0)) in
   exists msg w',
     run_lstm_prediction_pretrained nat Sample.keras_fit Sample.keras_predict true
       (Sample.download 60) Sample.np_std_axis0 Sample.round2 "TEST" "2y" 7 w
     = (inr (failure msg), w')).
Proof.
  split.
  - apply (proj1 (proj1 (proj2 (proj2
             (soft_failure nat Sample.keras_fit Sample.keras_predict true (fun _ _ => None)
                Sample.np_std_axis0 Sample.round2 "NOPE" "2y" 1 7 (mkWorld ∅ 0 0))))
             (fun p => or_introl eq_refl))).
  - intros w.
    assert (H1 : load_pretrained_model nat (ModelTrainer_init "models/pretrained") "TEST" w
                 = (inr (Some _), w)) by (vm_compute; reflexivity).
    assert (H2 : Sample.download 60 "TEST" "6mo" = Some (Sample.frame 60))
      by (vm_compute; reflexivity).
    assert (H3 : calculate_technical_indicators (Sample.frame 60) = inr _)
      by (vm_compute; reflexivity).
    apply (proj2 (proj2 (proj2
             (soft_failure nat Sample.keras_fit Sample.keras_predict true (Sample.download 60)
                Sample.np_std_axis0 Sample.round2 "TEST" "2y" 1 7 w))) _ _ _ H1 H2 H3).
    vm_compute. lia.
Defined.



Lemma prediction_output_contract_witness :
  let w := snd (train_single_stock nat Sample.keras_fit Sample.keras_evaluate
                  Sample.isoformat (ModelTrainer_init "models/pretrained") "TEST"
                  (Sample.bars 100) 10 32 (mkWorld ∅ 0 0)) in
  exists r w' prices dates,
    run_lstm_prediction_pretrained nat Sample.keras_fit Sample.keras_predict true
      (Sample.download 100) Sample.np_std_axis0 Sample.round2 "TEST" "2y" 3 w = (inr r, w') /\
    dict_get "predictions" r = Some (VList (map VFloat prices)) /\
    length prices = 3 /\
    dict_get "future_dates" r = Some (VList (map VDate dates)) /\
    length dates = 3.
Proof.
  intros w.
  assert (Hload : load_pretrained_model nat (ModelTrainer_init "models/pretrained") "TEST" w
                  = (inr (Some (_, _, _, _)), w)) by (vm_compute; reflexivity).
  assert (Hrun : run_lstm_prediction_pretrained nat Sample.keras_fit Sample.keras_predict true
      (Sample.download 100) Sample.np_std_axis0 Sample.round2 "TEST" "2y" 3 w
      = (inr _, _)) by (vm_compute; reflexivity).
  destruct (prediction_output_contract nat Sample.keras_fit Sample.keras_predict true
              (Sample.download 100) Sample.np_std_axis0 Sample.round2 "TEST" "2y" 3
              _ _ _ _ _ _ _ Hload Hrun)
    as (window & windowd & scaled & scale & min & prices & dates & hist & last_date
        & _ & _ & _ & _ & _ & _ & Hp & Hpl & Hd & Hdl & _).
  { vm_compute. reflexivity. }
  eexists _, _, prices, dates. split; [exact Hrun|]. auto.
Defined.

(** ** More results on the sample data *)

Lemma indicator_frame_finite_witness :
  exists out s,
    calculate_technical_indicators (Sample.bars 40) = inr out /\
    dict_get "Price_Range" (columns (Pd.dropna out)) = Some s /\
    Forall (fun x => Np.isfinite x = true) s.
Proof.
  set (out := match calculate_technical_indicators (Sample.bars 40) with
              | inr d => d
              | inl _ => Sample.bars 0
              end).
  assert (H1 : Pd.has_column (Sample.bars 40) "Close" = true) by reflexivity.
  assert (H2 : calculate_technical_indicators (Sample.bars 40) = inr out)
    by (vm_compute; reflexivity).
  assert (H3 : dict_get "Price_Range" (columns (Pd.dropna out)) = Some _)
    by (vm_compute; reflexivity).
  eexists out, _. split; [exact H2|]. split; [exact H3|].
  exact (indicator_frame_finite _ _ _ _ H1 H2 H3).
Defined.

Lemma RSI_column_bounds_witness :
  exists out rsi,
    calculate_technical_indicators (Sample.rising 15) = inr out /\
    dict_get "RSI" (columns out) = Some rsi /\
    Forall in_0_100 rsi.
Proof.
  set (out := match calculate_technical_indicators (Sample.rising 15) with
              | inr d => d
              | inl _ => Sample.bars 0
              end).
  assert (H1 : Pd.has_column (Sample.rising 15) "Close" = true) by reflexivity.
  assert (H2 : calculate_technical_indicators (Sample.rising 15) = inr out)
    by (vm_compute; reflexivity).
  assert (H3 : dict_get "RSI" (columns out) = Some _) by (vm_compute; reflexivity).
  eexists out, _. split; [exact H2|]. split; [exact H3|].
  exact (RSI_column_bounds _ _ _ H1 H2 H3).
Defined.

Lemma clean_feature_data_total_witness :
  exists fd',
    clean_feature_data 2 [[Fin 1; NaN]; [PInf; Fin 4]] = Some fd' /\
    Arr.all_finite fd' = true /\
    Arr.item2 fd' 1 1 = inr (Fin 4).
Proof.
  destruct (clean_feature_data_total 2 [[Fin 1; NaN]; [PInf; Fin 4]])
    as (fd' & H1 & H2 & _ & _ & H3).
  - repeat constructor.
  - exists fd'. split; [exact H1|]. split; [exact H2|].
    apply H3; reflexivity.
Defined.

Lemma prepare_stock_data_shape_witness :
  exists X y fsc tsc,
    prepare_stock_data (ModelTrainer_init "models/pretrained") (Sample.bars 100)
      = Some (X, y, fsc, tsc) /\
    Forall (fun win => length win = 30 /\ Forall (fun r => length r = 9) win) X /\
    length y = length X.
Proof.
  assert (H1 : features (ModelTrainer_init "models/pretrained") = feature_names)
    by reflexivity.
  assert (H2 : Pd.has_column (Sample.bars 100) "Close" = true) by reflexivity.
  assert (H3 : indicator_frame (Sample.bars 100) = inr (Sample.frame 100))
    by (vm_compute; reflexivity).
  assert (H4 : Pd.well_formed (Sample.frame 100) = true) by (vm_compute; reflexivity).
  assert (H5 : Pd.values (Sample.frame 100) feature_names
               = inr (Sample.rows (Sample.frame 100))) by (vm_compute; reflexivity).
  assert (H6 : Arr.all_finite (Sample.rows (Sample.frame 100)) = true)
    by (vm_compute; reflexivity).
  assert (H7 : lookback (ModelTrainer_init "models/pretrained") + 50
               <= Pd.len (Sample.frame 100)) by (vm_compute; lia).
  destruct (prepare_stock_data_complete _ _ _ _ H1 H2 H3 H4 H5 H6 H7)
    as (X & y & fsc & tsc & sf & sp & Hp & _).
  destruct (prepare_stock_data_shape _ _ _ _ _ _ Hp) as (HX & Hy & _).
  exists X, y, fsc, tsc. split; [exact Hp|]. split; [exact HX | exact Hy].
Defined.

Lemma train_single_stock_effect_witness :
  exists r w',
    train_single_stock nat Sample.keras_fit Sample.keras_evaluate Sample.isoformat
      (ModelTrainer_init "models/pretrained") "TEST" (Sample.bars 60) 10 32
      (mkWorld ∅ 0 0) = (inr r, w') /\
    fs w' !! "models/pretrained/OTHER.keras" = None /\
    fit_calls w' <= 1.
Proof.
  destruct (train_single_stock_effect nat Sample.keras_fit Sample.keras_evaluate
              Sample.isoformat (ModelTrainer_init "models/pretrained") "TEST"
              (Sample.bars 60) 10 32 (mkWorld ∅ 0 0))
    as (r & w' & Hrun & Hframe & Hfit & _).
  exists r, w'. split; [exact Hrun|]. split.
  - rewrite Hframe; [reflexivity | vm_compute; discriminate ..].
  - simpl in Hfit. lia.
Defined.

Lemma failed_training_leaves_no_artifact_witness :
  let self := ModelTrainer_init "models/pretrained" in
  let w' := snd (train_single_stock nat Sample.keras_fit Sample.keras_evaluate
                   Sample.isoformat self "TEST" (Sample.bars 60) 10 32 (mkWorld ∅ 0 0)) in
  load_pretrained_model nat self "TEST" w' = (inr None, w').
Proof.
  intros self w'.
  apply (failed_training_leaves_no_artifact nat Sample.keras_fit Sample.keras_evaluate
           Sample.isoformat self "TEST" (Sample.bars 60) 10 32 (mkWorld ∅ 0 0) w').
  - reflexivity.
  - vm_compute. reflexivity.
Defined.

Lemma safe_symbol_idempotent_witness :
  safe_symbol "AAPL" = "AAPL" /\
  safe_symbol (safe_symbol "M&M.NS") = safe_symbol "M&M.NS".
Proof.
  split.
  - apply (proj1 (safe_symbol_idempotent "AAPL")); simpl; intuition discriminate.
  - apply (proj2 (safe_symbol_idempotent "M&M.NS")).
Defined.

Lemma predict_after_prepare_data_raises_witness :
  exists self' arrays e,
    prepare_data nat (LSTMPredictor_init nat 30) (Sample.bars 120) = inr (self', arrays) /\
    predict nat (fun _ X => inr (map (fun _ => Fin 0) X)) self' [Sample.window2] = inl e.
Proof.
  set (df1 := match add_features (Sample.bars 120) with
              | inr d => d
              | inl _ => Sample.bars 0
              end).
  assert (H1 : add_features (Sample.bars 120) = inr df1) by (vm_compute; reflexivity).
  assert (H2 : Pd.values (Pd.dropna df1) feature_names = inr (Sample.rows (Pd.dropna df1)))
    by (vm_compute; reflexivity).
  assert (H3 : Arr.all_finite (Sample.rows (Pd.dropna df1)) = true)
    by (vm_compute; reflexivity).
  assert (H4 : p_lookback nat (LSTMPredictor_init nat 30) + 50 <= Pd.len (Pd.dropna df1))
    by (vm_compute; lia).
  destruct (prepare_data_complete nat (LSTMPredictor_init nat 30) _ _ _ H1 H2 H3 H4)
    as (X & y & sc & tsc & sf & sp & Hp & _).
  destruct (predict_after_prepare_data_raises nat (fun _ X => inr (map (fun _ => Fin 0) X))
              _ _ _ _ [Sample.window2] Hp) as [e He].
  eexists _, _, e. split; [exact Hp | exact He].
Defined.

Lemma predict_future_horizon_witness :
  exists e,
    predict_future nat Sample.keras_predict (LSTMPredictor_init nat 30) (Sample.bars 100) 0
      = inl e.
Proof.
  apply (proj2 (predict_future_horizon nat Sample.keras_predict (LSTMPredictor_init nat 30)
                  (Sample.bars 100) 0)).
  lia.
Defined.

Lemma ensemble_output_contract_witness :
  exists r w' sims,
    run_lstm_prediction nat Sample.keras_fit Sample.keras_predict true
      (Sample.download 140) Sample.np_std_axis0 Sample.round2 "TEST" "2y" 2 3
      (mkWorld ∅ 0 0) = (inr r, w') /\
    1 <= length sims <= 2 /\
    Forall (fun s => length s = 3) sims /\
    length (mean_axis0 sims) = 3.
Proof.
  assert (Hrun : run_lstm_prediction nat Sample.keras_fit Sample.keras_predict true
      (Sample.download 140) Sample.np_std_axis0 Sample.round2 "TEST" "2y" 2 3
      (mkWorld ∅ 0 0) = (inr _, _)) by (vm_compute; reflexivity).
  destruct (ensemble_output_contract nat Sample.keras_fit Sample.keras_predict true
              (Sample.download 140) Sample.np_std_axis0 Sample.round2 "TEST" "2y" 2 3
              _ _ _ Hrun)
    as (_ & _ & df & sims & last_date & _ & _ & Hn & Hall & Havg & _).
  { vm_compute. reflexivity. }
  eexists _, _, sims. split; [exact Hrun|]. auto.
Defined.

Lemma nonpositive_request_fails_witness :
  (exists msg w',
     run_lstm_prediction nat Sample.keras_fit Sample.keras_predict true
       (Sample.download 140) Sample.np_std_axis0 Sample.round2 "TEST" "2y" 0 7
       (mkWorld ∅ 0 0) = (inr (failure msg), w') /\ fit_calls w' = 0) /\
  (exists msg w',
     run_lstm_prediction_pretrained nat Sample.keras_fit Sample.keras_predict true
       (Sample.download 140) Sample.np_std_axis0 Sample.round2 "TEST" "2y" 0
       (mkWorld ∅ 0 0) = (inr (failure msg), w')).
Proof.
  split.
  - destruct (proj1 (nonpositive_request_fails nat Sample.keras_fit Sample.keras_predict true
                       (Sample.download 140) Sample.np_std_axis0 Sample.round2
                       "TEST" "2y" 0 7 (mkWorld ∅ 0 0)))
      as (msg & w' & Hrun & Hfit); [right; lia|].
    exists msg, w'. split; [exact Hrun|]. apply Hfit. lia.
  - apply (proj2 (nonpositive_request_fails nat Sample.keras_fit Sample.keras_predict true
                    (Sample.download 140) Sample.np_std_axis0 Sample.round2
                    "TEST" "2y" 1 0 (mkWorld ∅ 0 0))).
    lia.
Defined.

Lemma training_status_after_bulk_run_witness :
  exists summary w' status,
    train_all_stocks nat Sample.keras_fit Sample.keras_evaluate Sample.isoformat
      (ModelTrainer_init "models/pretrained") [("TEST", Sample.bars 60)] "Indian" 10 32
      (mkWorld ∅ 0 0) = (inr summary, w') /\
    get_training_status nat (ModelTrainer_init "models/pretrained") w'
      = (inr (Some status), w') /\
    dict_get "indian_stocks" status = Some (VDict summary).
Proof.
  destruct (training_status_after_bulk_run nat Sample.keras_fit Sample.keras_evaluate
              Sample.isoformat (ModelTrainer_init "models/pretrained")
              [("TEST", Sample.bars 60)] "Indian" 10 32 (mkWorld ∅ 0 0))
    as (summary & w' & status & n & m & Hrun & _ & _ & _ & Hst & Hin & _).
  - vm_compute. reflexivity.
  - reflexivity.
  - exists summary, w', status. auto.
Defined.

Lemma indicators_cost_nineteen_rows_witness :
  exists out,
    calculate_technical_indicators (Sample.bars 40) = inr out /\
    Pd.len (Pd.dropna out) <= Pd.len (Sample.bars 40) - 19.
Proof.
  set (out := match calculate_technical_indicators (Sample.bars 40) with
              | inr d => d
              | inl _ => Sample.bars 0
              end).
  assert (H1 : Pd.has_column (Sample.bars 40) "Close" = true) by reflexivity.
  assert (H2 : calculate_technical_indicators (Sample.bars 40) = inr out)
    by (vm_compute; reflexivity).
  exists out. split; [exact H2|].
  exact (indicators_cost_nineteen_rows _ _ H1 H2).
Defined.

Lemma fallback_path_needs_99_rows_witness :
  exists msg,
    run_lstm_prediction nat Sample.keras_fit Sample.keras_predict true
      (Sample.download 100) Sample.np_std_axis0 Sample.round2 "TEST" "2y" 3 7
      (mkWorld ∅ 0 0) = (inr (failure msg), mkWorld ∅ 0 0).
Proof.
  apply (fallback_path_needs_99_rows nat Sample.keras_fit Sample.keras_predict true
           (Sample.download 100) Sample.np_std_axis0 Sample.round2 "TEST" "2y" 3 7
           (mkWorld ∅ 0 0) (Sample.frame 100)).
  - vm_compute. reflexivity.
  - vm_compute. lia.
Defined.

Lemma training_needs_99_raw_rows_witness :
  prepare_stock_data (ModelTrainer_init "models/pretrained") (Sample.bars 98) = None /\
  train_single_stock nat Sample.keras_fit Sample.keras_evaluate Sample.isoformat
    (ModelTrainer_init "models/pretrained") "TEST" (Sample.bars 98) 10 32 (mkWorld ∅ 0 0)
  = (inr None, mkWorld ∅ 0 0).
Proof.
  apply (training_needs_99_raw_rows nat Sample.keras_fit Sample.keras_evaluate
           Sample.isoformat (ModelTrainer_init "models/pretrained") "TEST" (Sample.bars 98)
           10 32 (mkWorld ∅ 0 0)).
  - reflexivity.
  - reflexivity.
  - vm_compute. lia.
Defined.

Lemma pretrained_path_needs_49_rows_witness :
  let w := snd (train_single_stock nat Sample.keras_fit Sample.keras_evaluate
                  Sample.isoformat (ModelTrainer_init "models/pretrained") "TEST"
                  (Sample.bars 100) 10 32 (mkWorld ∅ 0 0)) in
  30 <= Pd.len (Sample.frame 60) /\
  exists msg,
    run_lstm_prediction_pretrained nat Sample.keras_fit Sample.keras_predict true
      (Sample.download 60) Sample.np_std_axis0 Sample.round2 "TEST" "2y" 7 w
    = (inr (failure msg), w).
Proof.
  intros w. split; [vm_compute; lia|].
  assert (H1 : load_pretrained_model nat (ModelTrainer_init "models/pretrained") "TEST" w
               = (inr (Some _), w)) by (vm_compute; reflexivity).
  apply (pretrained_path_needs_49_rows nat Sample.keras_fit Sample.keras_predict true
           (Sample.download 60) Sample.np_std_axis0 Sample.round2 "TEST" "2y" 7 w
           _ (Sample.frame 60) H1).
  - vm_compute. reflexivity.
  - vm_compute. lia.
Defined.

Lemma volume_column_required_witness :
  let df := mkDataFrame [0%Z; 1%Z]
              [("Close", [Fin 1; Fin 2]); ("High", [Fin 2; Fin 3]); ("Low", [Fin 1; Fin 1])] in
  prepare_stock_data (ModelTrainer_init "models/pretrained") df = None /\
  exists e, prepare_data nat (LSTMPredictor_init nat 30) df = inl e.
Proof.
  intros df.
  apply (volume_column_required nat (ModelTrainer_init "models/pretrained")
           (LSTMPredictor_init nat 30) df).
  - simpl. tauto.
  - reflexivity.
Defined.


Lemma horizon_prefix_consistency_witness :
  let w := snd (train_single_stock nat Sample.keras_fit Sample.keras_evaluate
                  Sample.isoformat (ModelTrainer_init "models/pretrained") "TEST"
                  (Sample.bars 100) 10 32 (mkWorld ∅ 0 0)) in
  let prices := fun d =>
    match fst (run_lstm_prediction_pretrained nat Sample.keras_fit Sample.keras_predict true
                 (Sample.download 100) Sample.np_std_axis0 Sample.round2 "TEST" "2y" d w) with
    | inr r =>
        match dict_get "predictions" r with
        | Some (VList l) => map (fun v => match v with VFloat x => x | _ => NaN end) l
        | _ => []
        end
    | inl _ => []
    end in
  length (prices 2%Z) = 2 /\ prices 2%Z = firstn 2 (prices 3%Z).
Proof.
  intros w prices. split; [vm_compute; reflexivity|].
  assert (Hload : load_pretrained_model nat (ModelTrainer_init "models/pretrained") "TEST" w
                  = (inr (Some _), w)) by (vm_compute; reflexivity).
  assert (Hrun2 : run_lstm_prediction_pretrained nat Sample.keras_fit Sample.keras_predict true
      (Sample.download 100) Sample.np_std_axis0 Sample.round2 "TEST" "2y" 2 w
      = (inr _, _)) by (vm_compute; reflexivity).
  assert (Hrun3 : run_lstm_prediction_pretrained nat Sample.keras_fit Sample.keras_predict true
      (Sample.download 100) Sample.np_std_axis0 Sample.round2 "TEST" "2y" 3 w
      = (inr _, _)) by (vm_compute; reflexivity).
  apply (horizon_prefix_consistency nat Sample.keras_fit Sample.keras_predict true
           (Sample.download 100) Sample.np_std_axis0 Sample.round2 "TEST" "2y" 2 3
           w _ _ _ _ _ (prices 2%Z) (prices 3%Z) Hload ltac:(lia) Hrun2 Hrun3).
  - vm_compute. reflexivity.
  - vm_compute. reflexivity.
Defined.

Lemma training_status_edge_cases_witness :
  let w := mkWorld (Model := nat)
             (<["models/pretrained/training_summary_indian.json"
                := FJson nat (VDict [("market", VStr "Indian")])]> ∅) 0 0 in
  get_training_status nat (ModelTrainer_init "models/pretrained") w = (inr None, w) /\
  exists status,
    get_training_status nat (ModelTrainer_init "models/pretrained") (mkWorld ∅ 0 0)
      = (inr (Some status), mkWorld ∅ 0 0) /\
    dict_get "total_models" status = Some (VInt 0).
Proof.
  intros w. split.
  - destruct (training_status_edge_cases nat (ModelTrainer_init "models/pretrained") w)
      as (_ & _ & H).
    apply (H (VDict [("market", VStr "Indian")]) (KeyError "successful")).
    + vm_compute. reflexivity.
    + reflexivity.
  - eexists. split.
    + apply (proj1 (proj2 (training_status_edge_cases nat
                             (ModelTrainer_init "models/pretrained") (mkWorld ∅ 0 0))));
        reflexivity.
    + reflexivity.
Defined.
